(** * Analytics ingestion, retention and aggregation of the auction API

    A shallow embedding of [src/analytics/analytics.service.ts]
    (AnalyticsService) and [src/analytics/repositories/analytics.repository.ts]
    (AnalyticsRepository), with the two Mongoose schemas they write to, and
    of their callers: the dashboard of [src/analytics/analytics.controller.ts]
    and [src/auction/services/auction-tracking.service.ts]
    (AuctionTrackingService).

    Times are epoch milliseconds in [Z].  The two in-process caches are
    [Map<string, number>] objects and are modelled as [gmap string Z]; the
    two Mongo collections are lists of documents in natural order. *)

From Stdlib Require Import ZArith Lia List Ascii String.
From Stdlib Require Import Sorting.Sorted Sorting.Permutation.
From stdpp Require Import base strings gmap list sorting.

Local Open Scope Z_scope.

(** ** JavaScript dates *)

(** A JS [Date] object holds a time value or NaN ("Invalid Date"). *)
Inductive JsDate : Type :=
| ValidDate (ms : Z)
| InvalidDate.

#[global] Instance JsDate_eq_dec : EqDecision JsDate.
Proof. solve_decision. Defined.

(** [isNaN(d.getTime())] *)
Definition isNaNDate (d : JsDate) : bool :=
  match d with
  | ValidDate _ => false
  | InvalidDate => true
  end.

(** Mongo comparison [{ $gte: bound }] on a stored date. *)
Definition date_gte (d : JsDate) (bound : Z) : bool :=
  match d with
  | ValidDate ms => bound <=? ms
  | InvalidDate => false
  end.

(** Mongo comparison [{ $lte: bound }]. *)
Definition date_lte (d : JsDate) (bound : Z) : bool :=
  match d with
  | ValidDate ms => ms <=? bound
  | InvalidDate => false
  end.

(** Mongo comparison [{ $lt: bound }]. *)
Definition date_lt (d : JsDate) (bound : Z) : bool :=
  match d with
  | ValidDate ms => ms <? bound
  | InvalidDate => false
  end.

(** *** A concrete date-string reader

    [new Date(s)] is a JavaScript builtin.  The service below is
    parameterised by it; the reader here covers the UTC form of the
    ECMAScript date-time string format, [YYYY-MM-DDTHH:mm:ss.sssZ] (what
    [toISOString] emits, and what the callers in the auction repository
    send), and is the instance used for the concrete runs. *)

Definition digitOf (c : ascii) : option Z :=
  let n := Z.of_N (N_of_ascii c) in
  if (48 <=? n) && (n <=? 57) then Some (n - 48) else None.

Fixpoint digitsOf (acc : Z) (cs : list ascii) : option Z :=
  match cs with
  | [] => Some acc
  | c :: rest =>
      match digitOf c with
      | Some d => digitsOf (10 * acc + d) rest
      | None => None
      end
  end.

(** Days from 1970-01-01 to the civil date [y]-[m]-[d]. *)
Definition daysFromCivil (y m d : Z) : Z :=
  let y' := if m <=? 2 then y - 1 else y in
  let era := y' / 400 in
  let yoe := y' - era * 400 in
  let mp := if 2 <? m then m - 3 else m + 9 in
  let doy := (153 * mp + 2) / 5 + d - 1 in
  let doe := yoe * 365 + yoe / 4 - yoe / 100 + doy in
  era * 146097 + doe - 719468.

Definition inRange (lo hi x : Z) : bool := (lo <=? x) && (x <=? hi).

Definition isoDateParse (s : string) : JsDate :=
  match list_ascii_of_string s with
  | [y1; y2; y3; y4; "-"; m1; m2; "-"; d1; d2; "T";
     h1; h2; ":"; n1; n2; ":"; s1; s2; "."; f1; f2; f3; "Z"]%char =>
      match digitsOf 0 [y1; y2; y3; y4], digitsOf 0 [m1; m2],
            digitsOf 0 [d1; d2], digitsOf 0 [h1; h2],
            digitsOf 0 [n1; n2], digitsOf 0 [s1; s2],
            digitsOf 0 [f1; f2; f3] with
      | Some y, Some m, Some d, Some h, Some n, Some sec, Some f =>
          if inRange 1 12 m && inRange 1 31 d && inRange 0 23 h
             && inRange 0 59 n && inRange 0 59 sec
          then ValidDate
                 (daysFromCivil y m d * 86400000
                  + h * 3600000 + n * 60000 + sec * 1000 + f)
          else InvalidDate
      | _, _, _, _, _, _, _ => InvalidDate
      end
  | _ => InvalidDate
  end.

(** ** Data model *)

(** [TrackingSources] of [dto/track-click.dto.ts]. *)
Inductive TrackingSources : Type :=
| SEARCH_RESULTS
| BROWSE
| RECOMMENDATIONS
| DIRECT
| SEARCH.

#[global] Instance TrackingSources_eq_dec : EqDecision TrackingSources.
Proof. solve_decision. Defined.

(** [TrackImpressionDto] and [TrackClickDto] declare the same fields. *)
Record TrackDto : Type := mkDto {
  item_id : string;
  session_id : string;
  user_id : option string;
  source : TrackingSources;
  search_query : option string;
  position_in_results : option Z;
  timestamp : option string
}.

(** A document of [impression_events] or [click_events].  The impression
    schema has no [position_in_results] path. *)
Record Event : Type := mkEvent {
  doc_item_id : string;
  doc_session_id : string;
  doc_user_id : option string;
  doc_source : TrackingSources;
  doc_search_query : option string;
  doc_position_in_results : option Z;
  doc_timestamp : JsDate
}.

#[global] Instance Event_eq_dec : EqDecision Event.
Proof. solve_decision. Defined.

Inductive EventKind : Type :=
| Impression
| Click.

#[global] Instance EventKind_eq_dec : EqDecision EventKind.
Proof. solve_decision. Defined.

(** [AnalyticsConfig] *)
Record AnalyticsConfig : Type := mkConfig {
  RATE_LIMIT_WINDOW : Z;
  IMPRESSION_COOLDOWN : Z;
  CLICK_COOLDOWN : Z;
  CLEANUP_INTERVAL : Z;
  DATA_RETENTION_DAYS : Z
}.

(** The defaults given to [configService.get] in the constructor. *)
Definition defaultConfig : AnalyticsConfig :=
  {| RATE_LIMIT_WINDOW := 60000;
     IMPRESSION_COOLDOWN := 30000;
     CLICK_COOLDOWN := 5000;
     CLEANUP_INTERVAL := 300000;
     DATA_RETENTION_DAYS := 90 |}.

(** The mutable state the service works on: its two caches and the two
    collections behind the repository. *)
Record State : Type := mkState {
  impressionCache : gmap string Z;
  clickCache : gmap string Z;
  impression_events : list Event;
  click_events : list Event
}.

Definition emptyState : State :=
  {| impressionCache := ∅; clickCache := ∅;
     impression_events := []; click_events := [] |}.

Definition cacheOf (k : EventKind) (st : State) : gmap string Z :=
  match k with
  | Impression => impressionCache st
  | Click => clickCache st
  end.

Definition eventsOf (k : EventKind) (st : State) : list Event :=
  match k with
  | Impression => impression_events st
  | Click => click_events st
  end.

Definition setCache (k : EventKind) (c : gmap string Z) (st : State) : State :=
  match k with
  | Impression =>
      {| impressionCache := c; clickCache := clickCache st;
         impression_events := impression_events st;
         click_events := click_events st |}
  | Click =>
      {| impressionCache := impressionCache st; clickCache := c;
         impression_events := impression_events st;
         click_events := click_events st |}
  end.

Definition setEvents (k : EventKind) (es : list Event) (st : State) : State :=
  match k with
  | Impression =>
      {| impressionCache := impressionCache st; clickCache := clickCache st;
         impression_events := es; click_events := click_events st |}
  | Click =>
      {| impressionCache := impressionCache st; clickCache := clickCache st;
         impression_events := impression_events st; click_events := es |}
  end.

Definition cooldownOf (k : EventKind) (cfg : AnalyticsConfig) : Z :=
  match k with
  | Impression => IMPRESSION_COOLDOWN cfg
  | Click => CLICK_COOLDOWN cfg
  end.

(** Availability of the database during one service call. *)
Inductive Fault : Type :=
| Healthy
| ReadFails
| WriteFails.

Definition readUp (f : Fault) : bool :=
  match f with ReadFails => false | _ => true end.

Definition writeUp (f : Fault) : bool :=
  match f with WriteFails => false | _ => true end.

(** ** AnalyticsRepository

    Reads and writes on one collection.  [Model.findOne], [find],
    [countDocuments], [distinct], [insertMany] and [deleteMany] are taken
    with their Mongoose meaning on a list of documents. *)

(** What the schema does to the object handed to [new this.model(data)]:
    paths the schema does not declare are dropped. *)
Definition castDoc (k : EventKind) (data : Event) : Event :=
  match k with
  | Impression =>
      {| doc_item_id := doc_item_id data;
         doc_session_id := doc_session_id data;
         doc_user_id := doc_user_id data;
         doc_source := doc_source data;
         doc_search_query := doc_search_query data;
         doc_position_in_results := None;
         doc_timestamp := doc_timestamp data |}
  | Click => data
  end.

(** Validation on save, from [@Prop({ required: true })]: a required string
    is non-empty, and a required [Date] must cast, which an Invalid Date does
    not.  [source] is in its enum by typing. *)
Definition validateDoc (doc : Event) : bool :=
  negb (bool_decide (doc_item_id doc = EmptyString))
  && negb (bool_decide (doc_session_id doc = EmptyString))
  && negb (isNaNDate (doc_timestamp doc)).

(** [createImpression] / [createClick]: [new model(data).save()].  [None] is
    a rejected promise. *)
Definition createEvent (k : EventKind) (f : Fault) (data : Event)
    (coll : list Event) : option (Event * list Event) :=
  let doc := castDoc k data in
  if writeUp f && validateDoc doc then Some (doc, coll ++ [doc]) else None.

Definition createImpression := createEvent Impression.
Definition createClick := createEvent Click.

(** [createImpressionsBatch] / [createClicksBatch]: [insertMany] validates
    every document first and inserts nothing when one fails (ordered). *)
Definition createEventsBatch (k : EventKind) (f : Fault) (datas : list Event)
    (coll : list Event) : option (list Event * list Event) :=
  let docs := map (castDoc k) datas in
  if writeUp f && forallb validateDoc docs
  then Some (docs, coll ++ docs)
  else None.

Definition createImpressionsBatch := createEventsBatch Impression.
Definition createClicksBatch := createEventsBatch Click.

Definition matchesPair (sessionId itemId : string) (startTime : Z)
    (e : Event) : bool :=
  bool_decide (doc_session_id e = sessionId)
  && bool_decide (doc_item_id e = itemId)
  && date_gte (doc_timestamp e) startTime.

(** [findImpressionBySessionAndItem] / [findClickBySessionAndItem]:
    [findOne({ session_id, item_id, timestamp: { $gte: startTime } })]. *)
Definition findBySessionAndItem (f : Fault) (coll : list Event)
    (sessionId itemId : string) (startTime : Z) : option (option Event) :=
  if readUp f
  then Some (List.find (matchesPair sessionId itemId startTime) coll)
  else None.

Definition findImpressionBySessionAndItem := findBySessionAndItem.
Definition findClickBySessionAndItem := findBySessionAndItem.

(** [findExistingImpressions] / [findExistingClicks]: one [find] with an
    [$or] over the pairs. *)
Definition findExisting (f : Fault) (coll : list Event)
    (sessionItemPairs : list (string * string)) (startTime : Z)
    : option (list Event) :=
  if readUp f
  then Some (List.filter
               (fun e => existsb (fun p => matchesPair p.1 p.2 startTime e)
                           sessionItemPairs)
               coll)
  else None.

Definition findExistingImpressions := findExisting.
Definition findExistingClicks := findExisting.

(** [deleteOldImpressions] / [deleteOldClicks]:
    [deleteMany({ timestamp: { $lt: cutoffDate } })].  An Invalid Date does
    not cast in the query, and the promise is rejected. *)
Definition deleteOld (cutoffDate : JsDate) (coll : list Event)
    : option (Z * list Event) :=
  match cutoffDate with
  | InvalidDate => None
  | ValidDate c =>
      let kept := List.filter (fun e => negb (date_lt (doc_timestamp e) c)) coll in
      let gone := List.filter (fun e => date_lt (doc_timestamp e) c) coll in
      Some (Z.of_nat (length gone), kept)
  end.

Definition deleteOldImpressions := deleteOld.
Definition deleteOldClicks := deleteOld.

(** The elements of [l] at the positions marked [true]. *)
Fixpoint select {A} (marks : list bool) (l : list A) : list A :=
  match marks, l with
  | true :: marks', x :: l' => x :: select marks' l'
  | false :: marks', _ :: l' => select marks' l'
  | _, _ => []
  end.

(** A stored document whose timestamp is a valid instant. *)
Definition hasValidTimestamp (e : Event) : Prop :=
  isNaNDate (doc_timestamp e) = false.

(** ** AnalyticsService: ingestion *)

(** The result of one tracking call.  [RateLimited] and [Duplicate] are the
    two [BadRequestException]s the service throws ("tracked too recently",
    "already tracked"); [StoreError] is a rejected repository promise that
    the call lets through. *)
Inductive Outcome : Type :=
| Accepted (doc : Event)
| RateLimited
| Duplicate
| StoreError.

(** A rejection by the service itself: one of its two
    [BadRequestException]s. *)
Definition isRejection (o : Outcome) : Prop := o = RateLimited \/ o = Duplicate.

(** [`${session_id}_${item_id}`] *)
Definition cacheKey (sessionId itemId : string) : string :=
  sessionId +:+ "_" +:+ itemId.

Definition dtoKey (dto : TrackDto) : string :=
  cacheKey (session_id dto) (item_id dto).

(** [cache.has(key) && now - cache.get(key) < cooldown] *)
Definition tooRecent (cooldown now : Z) (key : string)
    (cache : gmap string Z) : bool :=
  match cache !! key with
  | Some last => bool_decide (now - last < cooldown)
  | None => false
  end.

(** [cleanCache]: delete every entry whose timestamp is before
    [now - RATE_LIMIT_WINDOW]. *)
Definition cleanCache (cfg : AnalyticsConfig) (now : Z)
    (cache : gmap string Z) : gmap string Z :=
  let cutoff := now - RATE_LIMIT_WINDOW cfg in
  filter (fun kv => ¬ (kv.2 < cutoff)) cache.

(** The timer callback installed by [onModuleInit]. *)
Definition cleanupTick (cfg : AnalyticsConfig) (now : Z) (st : State) : State :=
  setCache Click (cleanCache cfg now (clickCache st))
    (setCache Impression (cleanCache cfg now (impressionCache st)) st).

Section Ingestion.

(** [new Date(s)] on a string. *)
Variable newDate : string -> JsDate.

Variable cfg : AnalyticsConfig.

(** [dto.timestamp ? new Date(dto.timestamp) : new Date()], where [clock]
    is what [new Date()] reads when the expression is evaluated.  An empty
    string is falsy. *)
Definition eventTimestamp (ts : option string) (clock : Z) : JsDate :=
  match ts with
  | Some s => if bool_decide (s = EmptyString) then ValidDate clock else newDate s
  | None => ValidDate clock
  end.

(** [{ ...dto, timestamp: ... }] *)
Definition eventData (dto : TrackDto) (clock : Z) : Event :=
  {| doc_item_id := item_id dto;
     doc_session_id := session_id dto;
     doc_user_id := user_id dto;
     doc_source := source dto;
     doc_search_query := search_query dto;
     doc_position_in_results := position_in_results dto;
     doc_timestamp := eventTimestamp (timestamp dto) clock |}.

(** [trackImpression] / [trackClick].  [now] is the [Date.now()] read on
    entry, [clock] the later reading of [new Date()], [f] the state of the
    database during the call. *)
Definition trackEvent (k : EventKind) (now clock : Z) (f : Fault)
    (dto : TrackDto) (st : State) : Outcome * State :=
  let key := dtoKey dto in
  if tooRecent (cooldownOf k cfg) now key (cacheOf k st)
  then (RateLimited, st)
  else
    let startTime := now - RATE_LIMIT_WINDOW cfg in
    match findBySessionAndItem f (eventsOf k st)
            (session_id dto) (item_id dto) startTime with
    | None => (StoreError, st)
    | Some (Some _) => (Duplicate, st)
    | Some None =>
        let data := eventData dto clock in
        let st1 := setCache k (<[key := now]> (cacheOf k st)) st in
        match createEvent k f data (eventsOf k st1) with
        | None => (StoreError, st1)
        | Some (doc, coll) => (Accepted doc, setEvents k coll st1)
        end
    end.

(** The five ways a tracking call ends, read off its branches. *)
Inductive TrackRun (k : EventKind) (now clock : Z) (f : Fault)
    (dto : TrackDto) (st : State) : Outcome -> State -> Prop :=
| run_rate_limited :
    tooRecent (cooldownOf k cfg) now (dtoKey dto) (cacheOf k st) = true ->
    TrackRun k now clock f dto st RateLimited st
| run_read_failed :
    tooRecent (cooldownOf k cfg) now (dtoKey dto) (cacheOf k st) = false ->
    readUp f = false ->
    TrackRun k now clock f dto st StoreError st
| run_duplicate e :
    tooRecent (cooldownOf k cfg) now (dtoKey dto) (cacheOf k st) = false ->
    readUp f = true ->
    List.find (matchesPair (session_id dto) (item_id dto)
                 (now - RATE_LIMIT_WINDOW cfg)) (eventsOf k st) = Some e ->
    TrackRun k now clock f dto st Duplicate st
| run_write_failed :
    tooRecent (cooldownOf k cfg) now (dtoKey dto) (cacheOf k st) = false ->
    readUp f = true ->
    List.find (matchesPair (session_id dto) (item_id dto)
                 (now - RATE_LIMIT_WINDOW cfg)) (eventsOf k st) = None ->
    writeUp f && validateDoc (castDoc k (eventData dto clock)) = false ->
    TrackRun k now clock f dto st StoreError
      (setCache k (<[dtoKey dto := now]> (cacheOf k st)) st)
| run_accepted :
    tooRecent (cooldownOf k cfg) now (dtoKey dto) (cacheOf k st) = false ->
    readUp f = true ->
    List.find (matchesPair (session_id dto) (item_id dto)
                 (now - RATE_LIMIT_WINDOW cfg)) (eventsOf k st) = None ->
    writeUp f && validateDoc (castDoc k (eventData dto clock)) = true ->
    TrackRun k now clock f dto st
      (Accepted (castDoc k (eventData dto clock)))
      (setEvents k (eventsOf k st ++ [castDoc k (eventData dto clock)])
         (setCache k (<[dtoKey dto := now]> (cacheOf k st)) st)).

Definition trackImpression := trackEvent Impression.
Definition trackClick := trackEvent Click.

(** The [for] loop of the batch calls: the events kept for insertion and
    the cache after the loop.  The loop runs without yielding; [clock] is
    what its [new Date()] reads. *)
Fixpoint batchLoop (k : EventKind) (now clock : Z) (existingSet : gset string)
    (dtos : list TrackDto) (cache : gmap string Z)
    : list Event * gmap string Z :=
  match dtos with
  | [] => ([], cache)
  | dto :: rest =>
      let key := dtoKey dto in
      if tooRecent (cooldownOf k cfg) now key cache
      then batchLoop k now clock existingSet rest cache
      else if bool_decide (key ∈ existingSet)
      then batchLoop k now clock existingSet rest cache
      else
        let (valid, cache') :=
          batchLoop k now clock existingSet rest (<[key := now]> cache) in
        (eventData dto clock :: valid, cache')
  end.

(** The same loop, noting for each input event whether it is pushed to the
    valid list. *)
Fixpoint batchDecisions (k : EventKind) (now : Z) (existingSet : gset string)
    (dtos : list TrackDto) (cache : gmap string Z) : list bool :=
  match dtos with
  | [] => []
  | dto :: rest =>
      let key := dtoKey dto in
      if tooRecent (cooldownOf k cfg) now key cache
      then false :: batchDecisions k now existingSet rest cache
      else if bool_decide (key ∈ existingSet)
      then false :: batchDecisions k now existingSet rest cache
      else true :: batchDecisions k now existingSet rest (<[key := now]> cache)
  end.

(** The result of a batch call: the documents [insertMany] returned, or a
    rejected repository promise. *)
Inductive BatchOutcome : Type :=
| BatchTracked (docs : list Event)
| BatchStoreError.

(** [trackImpressionsBatch] / [trackClicksBatch] *)
Definition trackEventsBatch (k : EventKind) (now clock : Z) (f : Fault)
    (dtos : list TrackDto) (st : State) : BatchOutcome * State :=
  match dtos with
  | [] => (BatchTracked [], st)
  | _ :: _ =>
      let sessionItemPairs := map (fun d => (session_id d, item_id d)) dtos in
      let startTime := now - RATE_LIMIT_WINDOW cfg in
      match findExisting f (eventsOf k st) sessionItemPairs startTime with
      | None => (BatchStoreError, st)
      | Some existing =>
          let existingSet : gset string :=
            list_to_set
              (map (fun e => cacheKey (doc_session_id e) (doc_item_id e))
                 existing) in
          let (valid, cache') :=
            batchLoop k now clock existingSet dtos (cacheOf k st) in
          let st1 := setCache k cache' st in
          match valid with
          | [] => (BatchTracked [], st1)
          | _ :: _ =>
              match createEventsBatch k f valid (eventsOf k st1) with
              | None => (BatchStoreError, st1)
              | Some (docs, coll) => (BatchTracked docs, setEvents k coll st1)
              end
          end
      end
  end.

(** The decisions of a batch call on its input, position by position. *)
Definition batchAccepted (k : EventKind) (now : Z) (f : Fault)
    (dtos : list TrackDto) (st : State) : list bool :=
  match findExisting f (eventsOf k st)
          (map (fun d => (session_id d, item_id d)) dtos)
          (now - RATE_LIMIT_WINDOW cfg) with
  | Some existing =>
      batchDecisions k now
        (list_to_set
           (map (fun e => cacheKey (doc_session_id e) (doc_item_id e)) existing))
        dtos (cacheOf k st)
  | None => replicate (length dtos) false
  end.

Definition trackImpressionsBatch := trackEventsBatch Impression.
Definition trackClicksBatch := trackEventsBatch Click.

(** *** The calls cut at their [await]s

    A tracking call runs to its first [await] (the [findOne]), is resumed
    with the answer, runs to the second [await] (the [save]) and is resumed
    again.  Between two resumptions other calls run. *)

Inductive Pending : Type :=
| NotStarted
| AwaitFind
| AwaitCreate (data : Event)
| Settled (o : Outcome).

Record Request : Type := mkRequest {
  req_kind : EventKind;
  req_now : Z;
  req_clock : Z;
  req_fault : Fault;
  req_dto : TrackDto;
  req_pending : Pending
}.

Definition withPending (r : Request) (p : Pending) : Request :=
  {| req_kind := req_kind r; req_now := req_now r; req_clock := req_clock r;
     req_fault := req_fault r; req_dto := req_dto r; req_pending := p |}.

(** One resumption of a call. *)
Definition stepRequest (r : Request) (st : State) : Request * State :=
  let k := req_kind r in
  let dto := req_dto r in
  let key := dtoKey dto in
  match req_pending r with
  | NotStarted =>
      if tooRecent (cooldownOf k cfg) (req_now r) key (cacheOf k st)
      then (withPending r (Settled RateLimited), st)
      else (withPending r AwaitFind, st)
  | AwaitFind =>
      match findBySessionAndItem (req_fault r) (eventsOf k st)
              (session_id dto) (item_id dto)
              (req_now r - RATE_LIMIT_WINDOW cfg) with
      | None => (withPending r (Settled StoreError), st)
      | Some (Some _) => (withPending r (Settled Duplicate), st)
      | Some None =>
          (withPending r (AwaitCreate (eventData dto (req_clock r))),
           setCache k (<[key := req_now r]> (cacheOf k st)) st)
      end
  | AwaitCreate data =>
      match createEvent k (req_fault r) data (eventsOf k st) with
      | None => (withPending r (Settled StoreError), st)
      | Some (doc, coll) =>
          (withPending r (Settled (Accepted doc)), setEvents k coll st)
      end
  | Settled _ => (r, st)
  end.

(** Run the calls [reqs] under a schedule: each entry names the call that
    is resumed next. *)
Fixpoint runSchedule (sched : list nat) (reqs : list Request) (st : State)
    : list Request * State :=
  match sched with
  | [] => (reqs, st)
  | i :: rest =>
      match reqs !! i with
      | Some r =>
          let (r', st') := stepRequest r st in
          runSchedule rest (<[i := r']> reqs) st'
      | None => runSchedule rest reqs st
      end
  end.

(** One single call with what it meets: the two clock readings and the
    state of the database. *)
Record Submission : Type := mkSubmission {
  sub_now : Z;
  sub_clock : Z;
  sub_fault : Fault;
  sub_dto : TrackDto
}.

(** What the service goes through over time, one thing after the other:
    single calls of one kind, and firings of the cleanup timer. *)
Inductive Step : Type :=
| Submit (s : Submission)
| Cleanup (now : Z).

Fixpoint runSteps (k : EventKind) (steps : list Step) (st : State)
    : list Outcome * State :=
  match steps with
  | [] => ([], st)
  | Submit s :: rest =>
      let (o, st1) := trackEvent k (sub_now s) (sub_clock s) (sub_fault s)
                        (sub_dto s) st in
      let (os, st2) := runSteps k rest st1 in
      (o :: os, st2)
  | Cleanup now :: rest => runSteps k rest (cleanupTick cfg now st)
  end.

End Ingestion.

(** ** AnalyticsService: retention *)

Section Retention.

(** [d = new Date(); d.setDate(d.getDate() - days)]: local calendar
    arithmetic of the JavaScript runtime, read at time [now]. *)
Variable setDateBack : Z -> Z -> JsDate.

Variable cfg : AnalyticsConfig.

(** [daysToKeep || this.config.DATA_RETENTION_DAYS] *)
Definition retentionDays (daysToKeep : option Z) : Z :=
  match daysToKeep with
  | Some d => if bool_decide (d = 0) then DATA_RETENTION_DAYS cfg else d
  | None => DATA_RETENTION_DAYS cfg
  end.

Record CleanResult : Type := mkCleanResult {
  cleaned_impressions : Z;
  cleaned_clicks : Z
}.

(** [deleteMany] behind a database that may be down. *)
Definition deleteOldWith (f : Fault) (cutoffDate : JsDate)
    (coll : list Event) : option (Z * list Event) :=
  if writeUp f then deleteOld cutoffDate coll else None.

(** [cleanOldEvents]: [None] is a rejected promise, which leaves the
    collections as they were. *)
Definition cleanOldEvents (f : Fault) (daysToKeep : option Z) (now : Z)
    (st : State) : option (CleanResult * State) :=
  let days := retentionDays daysToKeep in
  let cutoffDate := setDateBack now days in
  match deleteOldWith f cutoffDate (impression_events st),
        deleteOldWith f cutoffDate (click_events st) with
  | Some (impressionsDeleted, imps), Some (clicksDeleted, clks) =>
      Some ({| cleaned_impressions := impressionsDeleted;
               cleaned_clicks := clicksDeleted |},
            setEvents Click clks (setEvents Impression imps st))
  | _, _ => None
  end.

Definition cleanedOf (k : EventKind) (res : CleanResult) : Z :=
  match k with
  | Impression => cleaned_impressions res
  | Click => cleaned_clicks res
  end.

End Retention.

(** ** Aggregation *)

(** [AnalyticsFilters] *)
Record AnalyticsFilters : Type := mkFilters {
  f_item_id : option string;
  f_user_id : option string;
  f_session_id : option string;
  f_source : option string;
  f_startDate : option JsDate;
  f_endDate : option JsDate
}.

(** The operator document [{ $gte?, $lte? }]. *)
Record DateFilter : Type := mkDateFilter {
  df_gte : option Z;
  df_lte : option Z
}.

(** [buildDateFilter]: a bound is set for a [Date] that is not NaN. *)
Definition buildDateFilter (startDate endDate : option JsDate) : DateFilter :=
  {| df_gte := match startDate with
               | Some (ValidDate s) => Some s
               | _ => None
               end;
     df_lte := match endDate with
               | Some (ValidDate e) => Some e
               | _ => None
               end |}.

(** [Object.keys(dateFilter).length > 0] *)
Definition dateFilterIsEmpty (df : DateFilter) : bool :=
  match df_gte df, df_lte df with
  | None, None => true
  | _, _ => false
  end.

Definition matchesDateFilter (df : DateFilter) (d : JsDate) : bool :=
  match df_gte df with Some s => date_gte d s | None => true end
  && match df_lte df with Some e => date_lte d e | None => true end.

(** The [FilterQuery] built by [buildAnalyticsFilter]. *)
Record FilterQuery : Type := mkQuery {
  q_item_id : option string;
  q_user_id : option string;
  q_session_id : option string;
  q_source : option string;
  q_timestamp : option DateFilter
}.

(** [if (filters.x)] on an optional string: set and not empty. *)
Definition truthyString (o : option string) : option string :=
  match o with
  | Some s => if bool_decide (s = EmptyString) then None else Some s
  | None => None
  end.

(** [buildAnalyticsFilter].  A [Date] object is truthy also when it is NaN,
    so [query.timestamp] is set as soon as one date is passed. *)
Definition buildAnalyticsFilter (filters : AnalyticsFilters) : FilterQuery :=
  {| q_item_id := truthyString (f_item_id filters);
     q_user_id := truthyString (f_user_id filters);
     q_session_id := truthyString (f_session_id filters);
     q_source := truthyString (f_source filters);
     q_timestamp :=
       match f_startDate filters, f_endDate filters with
       | None, None => None
       | _, _ => Some (buildDateFilter (f_startDate filters) (f_endDate filters))
       end |}.

(** The string value of a [TrackingSources] member. *)
Definition sourceName (s : TrackingSources) : string :=
  match s with
  | SEARCH_RESULTS => "search_results"
  | BROWSE => "browse"
  | RECOMMENDATIONS => "recommendations"
  | DIRECT => "direct"
  | SEARCH => "search"
  end.

Definition matchesOpt {A} `{EqDecision A} (want : option A) (have : option A)
    : bool :=
  match want with
  | Some w => bool_decide (have = Some w)
  | None => true
  end.

Definition matchesQuery (q : FilterQuery) (e : Event) : bool :=
  matchesOpt (q_item_id q) (Some (doc_item_id e))
  && matchesOpt (q_user_id q) (doc_user_id e)
  && matchesOpt (q_session_id q) (Some (doc_session_id e))
  && matchesOpt (q_source q) (Some (sourceName (doc_source e)))
  && match q_timestamp q with
     | Some df => matchesDateFilter df (doc_timestamp e)
     | None => true
     end.

(** A [timestamp: {}] condition (both dates NaN or missing while one was
    passed) does not cast to a date: the query is rejected. *)
Definition queryCasts (q : FilterQuery) : bool :=
  match q_timestamp q with
  | Some df => negb (dateFilterIsEmpty df)
  | None => true
  end.

Definition findByFilter (coll : list Event) (filters : AnalyticsFilters)
    : option (list Event) :=
  let query := buildAnalyticsFilter filters in
  if queryCasts query then Some (List.filter (matchesQuery query) coll) else None.

(** [countImpressionsByFilter] / [countClicksByFilter] on their collection. *)
Definition countByFilter (coll : list Event) (filters : AnalyticsFilters)
    : option Z :=
  option_map (fun l => Z.of_nat (length l)) (findByFilter coll filters).

(** [Model.distinct(path, query)] for a string path: the values without
    repetition. *)
Definition distinctStrings (values : list string) : list string :=
  remove_dups values.

(** [getDistinctUsersByFilter]: [impressionModel.distinct('user_id', query)]. *)
Definition getDistinctUsersByFilter (st : State) (filters : AnalyticsFilters)
    : option (list string) :=
  option_map (fun l => distinctStrings (omap doc_user_id l))
    (findByFilter (impression_events st) filters).

(** [getDistinctSessionsByFilter]:
    [impressionModel.distinct('session_id', query)]. *)
Definition getDistinctSessionsByFilter (st : State) (filters : AnalyticsFilters)
    : option (list string) :=
  option_map (fun l => distinctStrings (map doc_session_id l))
    (findByFilter (impression_events st) filters).

(** [getDistinctItemsByFilter]: [impressionModel.distinct('item_id', query)]. *)
Definition getDistinctItemsByFilter (st : State) (filters : AnalyticsFilters)
    : option (list string) :=
  option_map (fun l => distinctStrings (map doc_item_id l))
    (findByFilter (impression_events st) filters).

(** The object returned by [getUserAnalytics].  [clickThroughRate] is the
    ratio [clicks / impressions * 100] as a fraction, [0] without
    impressions. *)
Record UserAnalytics : Type := mkUserAnalytics {
  ua_userId : string;
  ua_impressions : Z;
  ua_clicks : Z;
  ua_viewedItems : Z;
  ua_clickedItems : Z;
  ua_clickThroughRate : Z * Z
}.

Definition clickThroughRate (impressions clicks : Z) : Z * Z :=
  if bool_decide (0 < impressions) then (clicks * 100, impressions) else (0, 1).

(** [getUserAnalytics], with the store as each of its reads finds it.  The
    two counts are sent together and awaited ([st1]: the impression
    collection as the first count reads it, the click collection as the
    second does); then the distinct items are read and awaited twice, one
    read after the other ([st2], [st3]).  Other calls can store or purge
    events in between. *)
Definition getUserAnalyticsReads (userId : string)
    (startDate endDate : option JsDate) (st1 st2 st3 : State)
    : option UserAnalytics :=
  let filters :=
    {| f_item_id := None; f_user_id := Some userId; f_session_id := None;
       f_source := None; f_startDate := startDate; f_endDate := endDate |} in
  match countByFilter (impression_events st1) filters,
        countByFilter (click_events st1) filters,
        getDistinctItemsByFilter st2 filters,
        getDistinctItemsByFilter st3 filters with
  | Some impressions, Some clicks, Some viewedItems, Some clickedItems =>
      Some {| ua_userId := userId;
              ua_impressions := impressions;
              ua_clicks := clicks;
              ua_viewedItems := Z.of_nat (length viewedItems);
              ua_clickedItems := Z.of_nat (length clickedItems);
              ua_clickThroughRate := clickThroughRate impressions clicks |}
  | _, _, _, _ => None
  end.

(** [getUserAnalytics] on a store that does not change while the call
    runs. *)
Definition getUserAnalytics (userId : string) (startDate endDate : option JsDate)
    (st : State) : option UserAnalytics :=
  getUserAnalyticsReads userId startDate endDate st st st.

(** What the claim on user statistics asks of [clickedItems]: the distinct
    items among the user's stored click events. *)
Definition distinctClickedItems (userId : string)
    (startDate endDate : option JsDate) (st : State) : option (list string) :=
  option_map (fun l => distinctStrings (map doc_item_id l))
    (findByFilter (click_events st)
       {| f_item_id := None; f_user_id := Some userId; f_session_id := None;
          f_source := None; f_startDate := startDate; f_endDate := endDate |}).

(** *** Trending items

    [getPopularItemsAggregation] sends the pipeline
    [$match? ; $group by item_id ; $project ; $sort { impressions: -1 } ;
    $limit].  Mongo fixes neither the order in which [$group] emits its
    groups nor the order [$sort] leaves between documents with equal keys. *)

Record TrendingRow : Type := mkRow {
  row_id : string;
  row_itemId : string;
  row_impressions : Z;
  row_uniqueUsers : Z;
  row_uniqueSessions : Z
}.

#[global] Instance TrendingRow_eq_dec : EqDecision TrendingRow.
Proof. solve_decision. Defined.

(** The optional [$match] stage. *)
Definition matchStage (filters : AnalyticsFilters) (coll : list Event)
    : list Event :=
  let dateFilter := buildDateFilter (f_startDate filters) (f_endDate filters) in
  if dateFilterIsEmpty dateFilter then coll
  else List.filter (fun e => matchesDateFilter dateFilter (doc_timestamp e)) coll.

Definition eventsOfItem (item : string) (docs : list Event) : list Event :=
  List.filter (fun e => bool_decide (doc_item_id e = item)) docs.

(** [$group] and [$project] for one item: [$sum: 1], and the sizes of the
    two [$addToSet] sets (a document without [user_id] adds nothing). *)
Definition groupRow (docs : list Event) (item : string) : TrendingRow :=
  let mine := eventsOfItem item docs in
  {| row_id := item;
     row_itemId := item;
     row_impressions := Z.of_nat (length mine);
     row_uniqueUsers := Z.of_nat (length (remove_dups (omap doc_user_id mine)));
     row_uniqueSessions :=
       Z.of_nat (length (remove_dups (map doc_session_id mine))) |}.

(** The groups, in one fixed order (that of the last event of each item). *)
Definition groupStage (docs : list Event) : list TrendingRow :=
  map (groupRow docs) (remove_dups (map doc_item_id docs)).

(** The order asked by [{ $sort: { impressions: -1 } }]. *)
Definition byImpressionsDesc (a b : TrendingRow) : Prop :=
  row_impressions b <= row_impressions a.

#[global] Instance byImpressionsDesc_dec (a b : TrendingRow) :
  Decision (byImpressionsDesc a b).
Proof. unfold byImpressionsDesc. apply _. Defined.

(** One sort that meets it: insertion from the right, which keeps the
    order of equal keys. *)
Fixpoint insertRow (r : TrendingRow) (rows : list TrendingRow)
    : list TrendingRow :=
  match rows with
  | [] => [r]
  | x :: rest =>
      if bool_decide (row_impressions x <= row_impressions r)
      then r :: x :: rest
      else x :: insertRow r rest
  end.

Definition sortStage (rows : list TrendingRow) : list TrendingRow :=
  foldr insertRow [] rows.

(** [getPopularItemsAggregation] as one run of the pipeline.  [$limit]
    refuses a limit that is not positive. *)
Definition getPopularItemsAggregation (limit : Z) (filters : AnalyticsFilters)
    (st : State) : option (list TrendingRow) :=
  if bool_decide (0 < limit)
  then Some (take (Z.to_nat limit)
               (sortStage (groupStage (matchStage filters (impression_events st)))))
  else None.

(** Every answer the pipeline allows: the groups in some order that is
    descending in [impressions], cut to [limit]. *)
Definition popularItemsAnswer (limit : Z) (filters : AnalyticsFilters)
    (st : State) (out : list TrendingRow) : Prop :=
  0 < limit /\
  exists sorted : list TrendingRow,
    Permutation (groupStage (matchStage filters (impression_events st))) sorted
    /\ StronglySorted byImpressionsDesc sorted
    /\ out = take (Z.to_nat limit) sorted.

(** The filters [getTrendingItems] builds: the date range only. *)
Definition rangeFilters (startDate endDate : option JsDate) : AnalyticsFilters :=
  {| f_item_id := None; f_user_id := None; f_session_id := None;
     f_source := None; f_startDate := startDate; f_endDate := endDate |}.

(** [getTrendingItems(limit = 10, startDate?, endDate?)] of the service. *)
Definition getTrendingItems (limit : option Z) (startDate endDate : option JsDate)
    (st : State) : option (list TrendingRow) :=
  getPopularItemsAggregation (default 10 limit)
    (rangeFilters startDate endDate) st.

(** The answers [getTrendingItems] may get from the store. *)
Definition trendingAnswer (limit : option Z) (startDate endDate : option JsDate)
    (st : State) (out : list TrendingRow) : Prop :=
  popularItemsAnswer (default 10 limit) (rangeFilters startDate endDate) st out.

(** The order the claim on trending asks for: descending by impressions,
    equal counts by [item_id] ascending. *)
Definition byImpressionsThenId (a b : TrendingRow) : Prop :=
  row_impressions b < row_impressions a
  \/ (row_impressions a = row_impressions b
      /\ String.leb (row_itemId a) (row_itemId b) = true).

(** ** The acceptance rule of the specification

    The rule for single submissions to one key, in the words of the
    specification.  [accepted] lists the submissions accepted so far, latest
    first, each with the time it arrived and the timestamp it was stored
    under; [t] is the time of the submission being decided. *)

(** [s] lies in the rate-limit window that ends at [t]. *)
Definition withinWindow (window t s : Z) : bool :=
  bool_decide (t - window <= s) && bool_decide (s <= t).

(** Accepted iff the latest accepted submission is at least the cooldown
    back and no accepted event lies within the preceding window. *)
Definition ruleAccepts (cooldown window : Z) (accepted : list (Z * Z)) (t : Z)
    : bool :=
  match accepted with
  | [] => true
  | (last, _) :: _ => bool_decide (cooldown <= t - last)
  end
  && forallb (fun p => negb (withinWindow window t p.2)) accepted.

Fixpoint ruleDecisions (cooldown window : Z) (accepted : list (Z * Z))
    (subs : list (Z * Z)) : list bool :=
  match subs with
  | [] => []
  | (t, stamp) :: rest =>
      if ruleAccepts cooldown window accepted t
      then true :: ruleDecisions cooldown window ((t, stamp) :: accepted) rest
      else false :: ruleDecisions cooldown window accepted rest
  end.

(** The submissions among the steps, each as its arrival time and the
    clock reading it stores. *)
Definition submissionsOf (steps : list Step) : list (Z * Z) :=
  omap (fun x => match x with
                 | Submit s => Some (sub_now s, sub_clock s)
                 | Cleanup _ => None
                 end) steps.

Definition isSubmit (x : Step) : Prop :=
  match x with
  | Submit _ => True
  | Cleanup _ => False
  end.

(** Steps in time order from time [from] on: a call arrives, reads its
    clock at or after its arrival, and the next step comes at or after
    that. *)
Fixpoint inTimeOrder (from : Z) (steps : list Step) : Prop :=
  match steps with
  | [] => True
  | Submit s :: rest =>
      from <= sub_now s /\ sub_now s <= sub_clock s
      /\ inTimeOrder (sub_clock s) rest
  | Cleanup now :: rest => from <= now /\ inTimeOrder now rest
  end.

(** The input events of one (session, item) pair. *)
Definition dtosOfPair (sessionId itemId : string) (dtos : list TrackDto)
    : list TrackDto :=
  List.filter (fun d => bool_decide (session_id d = sessionId)
                        && bool_decide (item_id d = itemId)) dtos.

(** The events of a collection that belong to one (session, item) pair. *)
Definition eventsOfPair (sessionId itemId : string) (coll : list Event)
    : list Event :=
  List.filter (fun e => bool_decide (doc_session_id e = sessionId)
                        && bool_decide (doc_item_id e = itemId)) coll.

(** The timestamp a single submission is stored under: the client's when
    one is supplied, the server clock of the call otherwise. *)
Definition storedStamp (newDate : string -> JsDate) (s : Submission) : JsDate :=
  eventTimestamp newDate (timestamp (sub_dto s)) (sub_clock s).

(** The submissions among the steps, each as its arrival time and the
    timestamp it is stored under.  A submission whose timestamp is no valid
    instant has no entry: it is never stored. *)
Definition stampedSubmissions (newDate : string -> JsDate) (steps : list Step)
    : list (Z * Z) :=
  omap (fun x => match x with
                 | Submit s =>
                     match storedStamp newDate s with
                     | ValidDate ms => Some (sub_now s, ms)
                     | InvalidDate => None
                     end
                 | Cleanup _ => None
                 end) steps.

(** A submission of the pair that meets a healthy database and whose
    timestamp, the client's or the server clock, is a valid instant that is
    not later than the server clock of the call. *)
Definition stampedFor (newDate : string -> JsDate) (sessionId itemId : string)
    (x : Step) : Prop :=
  match x with
  | Submit s =>
      session_id (sub_dto s) = sessionId
      /\ item_id (sub_dto s) = itemId
      /\ sub_fault s = Healthy
      /\ exists ms, storedStamp newDate s = ValidDate ms /\ ms <= sub_clock s
  | Cleanup _ => True
  end.

(** A resubmission of the key of [dto], arriving less than [cooldown] after
    [accepted_at]. *)
Definition retryOf (cooldown : Z) (dto : TrackDto) (accepted_at : Z) (x : Step)
    : Prop :=
  match x with
  | Submit s =>
      session_id (sub_dto s) = session_id dto
      /\ item_id (sub_dto s) = item_id dto
      /\ sub_now s - accepted_at < cooldown
  | Cleanup _ => True
  end.

(** The state a key is in at time [at_time], after the submissions
    [accepted] (latest first): the cache holds the arrival of the latest,
    unless the cleanup has removed the entry, which it does only when that
    arrival is at least the cooldown back; the stored events of the pair
    carry the timestamps of all of them, none later than [at_time]. *)
Record KeyState (cooldown : Z) (k : EventKind) (sessionId itemId : string)
    (accepted : list (Z * Z)) (at_time : Z) (st : State) : Prop := mkKeyState {
  key_cache :
    match cacheOf k st !! cacheKey sessionId itemId with
    | Some last => fst <$> head accepted = Some last
    | None =>
        forall last, fst <$> head accepted = Some last ->
                     cooldown <= at_time - last
    end;
  key_events :
    map doc_timestamp (eventsOfPair sessionId itemId (eventsOf k st))
    = map (fun p => ValidDate p.2) (reverse accepted);
  key_past : Forall (fun p => p.2 <= at_time) accepted
}.

(** ** Cache keys *)

(** Whether a string holds the separator of [cacheKey]. *)
Fixpoint hasUnderscore (s : string) : bool :=
  match s with
  | EmptyString => false
  | String c rest => Ascii.eqb c "_" || hasUnderscore rest
  end.

(** ** A batch read as a single call *)

(** What a batch of one event answers where the single call answers [o]: an
    accepted event is returned, a skipped one leaves the empty list, a
    rejected repository promise stays one. *)
Definition batchOutcomeOf (o : Outcome) : BatchOutcome :=
  match o with
  | Accepted doc => BatchTracked [doc]
  | RateLimited => BatchTracked []
  | Duplicate => BatchTracked []
  | StoreError => BatchStoreError
  end.

(** ** Item statistics *)

(** The object returned by [getItemAnalytics]; [clickThroughRate] as in
    [UserAnalytics]. *)
Record ItemAnalytics : Type := mkItemAnalytics {
  ia_itemId : string;
  ia_impressions : Z;
  ia_clicks : Z;
  ia_uniqueUsers : Z;
  ia_uniqueSessions : Z;
  ia_clickThroughRate : Z * Z
}.

(** The filters [getItemAnalytics] builds: the item and the date range. *)
Definition itemFilters (itemId : string) (startDate endDate : option JsDate)
    : AnalyticsFilters :=
  {| f_item_id := Some itemId; f_user_id := None; f_session_id := None;
     f_source := None; f_startDate := startDate; f_endDate := endDate |}.

(** [getItemAnalytics], with the store as each of its reads finds it.  The
    two counts are sent together and awaited ([st1]); then the distinct users
    are read and awaited ([st2]), then the distinct sessions ([st3]).  Other
    calls can store or purge events in between. *)
Definition getItemAnalyticsReads (itemId : string)
    (startDate endDate : option JsDate) (st1 st2 st3 : State)
    : option ItemAnalytics :=
  let filters := itemFilters itemId startDate endDate in
  match countByFilter (impression_events st1) filters,
        countByFilter (click_events st1) filters,
        getDistinctUsersByFilter st2 filters,
        getDistinctSessionsByFilter st3 filters with
  | Some impressions, Some clicks, Some uniqueUsers, Some uniqueSessions =>
      Some {| ia_itemId := itemId;
              ia_impressions := impressions;
              ia_clicks := clicks;
              ia_uniqueUsers := Z.of_nat (length uniqueUsers);
              ia_uniqueSessions := Z.of_nat (length uniqueSessions);
              ia_clickThroughRate := clickThroughRate impressions clicks |}
  | _, _, _, _ => None
  end.

(** [getItemAnalytics] on a store that does not change while the call
    runs. *)
Definition getItemAnalytics (itemId : string) (startDate endDate : option JsDate)
    (st : State) : option ItemAnalytics :=
  getItemAnalyticsReads itemId startDate endDate st st st.

(** The sum of the [impressions] column of a trending answer. *)
Definition totalImpressions (rows : list TrendingRow) : Z :=
  foldr Z.add 0 (map row_impressions rows).

(** ** Time series

    [getTimeSeriesData] and [getClickTimeSeriesData] of the repository send
    the pipeline [$match { item_id, timestamp >= startDate } ; $group by
    $dateToString '%Y-%m-%d' with $sum: 1 ; $sort { _id: 1 }]. *)

Record TimeSeriesRow : Type := mkSeriesRow {
  ts_id : string;
  ts_count : Z
}.

#[global] Instance TimeSeriesRow_eq_dec : EqDecision TimeSeriesRow.
Proof. solve_decision. Defined.

(** The order asked by [{ $sort: { _id: 1 } }] on string keys. *)
Definition byDay (a b : TimeSeriesRow) : Prop := String.le (ts_id a) (ts_id b).

#[global] Instance byDay_dec : RelDecision byDay.
Proof. intros a b. unfold byDay. apply _. Defined.

Section TimeSeries.

(** [d = new Date(); d.setDate(d.getDate() - days)], as for the purge. *)
Variable setDateBack : Z -> Z -> JsDate.

(** [$dateToString] with format [%Y-%m-%d] on a time value. *)
Variable dateToString : Z -> string.

(** The [$match] stage. *)
Definition seriesMatch (itemId : string) (startDate : Z) (coll : list Event)
    : list Event :=
  List.filter (fun e => bool_decide (doc_item_id e = itemId)
                        && date_gte (doc_timestamp e) startDate) coll.

(** The group key of a document. *)
Definition dayOf (e : Event) : option string :=
  match doc_timestamp e with
  | ValidDate ms => Some (dateToString ms)
  | InvalidDate => None
  end.

Definition eventsOfDay (day : string) (docs : list Event) : list Event :=
  List.filter (fun e => bool_decide (dayOf e = Some day)) docs.

(** The [$group] stage: one row per day, with the number of its
    documents. *)
Definition seriesGroup (docs : list Event) : list TimeSeriesRow :=
  map (fun day => {| ts_id := day;
                     ts_count := Z.of_nat (length (eventsOfDay day docs)) |})
    (remove_dups (omap dayOf docs)).

Definition timeSeriesPipeline (itemId : string) (startDate : Z)
    (coll : list Event) : list TimeSeriesRow :=
  merge_sort byDay (seriesGroup (seriesMatch itemId startDate coll)).

(** [getTimeSeriesData] / [getClickTimeSeriesData] of the repository, on
    the collection of their kind; [now] is what [new Date()] reads.  [None]:
    the start date is an Invalid Date, a case this model does not follow
    into the pipeline. *)
Definition getKindTimeSeriesData (k : EventKind) (itemId : string) (days : Z)
    (now : Z) (st : State) : option (list TimeSeriesRow) :=
  match setDateBack now days with
  | ValidDate startDate =>
      Some (timeSeriesPipeline itemId startDate (eventsOf k st))
  | InvalidDate => None
  end.

Definition getClickTimeSeriesData := getKindTimeSeriesData Click.

(** [getTimeSeriesData(itemId, days = 7)] of the service: both series, each
    repository call with its own reading of the clock. *)
Definition getTimeSeriesData (itemId : string) (days : option Z)
    (nowImpressions nowClicks : Z) (st : State)
    : option (list TimeSeriesRow * list TimeSeriesRow) :=
  match getKindTimeSeriesData Impression itemId (default 7 days)
          nowImpressions st,
        getClickTimeSeriesData itemId (default 7 days) nowClicks st with
  | Some impressions, Some clicks => Some (impressions, clicks)
  | _, _ => None
  end.

End TimeSeries.

(** The sum of the [count] column of a series. *)
Definition totalCount (rows : list TimeSeriesRow) : Z :=
  foldr Z.add 0 (map ts_count rows).

(** *** A concrete calendar writer

    [toISOString] and [$dateToString] are builtins of JavaScript and of the
    database.  The writers here cover the years 0000 to 9999 and are the
    instances used for the concrete runs. *)

(** The civil date of the day [z] days after 1970-01-01. *)
Definition civilFromDays (z : Z) : Z * Z * Z :=
  let z' := z + 719468 in
  let era := z' / 146097 in
  let doe := z' - era * 146097 in
  let yoe := (doe - doe / 1460 + doe / 36524 - doe / 146096) / 365 in
  let doy := doe - (365 * yoe + yoe / 4 - yoe / 100) in
  let mp := (5 * doy + 2) / 153 in
  let d := doy - (153 * mp + 2) / 5 + 1 in
  let m := if mp <? 10 then mp + 3 else mp - 9 in
  let y := yoe + era * 400 in
  (if m <=? 2 then y + 1 else y, m, d).

Definition digitChar (n : Z) : ascii := ascii_of_N (Z.to_N (48 + n mod 10)).

Fixpoint padDigits (width : nat) (n : Z) (tail : string) : string :=
  match width with
  | O => tail
  | S w => padDigits w (n / 10) (String (digitChar n) tail)
  end.

(** [%Y-%m-%d] in UTC. *)
Definition isoDayString (ms : Z) : string :=
  let '(y, m, d) := civilFromDays (ms / 86400000) in
  padDigits 4 y (String "-" (padDigits 2 m (String "-"
    (padDigits 2 d EmptyString)))).

(** [YYYY-MM-DDTHH:mm:ss.sssZ] *)
Definition isoDateString (ms : Z) : string :=
  let t := ms mod 86400000 in
  isoDayString ms +:+
  String "T" (padDigits 2 (t / 3600000) (String ":"
    (padDigits 2 (t / 60000 mod 60) (String ":"
      (padDigits 2 (t / 1000 mod 60) (String "."
        (padDigits 3 (t mod 1000) (String "Z" EmptyString)))))))).

(** ** AuctionTrackingService

    The caller of the ingestion in the auction module
    ([auction/services/auction-tracking.service.ts]).  Its three tracking
    methods return nothing and swallow every error, so each is modelled by
    the state it leaves. *)

Record TrackingContext : Type := mkContext {
  ctx_session_id : string;
  ctx_source : TrackingSources;
  ctx_position_in_results : option Z;
  ctx_user_id : option string
}.

(** [createSearchContext(sessionId, userId?, positionOffset = 0)] *)
Definition createSearchContext (sessionId : string) (userId : option string)
    (positionOffset : option Z) : TrackingContext :=
  {| ctx_session_id := sessionId;
     ctx_source := SEARCH;
     ctx_position_in_results := Some (default 0 positionOffset);
     ctx_user_id := userId |}.

(** [createDirectContext(sessionId, userId?)] *)
Definition createDirectContext (sessionId : string) (userId : option string)
    : TrackingContext :=
  {| ctx_session_id := sessionId;
     ctx_source := DIRECT;
     ctx_position_in_results := None;
     ctx_user_id := userId |}.

Section Tracking.

Variable newDate : string -> JsDate.

(** [Date.prototype.toISOString] on a time value. *)
Variable toISOString : Z -> string.

Variable cfg : AnalyticsConfig.

(** [timestamp ? timestamp.toISOString() : new Date().toISOString()], where
    [built] is what [new Date()] reads.  A [Date] object is truthy;
    [toISOString] throws a [RangeError] on an Invalid Date ([None]). *)
Definition isoStamp (timestamp : option JsDate) (built : Z) : option string :=
  match timestamp with
  | Some (ValidDate ms) => Some (toISOString ms)
  | Some InvalidDate => None
  | None => Some (toISOString built)
  end.

(** The DTO built by [trackItemImpression]. *)
Definition impressionDto (itemId : string) (context : TrackingContext)
    (stamp : option string) : TrackDto :=
  {| item_id := itemId;
     session_id := ctx_session_id context;
     user_id := ctx_user_id context;
     source := ctx_source context;
     search_query := None;
     position_in_results := None;
     timestamp := stamp |}.

(** The DTO built by [trackItemClick]. *)
Definition clickDto (itemId : string) (context : TrackingContext)
    (stamp : option string) : TrackDto :=
  {| item_id := itemId;
     session_id := ctx_session_id context;
     user_id := ctx_user_id context;
     source := ctx_source context;
     search_query := None;
     position_in_results := ctx_position_in_results context;
     timestamp := stamp |}.

(** The DTO built for the item at [index] by [trackItemsImpressions]. *)
Definition listedDto (context : TrackingContext) (timestamp : option JsDate)
    (built : nat -> Z) (index : nat) (itemId : string) : TrackDto :=
  {| item_id := itemId;
     session_id := ctx_session_id context;
     user_id := ctx_user_id context;
     source := ctx_source context;
     search_query := None;
     position_in_results :=
       match ctx_position_in_results context with
       | Some p => Some (p + Z.of_nat index)
       | None => None
       end;
     timestamp := isoStamp timestamp (built index) |}.

(** [trackItemImpression]: the state after the call.  A thrown error
    (the [RangeError], or whatever [trackImpression] throws) is caught. *)
Definition trackItemImpression (itemId : string) (context : TrackingContext)
    (timestamp : option JsDate) (built now clock : Z) (f : Fault) (st : State)
    : State :=
  match isoStamp timestamp built with
  | None => st
  | Some stamp =>
      (trackEvent newDate cfg Impression now clock f
         (impressionDto itemId context (Some stamp)) st).2
  end.

(** [trackItemClick] *)
Definition trackItemClick (itemId : string) (context : TrackingContext)
    (timestamp : option JsDate) (built now clock : Z) (f : Fault) (st : State)
    : State :=
  match isoStamp timestamp built with
  | None => st
  | Some stamp =>
      (trackEvent newDate cfg Click now clock f
         (clickDto itemId context (Some stamp)) st).2
  end.

(** The list [itemIds.map((itemId, index) => ...)] of
    [trackItemsImpressions]; [built index] is what [new Date()] reads in the
    callback for [index]. *)
Definition listedDtos (itemIds : list string) (context : TrackingContext)
    (timestamp : option JsDate) (built : nat -> Z) : list TrackDto :=
  imap (listedDto context timestamp built) itemIds.

(** [trackItemsImpressions]: nothing for an empty list; with an Invalid
    Date the first callback throws, which is caught. *)
Definition trackItemsImpressions (itemIds : list string)
    (context : TrackingContext) (timestamp : option JsDate) (built : nat -> Z)
    (now clock : Z) (f : Fault) (st : State) : State :=
  match itemIds with
  | [] => st
  | _ :: _ =>
      if bool_decide (timestamp = Some InvalidDate) then st
      else (trackEventsBatch newDate cfg Impression now clock f
              (listedDtos itemIds context timestamp built) st).2
  end.

End Tracking.

(** A stored document without a position. *)
Definition hasNoPosition (e : Event) : Prop := doc_position_in_results e = None.

(** ** AnalyticsController: the dashboard *)

Definition DEFAULT_TRENDING_ITEMS_LIMIT : Z := 5.

(** The [data] object of [getDashboardData]. *)
Record Dashboard : Type := mkDashboard {
  dash_trendingItems : list TrendingRow;
  dash_period_startDate : string;
  dash_period_endDate : string
}.

Section Dashboard.

Variable newDate : string -> JsDate.
Variable toISOString : Z -> string.

(** [s ? new Date(s) : undefined] on an optional query string. *)
Definition queryDate (s : option string) : option JsDate :=
  match truthyString s with
  | Some x => Some (newDate x)
  | None => None
  end.

(** [getDashboardData]: the controller's [getTrendingItems] with the limit
    string of [DEFAULT_TRENDING_ITEMS_LIMIT] (which [parseInt] reads back as
    5) and the two query strings, and the period it reports; [now1] and
    [now2] are what [Date.now()] and [new Date()] read for the period. *)
Definition getDashboardData (startDate endDate : option string)
    (now1 now2 : Z) (st : State) : option Dashboard :=
  match getTrendingItems (Some DEFAULT_TRENDING_ITEMS_LIMIT)
          (queryDate startDate) (queryDate endDate) st with
  | Some trendingItems =>
      Some {| dash_trendingItems := trendingItems;
              dash_period_startDate :=
                match truthyString startDate with
                | Some s => s
                | None => toISOString (now1 - 7 * 24 * 60 * 60 * 1000)
                end;
              dash_period_endDate :=
                match truthyString endDate with
                | Some s => s
                | None => toISOString now2
                end |}
  | None => None
  end.

End Dashboard.

(** ** Sample data for the concrete runs *)

Definition sampleDto (session item : string) (ts : option string) : TrackDto :=
  {| item_id := item; session_id := session; user_id := Some "u1"%string;
     source := BROWSE; search_query := None; position_in_results := None;
     timestamp := ts |}.

Definition sampleDoc (user session item : string) (ms : Z) : Event :=
  {| doc_item_id := item; doc_session_id := session;
     doc_user_id := Some user; doc_source := BROWSE;
     doc_search_query := None; doc_position_in_results := None;
     doc_timestamp := ValidDate ms |}.

Definition sampleRequest (now clock : Z) (dto : TrackDto) : Request :=
  {| req_kind := Impression; req_now := now; req_clock := clock;
     req_fault := Healthy; req_dto := dto; req_pending := NotStarted |}.

Definition outcomeOf (r : Request) : option Outcome :=
  match req_pending r with
  | Settled o => Some o
  | _ => None
  end.

Definition isAccepted (o : Outcome) : bool :=
  match o with
  | Accepted _ => true
  | _ => false
  end.

(** Two submissions of one key that reach the service 100 s after the
    client stamped them: stamped 1 s apart, arriving 31 s apart. *)
Definition backdatedSubmissions : list Step :=
  [ Submit {| sub_now := 1709296315250; sub_clock := 1709296315251;
              sub_fault := Healthy;
              sub_dto := sampleDto "s1" "i1"
                           (Some "2024-03-01T12:30:15.250Z"%string) |};
    Submit {| sub_now := 1709296346250; sub_clock := 1709296346251;
              sub_fault := Healthy;
              sub_dto := sampleDto "s1" "i1"
                           (Some "2024-03-01T12:30:16.250Z"%string) |} ].

(** Three submissions of one key without a client timestamp, at 0 s, 31 s
    and 61 s, with the cleanup timer firing in between. *)
Definition plainSubmissions : list Step :=
  [ Submit {| sub_now := 0; sub_clock := 1; sub_fault := Healthy;
              sub_dto := sampleDto "s1" "i1" None |};
    Cleanup 20000;
    Submit {| sub_now := 31000; sub_clock := 31001; sub_fault := Healthy;
              sub_dto := sampleDto "s1" "i1" None |};
    Cleanup 60500;
    Submit {| sub_now := 61000; sub_clock := 61002; sub_fault := Healthy;
              sub_dto := sampleDto "s1" "i1" None |} ].

(** Submissions of one key with and without a client timestamp: two that
    reach the service 100 s after the client stamped them, 31 s apart, then
    three without a timestamp, 3.75 s, 31 s and 62 s after the second, with
    the cleanup timer firing once. *)
Definition mixedSubmissions : list Step :=
  [ Submit {| sub_now := 1709296315250; sub_clock := 1709296315251;
              sub_fault := Healthy;
              sub_dto := sampleDto "s1" "i1"
                           (Some "2024-03-01T12:30:15.250Z"%string) |};
    Cleanup 1709296330000;
    Submit {| sub_now := 1709296346250; sub_clock := 1709296346251;
              sub_fault := Healthy;
              sub_dto := sampleDto "s1" "i1"
                           (Some "2024-03-01T12:30:16.250Z"%string) |};
    Submit {| sub_now := 1709296350000; sub_clock := 1709296350001;
              sub_fault := Healthy; sub_dto := sampleDto "s1" "i1" None |};
    Submit {| sub_now := 1709296377250; sub_clock := 1709296377251;
              sub_fault := Healthy; sub_dto := sampleDto "s1" "i1" None |};
    Submit {| sub_now := 1709296408250; sub_clock := 1709296408251;
              sub_fault := Healthy; sub_dto := sampleDto "s1" "i1" None |} ].

(** Two retries of an event accepted at 1 s, around a firing of the
    cleanup timer. *)
Definition twoRetries : list Step :=
  [ Submit {| sub_now := 11000; sub_clock := 11001; sub_fault := Healthy;
              sub_dto := sampleDto "s1" "i1" None |};
    Cleanup 15000;
    Submit {| sub_now := 20000; sub_clock := 20001; sub_fault := Healthy;
              sub_dto := sampleDto "s1" "i1" None |} ].

(** The configuration with [ANALYTICS_IMPRESSION_COOLDOWN] set to 0. *)
Definition noImpressionCooldown : AnalyticsConfig :=
  {| RATE_LIMIT_WINDOW := 60000;
     IMPRESSION_COOLDOWN := 0;
     CLICK_COOLDOWN := 5000;
     CLEANUP_INTERVAL := 300000;
     DATA_RETENTION_DAYS := 90 |}.

(** The configuration with [ANALYTICS_IMPRESSION_COOLDOWN] set to 120 s,
    twice the rate-limit window. *)
Definition longImpressionCooldown : AnalyticsConfig :=
  {| RATE_LIMIT_WINDOW := 60000;
     IMPRESSION_COOLDOWN := 120000;
     CLICK_COOLDOWN := 5000;
     CLEANUP_INTERVAL := 300000;
     DATA_RETENTION_DAYS := 90 |}.

(** A submission at 0 s and two retries of it, at 50 s and at 100 s, with
    the cleanup timer firing at 70 s. *)
Definition retriesAcrossCleanup : list Step :=
  [ Submit {| sub_now := 0; sub_clock := 1; sub_fault := Healthy;
              sub_dto := sampleDto "s1" "i1" None |};
    Submit {| sub_now := 50000; sub_clock := 50001; sub_fault := Healthy;
              sub_dto := sampleDto "s1" "i1" None |};
    Cleanup 70000;
    Submit {| sub_now := 100000; sub_clock := 100001; sub_fault := Healthy;
              sub_dto := sampleDto "s1" "i1" None |} ].

(** A batch that holds the same event twice. *)
Definition twiceTheSame : list TrackDto :=
  [ sampleDto "s1" "i1" None; sampleDto "s1" "i1" None ].

(** Two calls for the same key that overlap. *)
Definition overlappingCalls : list Request :=
  [ sampleRequest 1000 1002 (sampleDto "s1" "i1" None);
    sampleRequest 1001 1003 (sampleDto "s1" "i1" None) ].

(** A user who saw items A and B and clicked only on A. *)
Definition sawTwoClickedOne : State :=
  {| impressionCache := ∅; clickCache := ∅;
     impression_events := [ sampleDoc "u1" "s1" "A" 1000;
                            sampleDoc "u1" "s1" "B" 2000 ];
     click_events := [ sampleDoc "u1" "s1" "A" 1500 ] |}.

(** Impressions {A: 5, B: 5, C: 3}, stored A first and stored B first. *)
Definition impressionsOn (item : string) (n : nat) : list Event :=
  replicate n (sampleDoc "u1" "s1" item 1000).

Definition fiveFiveThree : State :=
  {| impressionCache := ∅; clickCache := ∅;
     impression_events :=
       impressionsOn "A" 5 ++ impressionsOn "B" 5 ++ impressionsOn "C" 3;
     click_events := [] |}.

Definition fiveFiveThree_B_first : State :=
  {| impressionCache := ∅; clickCache := ∅;
     impression_events :=
       impressionsOn "B" 5 ++ impressionsOn "A" 5 ++ impressionsOn "C" 3;
     click_events := [] |}.

Definition rowOf (item : string) (n : Z) : TrendingRow :=
  {| row_id := item; row_itemId := item; row_impressions := n;
     row_uniqueUsers := 1; row_uniqueSessions := 1 |}.

(** [setDate(getDate() - days)] for a runtime whose local time is UTC. *)
Definition daysBackUTC (now days : Z) : JsDate :=
  ValidDate (now - days * 86400000).

(** A batch of two events of different sessions whose keys collide. *)
Definition collidingBatch : list TrackDto :=
  [ sampleDto "s_a" "b" None; sampleDto "s" "a_b" None ].

(** Item A seen twice on 2024-03-01 and once on 2024-03-02, clicked once on
    2024-03-02. *)
Definition threeViews : State :=
  {| impressionCache := ∅; clickCache := ∅;
     impression_events := [ sampleDoc "u1" "s1" "A" 1709296215250;
                            sampleDoc "u1" "s2" "A" 1709382615250;
                            sampleDoc "u2" "s3" "A" 1709296216250 ];
     click_events := [ sampleDoc "u1" "s2" "A" 1709382616250 ] |}.

(** A result page that lists item A twice. *)
Definition listedTwice : list string := [ "A"; "B"; "A" ]%string.

(** A batch of two events, the second with a timestamp that does not
    parse. *)
Definition oneBadStamp : list TrackDto :=
  [ sampleDto "s1" "i1" None; sampleDto "s1" "i2" (Some "yesterday"%string) ].

(** * Properties *)

Example isoDateParse_epoch :
  isoDateParse "1970-01-01T00:00:00.000Z" = ValidDate 0.
Proof. reflexivity. Qed.

Example isoDateParse_2024 :
  isoDateParse "2024-03-01T12:30:15.250Z" = ValidDate 1709296215250.
Proof. reflexivity. Qed.

Example isoDateParse_garbage : isoDateParse "yesterday" = InvalidDate.
Proof. reflexivity. Qed.

Example isoDateParse_empty : isoDateParse EmptyString = InvalidDate.
Proof. reflexivity. Qed.

(** ** State accessors *)

Lemma cacheOf_setCache k c st : cacheOf k (setCache k c st) = c.
Proof. by destruct k. Qed.

Lemma eventsOf_setCache k k' c st : eventsOf k' (setCache k c st) = eventsOf k' st.
Proof. by destruct k, k'. Qed.

Lemma eventsOf_setEvents k es st : eventsOf k (setEvents k es st) = es.
Proof. by destruct k. Qed.

Lemma cacheOf_setEvents k k' es st : cacheOf k' (setEvents k es st) = cacheOf k' st.
Proof. by destruct k, k'. Qed.

Lemma tooRecent_insert cooldown now now' key cache :
  now' - now < cooldown ->
  tooRecent cooldown now' key (<[key := now]> cache) = true.
Proof.
  intros Hlt. unfold tooRecent. rewrite lookup_insert_eq.
  by apply bool_decide_eq_true.
Qed.

Lemma tooRecent_lookup cooldown now key cache last :
  cache !! key = Some last ->
  tooRecent cooldown now key cache = bool_decide (now - last < cooldown).
Proof. intros H. unfold tooRecent. by rewrite H. Qed.

Lemma cacheOf_cleanupTick cfg k now st :
  cacheOf k (cleanupTick cfg now st) = cleanCache cfg now (cacheOf k st).
Proof. by destruct k. Qed.

Lemma eventsOf_cleanupTick cfg k now st :
  eventsOf k (cleanupTick cfg now st) = eventsOf k st.
Proof. by destruct k. Qed.

Lemma cleanCache_lookup_Some cfg now cache key last :
  cleanCache cfg now cache !! key = Some last <->
  cache !! key = Some last /\ ~ (last < now - RATE_LIMIT_WINDOW cfg).
Proof. unfold cleanCache. by rewrite map_lookup_filter_Some. Qed.

Lemma cleanCache_subseteq cfg now cache : cleanCache cfg now cache ⊆ cache.
Proof. apply map_filter_subseteq. Qed.

Section IngestionFacts.

Variable newDate : string -> JsDate.
Variable cfg : AnalyticsConfig.

Lemma trackEvent_run k now clock f dto st :
  TrackRun newDate cfg k now clock f dto st
    (trackEvent newDate cfg k now clock f dto st).1 (trackEvent newDate cfg k now clock f dto st).2.
Proof.
  unfold trackEvent, findBySessionAndItem, createEvent.
  destruct (tooRecent _ _ _ _) eqn:Hrec; [by constructor|].
  destruct (readUp f) eqn:Hr; [|by constructor].
  destruct (List.find _ _) as [e|] eqn:Hfind; [by econstructor|].
  rewrite eventsOf_setCache.
  destruct (writeUp f && validateDoc _) eqn:Hw; by constructor.
Qed.

Lemma trackEvent_inv k now clock f dto st o st' :
  trackEvent newDate cfg k now clock f dto st = (o, st') ->
  TrackRun newDate cfg k now clock f dto st o st'.
Proof.
  intros H. pose proof (trackEvent_run k now clock f dto st) as R.
  by rewrite H in R.
Qed.

Lemma trackEvent_rejection_pure k now clock f dto st o st' :
  trackEvent newDate cfg k now clock f dto st = (o, st') ->
  isRejection o -> st' = st.
Proof.
  intros H%trackEvent_inv [-> | ->]; by inversion H.
Qed.

Lemma trackEvent_accepted_cache k now clock f dto st doc st' :
  trackEvent newDate cfg k now clock f dto st = (Accepted doc, st') ->
  cacheOf k st' !! dtoKey dto = Some now.
Proof.
  intros H%trackEvent_inv. inversion H; subst.
  rewrite cacheOf_setEvents, cacheOf_setCache. apply lookup_insert_eq.
Qed.

Lemma trackEvent_too_recent k now clock f dto st last :
  cacheOf k st !! dtoKey dto = Some last ->
  now - last < cooldownOf k cfg ->
  trackEvent newDate cfg k now clock f dto st = (RateLimited, st).
Proof.
  intros Hc Hlt. unfold trackEvent.
  rewrite (tooRecent_lookup _ _ _ _ _ Hc).
  by rewrite bool_decide_eq_true_2.
Qed.

(** Retries of a key accepted at [accepted_at], with the cleanup timer
    firing in between: as long as a retry can still come, the cache entry is
    there, so every retry is answered [RateLimited]; nothing is stored and
    no cache entry is written. *)
Lemma runSteps_retries k dto accepted_at steps : forall st from,
  cooldownOf k cfg <= RATE_LIMIT_WINDOW cfg \/ Forall isSubmit steps ->
  cacheOf k st !! dtoKey dto = Some accepted_at
  \/ cooldownOf k cfg <= from - accepted_at ->
  inTimeOrder from steps ->
  Forall (retryOf (cooldownOf k cfg) dto accepted_at) steps ->
  (runSteps newDate cfg k steps st).1
  = repeat RateLimited (length (submissionsOf steps))
  /\ (forall k', eventsOf k' (runSteps newDate cfg k steps st).2
                 = eventsOf k' st)
  /\ (forall k', cacheOf k' (runSteps newDate cfg k steps st).2
                 ⊆ cacheOf k' st)
  /\ (Forall isSubmit steps -> (runSteps newDate cfg k steps st).2 = st).
Proof.
  induction steps as [|[s|now] rest IH]; intros st from Hcfg Hinv Horder Hretry.
  - done.
  - apply Forall_cons in Hretry as [(Hs & Hi & Hlt) Hretry].
    destruct Horder as (Hfrom & Hclock & Horder).
    destruct Hinv as [Hc|Hgone]; [|lia].
    assert (dtoKey (sub_dto s) = dtoKey dto) as Hk
      by (unfold dtoKey; by rewrite Hs, Hi).
    cbn [runSteps]. rewrite <- Hk in Hc.
    rewrite (trackEvent_too_recent _ _ _ _ _ _ _ Hc Hlt). rewrite Hk in Hc.
    assert (cooldownOf k cfg <= RATE_LIMIT_WINDOW cfg \/ Forall isSubmit rest)
      as Hcfg'.
    { destruct Hcfg as [?|Hall]; [by left|right].
      by apply Forall_cons in Hall as [_ ?]. }
    destruct (IH st (sub_clock s) Hcfg' (or_introl Hc) Horder Hretry)
      as (Ho & He & Hsub & Hsame).
    destruct (runSteps _ _ _ rest st) as [os st2]. simpl in *.
    split; [by rewrite Ho|]. split; [done|]. split; [done|].
    intros Hall. apply Forall_cons in Hall as [_ Hall]. auto.
  - apply Forall_cons in Hretry as [_ Hretry].
    destruct Horder as (Hfrom & Horder).
    destruct Hcfg as [Hcfg|Hall]; [|by apply Forall_cons in Hall as [[] _]].
    cbn [runSteps].
    assert (cacheOf k (cleanupTick cfg now st) !! dtoKey dto = Some accepted_at
            \/ cooldownOf k cfg <= now - accepted_at) as Hinv'.
    { destruct Hinv as [Hc|Hgone]; [|right; lia].
      destruct (decide (accepted_at < now - RATE_LIMIT_WINDOW cfg));
        [right; lia|left].
      rewrite cacheOf_cleanupTick. by apply cleanCache_lookup_Some. }
    destruct (IH (cleanupTick cfg now st) now (or_introl Hcfg) Hinv' Horder Hretry)
      as (Ho & He & Hsub & _).
    split; [done|]. split; [|split].
    + intros k'. by rewrite He, eventsOf_cleanupTick.
    + intros k'. etrans; [apply Hsub|].
      rewrite cacheOf_cleanupTick. apply cleanCache_subseteq.
    + intros Hall. by apply Forall_cons in Hall as [[] _].
Qed.

(** C6 (as the code has it). A single submission that the service itself
    rejects (rate limited or duplicate) leaves both caches and both
    collections as they were.  A submission that ends in the store's error
    writes no event; it leaves the state as it was when the lookup failed,
    and has set the cache entry of its key when the save failed.  And once a
    submission for a key has been accepted, resubmitting that key any number
    of times inside the cooldown is answered [RateLimited] every time, with
    nothing stored and no cache entry written, as long as no cleanup fires in
    between or the cooldown does not exceed the rate-limit window (as with
    the defaults). *)
Theorem rejection_is_pure_and_repeats :
  (forall k now clock f dto st o st',
      trackEvent newDate cfg k now clock f dto st = (o, st') ->
      isRejection o -> st' = st)
  /\
  (forall k now clock f dto st st',
      trackEvent newDate cfg k now clock f dto st = (StoreError, st') ->
      (forall k', eventsOf k' st' = eventsOf k' st)
      /\ (readUp f = false -> st' = st)
      /\ (readUp f = true ->
          st' = setCache k (<[dtoKey dto := now]> (cacheOf k st)) st))
  /\
  (forall k now clock f dto st doc st1 retries,
      trackEvent newDate cfg k now clock f dto st = (Accepted doc, st1) ->
      cooldownOf k cfg <= RATE_LIMIT_WINDOW cfg \/ Forall isSubmit retries ->
      inTimeOrder now retries ->
      Forall (retryOf (cooldownOf k cfg) dto now) retries ->
      (runSteps newDate cfg k retries st1).1
      = repeat RateLimited (length (submissionsOf retries))
      /\ (forall k', eventsOf k' (runSteps newDate cfg k retries st1).2
                     = eventsOf k' st1)
      /\ (forall k', cacheOf k' (runSteps newDate cfg k retries st1).2
                     ⊆ cacheOf k' st1)
      /\ (Forall isSubmit retries ->
          (runSteps newDate cfg k retries st1).2 = st1)).
Proof.
  split; [|split].
  - apply trackEvent_rejection_pure.
  - intros k now clock f dto st st' H%trackEvent_inv.
    inversion H as [ |Hr Hup Ho Hst| |Hr Hup Hf Hw Ho Hst| ]; subst.
    + split; [done|]. split; [done|]. intros Hup'. congruence.
    + split; [intros k'; apply eventsOf_setCache|].
      split; [intros Hup'; congruence|done].
  - intros k now clock f dto st doc st1 retries Hacc Hcfg Horder Hall.
    apply (runSteps_retries k dto now retries st1 now); try done.
    left. by eapply trackEvent_accepted_cache.
Qed.

(** C10. The cache entry is set before the document is saved.  When a single
    submission gets past both checks and the save then fails, the call ends
    in the store's error with the cache entry of its key set to the time of
    the attempt and with no event written; a later submission for the same
    key inside the cooldown is then answered [RateLimited]. *)
Theorem cache_kept_when_save_fails k now clock f dto st st1 :
  readUp f = true ->
  trackEvent newDate cfg k now clock f dto st = (StoreError, st1) ->
  st1 = setCache k (<[dtoKey dto := now]> (cacheOf k st)) st
  /\ cacheOf k st1 !! dtoKey dto = Some now
  /\ (forall k', eventsOf k' st1 = eventsOf k' st)
  /\ (forall now' clock' f' dto',
        session_id dto' = session_id dto ->
        item_id dto' = item_id dto ->
        now' - now < cooldownOf k cfg ->
        trackEvent newDate cfg k now' clock' f' dto' st1 = (RateLimited, st1)).
Proof.
  intros Hup H%trackEvent_inv. inversion H; subst; [congruence|].
  assert (cacheOf k (setCache k (<[dtoKey dto:=now]> (cacheOf k st)) st)
          !! dtoKey dto = Some now) as Hc.
  { rewrite cacheOf_setCache. apply lookup_insert_eq. }
  repeat split; [done| |].
  - intros k'. apply eventsOf_setCache.
  - intros now' clock' f' dto' Hs Hi Hlt.
    apply (trackEvent_too_recent _ _ _ _ _ _ now); [|done].
    unfold dtoKey in *. by rewrite Hs, Hi.
Qed.

(** Resuming one call three times in a row is the call itself. *)
Lemma runSchedule_alone r st :
  req_pending r = NotStarted ->
  runSchedule newDate cfg [0; 0; 0]%nat [r] st
  = ([withPending r
        (Settled (trackEvent newDate cfg (req_kind r) (req_now r) (req_clock r)
                    (req_fault r) (req_dto r) st).1)],
     (trackEvent newDate cfg (req_kind r) (req_now r) (req_clock r)
        (req_fault r) (req_dto r) st).2).
Proof.
  intros Hp. destruct r as [k now clock f dto p]. simpl in Hp. subst p.
  unfold trackEvent. cbn.
  destruct (tooRecent _ _ _ _); [done|]. cbn.
  destruct (findBySessionAndItem _ _ _ _ _) as [[e|]|]; [done| |done]. cbn.
  by destruct (createEvent _ _ _ _) as [[doc coll]|].
Qed.

(** *** The batch loop *)

Lemma batchLoop_decisions k now clock es dtos cache :
  (batchLoop newDate cfg k now clock es dtos cache).1
  = map (fun d => eventData newDate d clock)
      (select (batchDecisions cfg k now es dtos cache) dtos).
Proof.
  revert cache. induction dtos as [|d rest IH]; intros cache; [done|].
  cbn [batchLoop batchDecisions].
  destruct (tooRecent _ _ _ _); [apply IH|].
  destruct (bool_decide _); [apply IH|].
  specialize (IH (<[dtoKey d:=now]> cache)).
  destruct (batchLoop _ _ _ _ _ _ _ _) as [valid cache']. simpl in *.
  by rewrite IH.
Qed.

Lemma batchDecisions_length k now es dtos cache :
  length (batchDecisions cfg k now es dtos cache) = length dtos.
Proof.
  revert cache. induction dtos as [|d rest IH]; intros cache; [done|].
  cbn [batchDecisions].
  destruct (tooRecent _ _ _ _); [simpl; by rewrite IH|].
  destruct (bool_decide _); simpl; by rewrite IH.
Qed.

Lemma select_sublist {A} (marks : list bool) (l : list A) :
  sublist (select marks l) l.
Proof.
  revert marks. induction l as [|x l IH]; intros [|[] marks]; simpl;
    try apply sublist_nil_l.
  - by apply sublist_skip.
  - by apply sublist_cons.
Qed.

(** What a batch call leaves behind, by its outcome. *)
Lemma trackEventsBatch_inv k now clock f dtos st o st' :
  trackEventsBatch newDate cfg k now clock f dtos st = (o, st') ->
  let kept := select (batchAccepted cfg k now f dtos st) dtos in
  let docs := map (fun d => castDoc k (eventData newDate d clock)) kept in
  (o = BatchTracked docs /\ eventsOf k st' = eventsOf k st ++ docs)
  \/ (o = BatchStoreError /\ eventsOf k st' = eventsOf k st).
Proof.
  unfold trackEventsBatch, batchAccepted.
  destruct dtos as [|d0 rest].
  { intros [= <- <-]. left. simpl. destruct (findExisting _ _ _ _); simpl;
      by rewrite app_nil_r. }
  set (dtos := d0 :: rest).
  destruct (findExisting _ _ _ _) as [existing|]; [|intros [= <- <-]; by right].
  pose proof (batchLoop_decisions k now clock
                (list_to_set (map (fun e => cacheKey (doc_session_id e)
                                              (doc_item_id e)) existing))
                dtos (cacheOf k st)) as Hloop.
  destruct (batchLoop _ _ _ _ _ _ _ _) as [valid cache']. cbn [fst] in Hloop.
  rewrite <- map_map, <- Hloop. clear Hloop.
  intros H.
  destruct valid as [|v valid'].
  { injection H as <- <-. left. rewrite eventsOf_setCache. simpl.
    by rewrite app_nil_r. }
  unfold createEventsBatch in H. rewrite eventsOf_setCache in H.
  destruct (writeUp f && forallb validateDoc _).
  - injection H as <- <-. left. by rewrite eventsOf_setEvents.
  - injection H as <- <-. right. by rewrite eventsOf_setCache.
Qed.

Lemma batchAccepted_length k now f dtos st :
  length (batchAccepted cfg k now f dtos st) = length dtos.
Proof.
  unfold batchAccepted. destruct (findExisting _ _ _ _).
  - apply batchDecisions_length.
  - apply length_replicate.
Qed.

(** A batch call on a healthy database whose kept events pass the schema
    completes. *)
Lemma trackEventsBatch_completes k now clock dtos st :
  forallb validateDoc
    (map (fun d => castDoc k (eventData newDate d clock))
       (select (batchAccepted cfg k now Healthy dtos st) dtos)) = true ->
  exists docs st',
    trackEventsBatch newDate cfg k now clock Healthy dtos st
    = (BatchTracked docs, st').
Proof.
  unfold trackEventsBatch, batchAccepted.
  destruct dtos as [|d0 rest]; [by eexists _, _|].
  set (dtos := d0 :: rest).
  destruct (findExisting _ _ _ _) as [existing|] eqn:Hex; [|done].
  pose proof (batchLoop_decisions k now clock
                (list_to_set (map (fun e => cacheKey (doc_session_id e)
                                              (doc_item_id e)) existing))
                dtos (cacheOf k st)) as Hloop.
  destruct (batchLoop _ _ _ _ _ _ _ _) as [valid cache']. cbn [fst] in Hloop.
  rewrite <- map_map, <- Hloop. intros Hvalid.
  destruct valid as [|v valid']; [by eexists _, _|].
  unfold createEventsBatch. rewrite Hvalid. by eexists _, _.
Qed.

(** C3 (as the code has it). A batch call that completes returns the stored
    documents of the input events that passed both checks, in input order:
    one element per kept event and none for a skipped one.  The result is
    therefore never longer than the input, is empty for an empty input, and
    is what the call appended to the collection. *)
Theorem batch_returns_the_kept_events k now clock f dtos st docs st' :
  trackEventsBatch newDate cfg k now clock f dtos st = (BatchTracked docs, st') ->
  docs = map (fun d => castDoc k (eventData newDate d clock))
           (select (batchAccepted cfg k now f dtos st) dtos)
  /\ length (batchAccepted cfg k now f dtos st) = length dtos
  /\ sublist (select (batchAccepted cfg k now f dtos st) dtos) dtos
  /\ (length docs <= length dtos)%nat
  /\ (dtos = [] -> docs = [])
  /\ eventsOf k st' = eventsOf k st ++ docs.
Proof.
  intros H. apply trackEventsBatch_inv in H as [[[= ->] Hev]|[[=] _]].
  pose proof (select_sublist (batchAccepted cfg k now f dtos st) dtos) as Hsub.
  split; [done|]. split; [apply batchAccepted_length|]. split; [done|].
  split; [|split; [|done]].
  - rewrite length_map. by apply sublist_length.
  - intros ->. by destruct (batchAccepted _ _ _ _ _ _) as [|[] ?].
Qed.

(** Once a key is held back by the cache or by the set of existing events,
    the loop keeps no later event of that key. *)
Lemma batchDecisions_blocked k now es key rest cache :
  0 < cooldownOf k cfg ->
  tooRecent (cooldownOf k cfg) now key cache = true \/ key ∈ es ->
  forall (j : nat) dj,
    rest !! j = Some dj -> dtoKey dj = key ->
    batchDecisions cfg k now es rest cache !! j = Some false.
Proof.
  intros Hpos. revert cache.
  induction rest as [|d rest IH]; intros cache Hblocked j dj Hj Hkey; [done|].
  cbn [batchDecisions].
  destruct j as [|j]; simpl in Hj.
  - injection Hj as ->. rewrite Hkey.
    destruct (tooRecent _ _ _ _) eqn:Hrec; [done|].
    destruct Hblocked as [?|Hin]; [done|].
    by rewrite bool_decide_eq_true_2.
  - destruct (tooRecent _ _ (dtoKey d) _) eqn:Hrec; [by apply (IH _ Hblocked j dj)|].
    destruct (bool_decide _); [by apply (IH _ Hblocked j dj)|].
    simpl. apply (IH (<[dtoKey d:=now]> cache)) with (dj := dj); [|done..].
    destruct Hblocked as [Hb|Hin]; [left|by right].
    destruct (decide (dtoKey d = key)) as [->|Hne].
    + apply tooRecent_insert. lia.
    + unfold tooRecent in *. by rewrite lookup_insert_ne.
Qed.

Lemma batchDecisions_later_same_key k now es dtos cache :
  0 < cooldownOf k cfg ->
  forall (i j : nat) di dj,
    (i < j)%nat -> dtos !! i = Some di -> dtos !! j = Some dj ->
    dtoKey di = dtoKey dj ->
    batchDecisions cfg k now es dtos cache !! j = Some false.
Proof.
  intros Hpos. revert cache.
  induction dtos as [|d rest IH]; intros cache i j di dj Hlt Hi Hj Hkey; [done|].
  destruct j as [|j]; [lia|]. simpl in Hj.
  cbn [batchDecisions].
  destruct i as [|i]; simpl in Hi.
  - injection Hi as ->.
    destruct (tooRecent _ _ _ _) eqn:Hrec.
    { simpl. eapply batchDecisions_blocked; eauto. }
    destruct (bool_decide _) eqn:Hin.
    { simpl. apply bool_decide_eq_true in Hin.
      eapply batchDecisions_blocked; eauto. }
    simpl. eapply batchDecisions_blocked; [done| |done..].
    left. apply tooRecent_insert. lia.
  - assert (i < j)%nat as Hlt' by lia.
    destruct (tooRecent _ _ _ _); [simpl; by eapply IH|].
    destruct (bool_decide _); simpl; by eapply IH.
Qed.

Lemma batchDecisions_blocked_none k now es key rest cache :
  0 < cooldownOf k cfg ->
  tooRecent (cooldownOf k cfg) now key cache = true \/ key ∈ es ->
  Forall (fun d => dtoKey d <> key)
    (select (batchDecisions cfg k now es rest cache) rest).
Proof.
  intros Hpos. revert cache.
  induction rest as [|d rest IH]; intros cache Hblocked; [constructor|].
  cbn [batchDecisions].
  destruct (tooRecent _ _ (dtoKey d) _) eqn:Hrec; [by apply IH|].
  destruct (bool_decide _) eqn:Hin; [by apply IH|].
  apply bool_decide_eq_false in Hin.
  assert (dtoKey d <> key) as Hne.
  { intros Heq. rewrite Heq in Hrec, Hin. destruct Hblocked; [congruence|done]. }
  simpl. constructor; [done|]. apply IH.
  destruct Hblocked as [Hb|?]; [left|by right].
  unfold tooRecent in *. by rewrite lookup_insert_ne.
Qed.

Lemma dtosOfPair_other_key sid iid key (l : list TrackDto) :
  cacheKey sid iid = key ->
  Forall (fun d => dtoKey d <> key) l ->
  dtosOfPair sid iid l = [].
Proof.
  intros Hkey. induction 1 as [|d l Hne _ IH]; [done|]. simpl.
  destruct (bool_decide (session_id d = sid) && bool_decide (item_id d = iid))
    eqn:Hpair; [|exact IH].
  apply andb_true_iff in Hpair as [Hs%bool_decide_eq_true Hi%bool_decide_eq_true].
  exfalso. apply Hne. unfold dtoKey. by rewrite Hs, Hi.
Qed.

(** Of the events of one pair the loop keeps at most one. *)
Lemma batchDecisions_at_most_one k now es sid iid dtos cache :
  0 < cooldownOf k cfg ->
  (length (dtosOfPair sid iid
             (select (batchDecisions cfg k now es dtos cache) dtos)) <= 1)%nat.
Proof.
  intros Hpos. revert cache.
  induction dtos as [|d rest IH]; intros cache; [simpl; lia|].
  cbn [batchDecisions].
  destruct (tooRecent _ _ _ _) eqn:Hrec; [apply IH|].
  destruct (bool_decide _) eqn:Hin; [apply IH|].
  cbn [select dtosOfPair List.filter].
  destruct (bool_decide (session_id d = sid) && bool_decide (item_id d = iid))
    eqn:Hpair; [|apply IH].
  apply andb_true_iff in Hpair as [Hs%bool_decide_eq_true Hi%bool_decide_eq_true].
  pose proof (batchDecisions_blocked_none k now es (dtoKey d) rest
                (<[dtoKey d:=now]> cache) Hpos) as Hnone.
  fold (dtosOfPair sid iid
          (select (batchDecisions cfg k now es rest (<[dtoKey d:=now]> cache))
             rest)).
  assert (dtosOfPair sid iid
            (select (batchDecisions cfg k now es rest (<[dtoKey d:=now]> cache))
               rest) = []) as ->; [|simpl; lia].
  apply (dtosOfPair_other_key sid iid (dtoKey d)).
  - unfold dtoKey. by rewrite Hs, Hi.
  - apply Hnone. left. apply tooRecent_insert. lia.
Qed.

(** C4 (as the code has it). With a positive cooldown, an event of a batch
    that comes after another event of the same session and item in that
    batch is never kept: of the events of one key at most one is kept, and
    then it is the first in input order.  What the call stores is nothing or
    exactly the kept events, so later events of a key are not persisted. *)
Theorem batch_keeps_only_the_first_of_a_key k now clock f dtos st :
  0 < cooldownOf k cfg ->
  (forall (i j : nat) di dj,
      (i < j)%nat -> dtos !! i = Some di -> dtos !! j = Some dj ->
      session_id di = session_id dj -> item_id di = item_id dj ->
      batchAccepted cfg k now f dtos st !! j = Some false)
  /\ (forall sid iid,
        (length (dtosOfPair sid iid
                   (select (batchAccepted cfg k now f dtos st) dtos)) <= 1)%nat)
  /\ (forall o st',
        trackEventsBatch newDate cfg k now clock f dtos st = (o, st') ->
        eventsOf k st' = eventsOf k st
        \/ eventsOf k st'
           = eventsOf k st
             ++ map (fun d => castDoc k (eventData newDate d clock))
                  (select (batchAccepted cfg k now f dtos st) dtos)).
Proof.
  intros Hpos. split; [|split].
  - intros i j di dj Hlt Hi Hj Hs Hitem. unfold batchAccepted.
    destruct (findExisting _ _ _ _).
    + eapply batchDecisions_later_same_key; eauto.
      unfold dtoKey. by rewrite Hs, Hitem.
    + apply lookup_replicate_2. by eapply lookup_lt_Some.
  - intros sid iid. unfold batchAccepted.
    destruct (findExisting _ _ _ _).
    + by apply batchDecisions_at_most_one.
    + assert (forall l : list TrackDto,
                 select (replicate (length l) false) l = []) as Hnone
        by (induction l; done).
      rewrite Hnone. simpl. lia.
  - intros o st' H. apply trackEventsBatch_inv in H as [[_ Hev]|[_ Hev]];
      [by right|by left].
Qed.

(** *** Timestamps *)

Lemma castDoc_timestamp k data : doc_timestamp (castDoc k data) = doc_timestamp data.
Proof. by destruct k. Qed.

Lemma validateDoc_timestamp doc : validateDoc doc = true -> hasValidTimestamp doc.
Proof.
  unfold validateDoc, hasValidTimestamp.
  intros [_ H]%andb_true_iff. by apply negb_true_iff.
Qed.

Lemma eventTimestamp_default ts clock :
  ts = None \/ ts = Some EmptyString ->
  eventTimestamp newDate ts clock = ValidDate clock.
Proof. by intros [-> | ->]. Qed.

Lemma eventTimestamp_unparsable s clock :
  s <> EmptyString -> newDate s = InvalidDate ->
  eventTimestamp newDate (Some s) clock = InvalidDate.
Proof.
  intros Hne Hbad. unfold eventTimestamp. by rewrite bool_decide_eq_false_2.
Qed.

Lemma trackEvent_keeps_valid k now clock f dto st :
  Forall hasValidTimestamp (eventsOf k st) ->
  Forall hasValidTimestamp
    (eventsOf k (trackEvent newDate cfg k now clock f dto st).2).
Proof.
  intros Hall.
  destruct (trackEvent newDate cfg k now clock f dto st) as [o st'] eqn:E.
  apply trackEvent_inv in E. inversion E as [ | | | |? ? ? Hw]; subst; simpl;
    try done.
  - by rewrite eventsOf_setCache.
  - rewrite eventsOf_setEvents. apply Forall_app. split; [done|].
    apply andb_true_iff in Hw as [_ Hv]. repeat constructor.
    by apply validateDoc_timestamp.
Qed.

Lemma forallb_validateDoc docs :
  forallb validateDoc docs = true -> Forall hasValidTimestamp docs.
Proof.
  induction docs as [|d docs IH]; simpl; [done|].
  intros [Hd Hrest]%andb_true_iff. constructor; [|by apply IH].
  by apply validateDoc_timestamp.
Qed.

Lemma trackEventsBatch_keeps_valid k now clock f dtos st :
  Forall hasValidTimestamp (eventsOf k st) ->
  Forall hasValidTimestamp
    (eventsOf k (trackEventsBatch newDate cfg k now clock f dtos st).2).
Proof.
  intros Hall. unfold trackEventsBatch.
  destruct dtos as [|d0 rest]; [done|].
  destruct (findExisting _ _ _ _) as [existing|]; [|done].
  destruct (batchLoop _ _ _ _ _ _ _ _) as [valid cache'].
  destruct valid as [|v valid']; [simpl; by rewrite eventsOf_setCache|].
  unfold createEventsBatch. rewrite eventsOf_setCache.
  destruct (writeUp f); cbn [andb]; [|simpl; by rewrite eventsOf_setCache].
  destruct (forallb validateDoc _) eqn:Hv; [|simpl; by rewrite eventsOf_setCache].
  cbn [snd]. rewrite eventsOf_setEvents. apply Forall_app. split; [done|].
  by apply forallb_validateDoc.
Qed.

(** C5 (as the code has it). A submission without a timestamp, or with the
    empty string, which counts as none, is stamped with the current time.  A
    non-empty timestamp that does not parse is not replaced by the current
    time: it becomes an Invalid Date in the data handed to the store, the
    call is never accepted and no event is written for it.  Hence single and
    batch calls keep every stored event on a valid timestamp. *)
Theorem unparsable_timestamp_never_stored k now clock f dto st :
  (timestamp dto = None \/ timestamp dto = Some EmptyString ->
   doc_timestamp (eventData newDate dto clock) = ValidDate clock)
  /\
  (forall s,
      timestamp dto = Some s -> s <> EmptyString -> newDate s = InvalidDate ->
      doc_timestamp (eventData newDate dto clock) = InvalidDate
      /\ isAccepted (trackEvent newDate cfg k now clock f dto st).1 = false
      /\ (forall k', eventsOf k' (trackEvent newDate cfg k now clock f dto st).2
                     = eventsOf k' st))
  /\
  (Forall hasValidTimestamp (eventsOf k st) ->
   Forall hasValidTimestamp
     (eventsOf k (trackEvent newDate cfg k now clock f dto st).2)
   /\ forall dtos,
       Forall hasValidTimestamp
         (eventsOf k (trackEventsBatch newDate cfg k now clock f dtos st).2)).
Proof.
  split; [|split].
  - intros H. simpl. by apply eventTimestamp_default.
  - intros s Hts Hne Hbad.
    assert (doc_timestamp (eventData newDate dto clock) = InvalidDate) as Hd.
    { simpl. rewrite Hts. by apply eventTimestamp_unparsable. }
    assert (validateDoc (castDoc k (eventData newDate dto clock)) = false) as Hv.
    { unfold validateDoc. rewrite castDoc_timestamp, Hd. simpl.
      by rewrite andb_false_r. }
    destruct (trackEvent newDate cfg k now clock f dto st) as [o st'] eqn:E.
    pose proof E as R. apply trackEvent_inv in R.
    split; [done|]. split.
    + inversion R as [ | | | |? ? ? Hw]; subst; simpl; try done.
      by rewrite Hv, andb_false_r in Hw.
    + intros k'. inversion R as [ | | | |? ? ? Hw]; subst; simpl; try done.
      * apply eventsOf_setCache.
      * by rewrite Hv, andb_false_r in Hw.
  - intros Hall. split.
    + by apply trackEvent_keeps_valid.
    + intros dtos. by apply trackEventsBatch_keeps_valid.
Qed.

(** *** Single submissions against the rule of the specification *)

Lemma find_pair_None sid iid bound coll :
  List.find (matchesPair sid iid bound) coll = None <->
  Forall (fun d => date_gte d bound = false)
    (map doc_timestamp (eventsOfPair sid iid coll)).
Proof.
  unfold eventsOfPair, matchesPair.
  induction coll as [|e coll IH]; simpl; [by split; [constructor|]|].
  destruct (bool_decide (doc_session_id e = sid) &&
            bool_decide (doc_item_id e = iid)); simpl; [|done].
  destruct (date_gte (doc_timestamp e) bound) eqn:Hge.
  - split; [done|]. intros H. apply Forall_cons in H as [H _]. congruence.
  - rewrite IH. split; [by constructor|]. intros H.
    by apply Forall_cons in H as [_ H].
Qed.

Section OneKey.

Variable k : EventKind.
Variables sid iid : string.
Hypothesis sid_set : sid <> EmptyString.
Hypothesis iid_set : iid <> EmptyString.

(** The cooldown check reads the arrival of the latest accepted
    submission. *)
Lemma tooRecent_KeyState acc st now :
  KeyState (cooldownOf k cfg) k sid iid acc now st ->
  tooRecent (cooldownOf k cfg) now (cacheKey sid iid) (cacheOf k st)
  = negb match acc with
         | [] => true
         | (last, _) :: _ => bool_decide (cooldownOf k cfg <= now - last)
         end.
Proof.
  intros [Hc _ _]. unfold tooRecent.
  destruct (cacheOf k st !! cacheKey sid iid) as [l|].
  - destruct acc as [|[last stamp] acc]; simpl in Hc; [done|].
    injection Hc as ->. repeat case_bool_decide; simpl; done || lia.
  - destruct acc as [|[last stamp] acc]; simpl in *; [done|].
    specialize (Hc last eq_refl). by rewrite bool_decide_eq_true_2.
Qed.

(** The duplicate check looks for an accepted event in the window. *)
Lemma find_KeyState acc st now :
  KeyState (cooldownOf k cfg) k sid iid acc now st ->
  List.find (matchesPair sid iid (now - RATE_LIMIT_WINDOW cfg)) (eventsOf k st)
  = None <->
  forallb (fun p => negb (withinWindow (RATE_LIMIT_WINDOW cfg) now p.2)) acc
  = true.
Proof.
  intros [_ He Hpast]. rewrite find_pair_None, He.
  rewrite Forall_map, Forall_reverse, forallb_forall.
  rewrite Forall_forall. setoid_rewrite list_elem_of_In.
  rewrite Forall_forall in Hpast. setoid_rewrite list_elem_of_In in Hpast.
  split; intros H p Hp; specialize (H p Hp); specialize (Hpast p Hp);
    unfold withinWindow in *; simpl in *.
  - apply Z.leb_gt in H. rewrite bool_decide_eq_false_2 by lia. done.
  - apply Z.leb_gt. apply negb_true_iff, andb_false_iff in H as [H|H];
      apply bool_decide_eq_false in H; lia.
Qed.

Lemma KeyState_later acc st t t' :
  t <= t' ->
  KeyState (cooldownOf k cfg) k sid iid acc t st ->
  KeyState (cooldownOf k cfg) k sid iid acc t' st.
Proof.
  intros Hle [Hc He Hpast]. split; [|done|].
  - destruct (cacheOf k st !! cacheKey sid iid); [done|].
    intros last Hlast. specialize (Hc last Hlast). lia.
  - eapply Forall_impl; [exact Hpast|]. simpl. intros; lia.
Qed.

Lemma KeyState_accept acc st now clock dto stamp :
  KeyState (cooldownOf k cfg) k sid iid acc now st ->
  now <= clock ->
  session_id dto = sid -> item_id dto = iid ->
  eventTimestamp newDate (timestamp dto) clock = ValidDate stamp ->
  stamp <= clock ->
  KeyState (cooldownOf k cfg) k sid iid ((now, stamp) :: acc) clock
    (setEvents k (eventsOf k st ++ [castDoc k (eventData newDate dto clock)])
       (setCache k (<[dtoKey dto := now]> (cacheOf k st)) st)).
Proof.
  intros [Hc He Hpast] Hle Hs Hi Hts Hstamp. split.
  - rewrite cacheOf_setEvents, cacheOf_setCache. unfold dtoKey.
    rewrite Hs, Hi. by rewrite lookup_insert_eq.
  - rewrite eventsOf_setEvents. unfold eventsOfPair in *.
    rewrite List.filter_app, map_app, He, reverse_cons, map_app. f_equal.
    simpl. assert (doc_session_id (castDoc k (eventData newDate dto clock)) = sid)
      as -> by (by destruct k).
    assert (doc_item_id (castDoc k (eventData newDate dto clock)) = iid)
      as -> by (by destruct k).
    rewrite !bool_decide_eq_true_2 by done. simpl.
    rewrite castDoc_timestamp. simpl. by rewrite Hts.
  - constructor; [simpl; lia|].
    eapply Forall_impl; [exact Hpast|]. simpl. intros; lia.
Qed.

(** The cleanup removes the entry of the key only when the latest arrival
    is more than the window back, which covers the cooldown. *)
Lemma KeyState_cleanup acc st t now :
  cooldownOf k cfg <= RATE_LIMIT_WINDOW cfg ->
  t <= now ->
  KeyState (cooldownOf k cfg) k sid iid acc t st ->
  KeyState (cooldownOf k cfg) k sid iid acc now (cleanupTick cfg now st).
Proof.
  intros Hcfg Hle Hkey.
  destruct (KeyState_later acc st t now Hle Hkey) as [Hc He Hpast].
  split; [|by rewrite eventsOf_cleanupTick|done].
  rewrite cacheOf_cleanupTick.
  destruct (cleanCache cfg now (cacheOf k st) !! cacheKey sid iid) as [l|] eqn:E.
  - apply cleanCache_lookup_Some in E as [E _]. by rewrite E in Hc.
  - destruct (cacheOf k st !! cacheKey sid iid) as [l|] eqn:E0; [|done].
    intros last Hlast. rewrite Hlast in Hc. injection Hc as ->.
    destruct (decide (l < now - RATE_LIMIT_WINDOW cfg)) as [Hold|Hyoung]; [lia|].
    assert (cleanCache cfg now (cacheOf k st) !! cacheKey sid iid = Some l)
      as E1 by (by apply cleanCache_lookup_Some).
    congruence.
Qed.

(** One submission: it is accepted exactly when the rule accepts it, and the
    key moves on accordingly. *)
Lemma trackEvent_follows_rule acc st s stamp o st' :
  KeyState (cooldownOf k cfg) k sid iid acc (sub_now s) st ->
  sub_now s <= sub_clock s ->
  session_id (sub_dto s) = sid ->
  item_id (sub_dto s) = iid ->
  sub_fault s = Healthy ->
  storedStamp newDate s = ValidDate stamp ->
  stamp <= sub_clock s ->
  trackEvent newDate cfg k (sub_now s) (sub_clock s) (sub_fault s) (sub_dto s) st
  = (o, st') ->
  isAccepted o
  = ruleAccepts (cooldownOf k cfg) (RATE_LIMIT_WINDOW cfg) acc (sub_now s)
  /\ KeyState (cooldownOf k cfg) k sid iid
       (if isAccepted o then (sub_now s, stamp) :: acc else acc)
       (sub_clock s) st'.
Proof.
  intros Hkey Hclock Hs Hi Hf Hts Hstamp H.
  destruct s as [now clock f dto]. simpl in *. subst f.
  change (eventTimestamp newDate (timestamp dto) clock = ValidDate stamp) in Hts.
  pose proof (tooRecent_KeyState acc st now Hkey) as Hrec.
  pose proof (find_KeyState acc st now Hkey) as Hfind.
  pose proof (KeyState_later acc st now clock Hclock Hkey) as Hkey'.
  assert (dtoKey dto = cacheKey sid iid) as Hk by (unfold dtoKey; by rewrite Hs, Hi).
  apply trackEvent_inv in H.
  inversion H as [Hr Ho Hst|Hr Hup Ho Hst|e Hr Hup Hf Ho Hst
                 |Hr Hup Hf Hw Ho Hst|Hr Hup Hf Hw Ho Hst];
    clear H; subst o st'; rewrite Hk in Hr; try rewrite Hs, Hi in Hf; simpl.
  - split; [|done]. unfold ruleAccepts. rewrite Hrec in Hr.
    apply negb_true_iff in Hr. by rewrite Hr.
  - done.
  - split; [|done]. unfold ruleAccepts.
    destruct (forallb _ acc) eqn:Hall; [|by rewrite andb_false_r].
    apply proj2 in Hfind. specialize (Hfind eq_refl). congruence.
  - exfalso. simpl in Hw. unfold validateDoc in Hw.
    rewrite castDoc_timestamp in Hw. simpl in Hw.
    rewrite Hts in Hw.
    assert (doc_session_id (castDoc k (eventData newDate dto clock)) = session_id dto)
      as Hds by (by destruct k).
    assert (doc_item_id (castDoc k (eventData newDate dto clock)) = item_id dto)
      as Hdi by (by destruct k).
    rewrite Hds, Hdi, Hs, Hi in Hw.
    rewrite !bool_decide_eq_false_2 in Hw by done. done.
  - split.
    + unfold ruleAccepts. rewrite Hrec in Hr. apply negb_false_iff in Hr.
      rewrite Hr. symmetry. by apply Hfind.
    + by apply KeyState_accept.
Qed.

Lemma runSteps_follows_rule steps : forall acc st from,
  cooldownOf k cfg <= RATE_LIMIT_WINDOW cfg \/ Forall isSubmit steps ->
  KeyState (cooldownOf k cfg) k sid iid acc from st ->
  Forall (stampedFor newDate sid iid) steps ->
  inTimeOrder from steps ->
  map isAccepted (runSteps newDate cfg k steps st).1
  = ruleDecisions (cooldownOf k cfg) (RATE_LIMIT_WINDOW cfg) acc
      (stampedSubmissions newDate steps).
Proof.
  induction steps as [|[s|now] rest IH];
    intros acc st from Hcfg Hkey Hstamped Horder; [done| |].
  - apply Forall_cons in Hstamped as [Hsub Hstamped].
    destruct Hsub as (Hs & Hi & Hf & stamp & Hts & Hstamp).
    destruct Horder as (Hfrom & Hclock & Horder).
    assert (cooldownOf k cfg <= RATE_LIMIT_WINDOW cfg \/ Forall isSubmit rest)
      as Hcfg'.
    { destruct Hcfg as [?|Hall]; [by left|right].
      by apply Forall_cons in Hall as [_ ?]. }
    cbn [runSteps stampedSubmissions omap list_omap]. rewrite Hts.
    fold (stampedSubmissions newDate rest). cbn [ruleDecisions].
    destruct (trackEvent _ _ _ _ _ _ _ _) as [o st1] eqn:E.
    apply (KeyState_later _ _ _ _ Hfrom) in Hkey.
    destruct (trackEvent_follows_rule acc st s stamp o st1
                Hkey Hclock Hs Hi Hf Hts Hstamp E) as [Hdec Hkey1].
    rewrite <- Hdec.
    specialize (IH (if isAccepted o then (sub_now s, stamp) :: acc else acc)
                  st1 (sub_clock s) Hcfg' Hkey1 Hstamped Horder).
    destruct (runSteps _ _ _ rest st1) as [os st2]. simpl in *.
    destruct (isAccepted o); by rewrite IH.
  - apply Forall_cons in Hstamped as [_ Hstamped].
    destruct Horder as (Hfrom & Horder).
    destruct Hcfg as [Hcfg|Hall]; [|by apply Forall_cons in Hall as [[] _]].
    cbn [runSteps stampedSubmissions omap list_omap].
    fold (stampedSubmissions newDate rest).
    apply (IH acc (cleanupTick cfg now st) now); try done; [by left|].
    by apply (KeyState_cleanup acc st from).
Qed.

End OneKey.

(** C1 (as the code has it). Take any kind and any (session, item) pair with
    non-empty ids, a state in which the pair has no cache entry and no stored
    event, and from then on, in time order, single submissions of the pair
    that meet a healthy database, each stored under its timestamp: the
    client's when one is supplied, which then is a valid instant not later
    than the server clock of the call, and the server clock otherwise; the
    cleanup timer may fire in between (given a cooldown that does not exceed
    the rate-limit window, as with the defaults).  Then each submission is
    accepted if and only if it arrives at least the cooldown after the
    arrival of the latest accepted submission of the pair and no accepted
    event of the pair has its stored timestamp in the rate-limit window
    before the arrival. *)
Theorem single_submissions_follow_the_rule k sid iid from steps st :
  sid <> EmptyString -> iid <> EmptyString ->
  cooldownOf k cfg <= RATE_LIMIT_WINDOW cfg \/ Forall isSubmit steps ->
  cacheOf k st !! cacheKey sid iid = None ->
  eventsOfPair sid iid (eventsOf k st) = [] ->
  Forall (stampedFor newDate sid iid) steps ->
  inTimeOrder from steps ->
  map isAccepted (runSteps newDate cfg k steps st).1
  = ruleDecisions (cooldownOf k cfg) (RATE_LIMIT_WINDOW cfg) []
      (stampedSubmissions newDate steps).
Proof.
  intros Hsid Hiid Hcfg Hcache Hevents Hstamped Horder.
  apply (runSteps_follows_rule k sid iid Hsid Hiid steps [] st from); try done.
  split; simpl; [by rewrite Hcache|by rewrite Hevents|done].
Qed.

End IngestionFacts.

(** ** Retention *)

Lemma filter_split_length {A} (p : A -> bool) (l : list A) :
  (length (List.filter p l) + length (List.filter (fun x => negb (p x)) l))%nat
  = length l.
Proof.
  induction l as [|x l IH]; [done|]. simpl.
  destruct (p x); simpl; lia.
Qed.

Lemma deleteOld_valid c coll :
  deleteOld (ValidDate c) coll
  = Some (Z.of_nat (length coll)
          - Z.of_nat (length (List.filter
                                (fun e => negb (date_lt (doc_timestamp e) c)) coll)),
          List.filter (fun e => negb (date_lt (doc_timestamp e) c)) coll).
Proof.
  unfold deleteOld. do 2 f_equal.
  pose proof (filter_split_length (fun e => date_lt (doc_timestamp e) c) coll).
  lia.
Qed.

Section RetentionFacts.

Variable setDateBack : Z -> Z -> JsDate.
Variable cfg : AnalyticsConfig.

(** C9. When the purge completes (the database takes the deletes and the
    cutoff is a valid date [c]), then for each kind: no stored event of that
    kind has a timestamp before [c]; the events that are left are exactly the
    earlier content without the events before [c], in their order, so every
    event at or after [c] is still there unchanged; the count returned for
    the kind is the number of events deleted; the caches are not touched. *)
Theorem purge_removes_exactly_the_old f daysToKeep now st c :
  writeUp f = true ->
  setDateBack now (retentionDays cfg daysToKeep) = ValidDate c ->
  exists res st',
    cleanOldEvents setDateBack cfg f daysToKeep now st = Some (res, st')
    /\ forall k,
        (forall e ms, In e (eventsOf k st') ->
                      doc_timestamp e = ValidDate ms -> c <= ms)
        /\ eventsOf k st'
           = List.filter (fun e => negb (date_lt (doc_timestamp e) c))
               (eventsOf k st)
        /\ (forall e ms, In e (eventsOf k st) ->
                         doc_timestamp e = ValidDate ms -> c <= ms ->
                         In e (eventsOf k st'))
        /\ cleanedOf k res
           = Z.of_nat (length (eventsOf k st)) - Z.of_nat (length (eventsOf k st'))
        /\ cacheOf k st' = cacheOf k st.
Proof.
  intros Hup Hcut. unfold cleanOldEvents, deleteOldWith.
  rewrite Hup, Hcut, !deleteOld_valid.
  eexists _, _. split; [reflexivity|].
  intros k.
  assert (eventsOf k
            (setEvents Click
               (List.filter (fun e => negb (date_lt (doc_timestamp e) c))
                  (click_events st))
               (setEvents Impression
                  (List.filter (fun e => negb (date_lt (doc_timestamp e) c))
                     (impression_events st)) st))
          = List.filter (fun e => negb (date_lt (doc_timestamp e) c))
              (eventsOf k st)) as Hev by (by destruct k).
  rewrite Hev. split; [|split; [done|split; [|split]]].
  - intros e ms [_ Hkeep]%filter_In Hts. rewrite Hts in Hkeep. simpl in Hkeep.
    apply negb_true_iff, Z.ltb_ge in Hkeep. done.
  - intros e ms Hin Hts Hle. apply filter_In. split; [done|].
    rewrite Hts. simpl. apply negb_true_iff, Z.ltb_ge. done.
  - by destruct k.
  - by destruct k.
Qed.

End RetentionFacts.

(** ** Trending *)

Lemma insertRow_Permutation r rows : Permutation (r :: rows) (insertRow r rows).
Proof.
  induction rows as [|x rows IH]; simpl; [done|].
  destruct (bool_decide _); [done|].
  rewrite perm_swap. by constructor.
Qed.

Lemma sortStage_Permutation rows : Permutation rows (sortStage rows).
Proof.
  induction rows as [|r rows IH]; simpl; [done|].
  rewrite <- insertRow_Permutation. by constructor.
Qed.

Lemma insertRow_sorted r rows :
  StronglySorted byImpressionsDesc rows ->
  StronglySorted byImpressionsDesc (insertRow r rows).
Proof.
  induction rows as [|x rows IH]; simpl; intros Hs.
  - repeat constructor.
  - apply StronglySorted_cons in Hs as [Hx Hs].
    destruct (bool_decide _) eqn:Hlt.
    + apply bool_decide_eq_true in Hlt.
      constructor; [by constructor|].
      constructor; [unfold byImpressionsDesc; lia|].
      eapply Forall_impl; [exact Hx|]. unfold byImpressionsDesc. intros; lia.
    + apply bool_decide_eq_false in Hlt.
      constructor; [by apply IH|].
      rewrite <- insertRow_Permutation.
      constructor; [unfold byImpressionsDesc; lia|done].
Qed.

Lemma sortStage_sorted rows : StronglySorted byImpressionsDesc (sortStage rows).
Proof.
  induction rows as [|r rows IH]; simpl; [constructor|].
  by apply insertRow_sorted.
Qed.

(** The run of the pipeline modelled by [getPopularItemsAggregation] is one
    of the answers the pipeline allows, for every positive limit. *)
Lemma getPopularItemsAggregation_answer limit filters st :
  0 < limit ->
  exists out,
    getPopularItemsAggregation limit filters st = Some out
    /\ popularItemsAnswer limit filters st out.
Proof.
  intros Hpos. unfold getPopularItemsAggregation.
  rewrite bool_decide_eq_true_2 by done.
  eexists. split; [done|]. split; [done|].
  eexists. split; [apply sortStage_Permutation|].
  split; [apply sortStage_sorted|done].
Qed.

Lemma groupStage_ids docs :
  map row_itemId (groupStage docs) = remove_dups (map doc_item_id docs).
Proof.
  unfold groupStage. rewrite map_map. simpl. apply map_id.
Qed.

Lemma elem_of_groupStage docs r :
  r ∈ groupStage docs <->
  r = groupRow docs (row_itemId r) /\ row_itemId r ∈ map doc_item_id docs.
Proof.
  unfold groupStage. rewrite list_elem_of_In, in_map_iff. split.
  - intros (item & <- & Hin). split; [done|].
    apply list_elem_of_In in Hin.
    by apply (proj1 (elem_of_remove_dups _ _)) in Hin.
  - intros [Hr Hin]. exists (row_itemId r). split; [done|].
    apply list_elem_of_In. by apply (proj2 (elem_of_remove_dups _ _)).
Qed.

(** C7 (as the code has it). Every answer of the trending pipeline is
    sorted by impression count, highest first, and cut to the limit: it
    holds [min limit (number of items)] rows, one per item and each with the
    counts of its item, and an item left out has at most as many impressions
    as every row returned.  The order among equal counts is not part of the
    guarantee. *)
Theorem trending_sorted_by_count_and_cut limit startDate endDate st out :
  trendingAnswer limit startDate endDate st out ->
  let docs := matchStage (rangeFilters startDate endDate) (impression_events st) in
  StronglySorted byImpressionsDesc out
  /\ length out
     = Nat.min (Z.to_nat (default 10 limit))
         (length (remove_dups (map doc_item_id docs)))
  /\ NoDup (map row_itemId out)
  /\ (forall r, r ∈ out ->
        r = groupRow docs (row_itemId r) /\ row_itemId r ∈ map doc_item_id docs)
  /\ (forall item, item ∈ map doc_item_id docs ->
        groupRow docs item ∈ out
        \/ forall r, r ∈ out ->
             row_impressions (groupRow docs item) <= row_impressions r).
Proof.
  intros (Hpos & sorted & Hperm & Hsorted & ->) docs. fold docs in Hperm.
  set (n := Z.to_nat (default 10 limit)).
  pose proof (take_drop n sorted) as Hsplit.
  split; [|split; [|split; [|split]]].
  - rewrite <- Hsplit in Hsorted. by apply StronglySorted_app_1_l in Hsorted.
  - rewrite length_take. rewrite <- (Permutation_length Hperm).
    unfold groupStage. by rewrite length_map.
  - apply (sublist_NoDup _ (map row_itemId sorted)).
    + rewrite <- (Permutation_map row_itemId Hperm), groupStage_ids.
      apply NoDup_remove_dups.
    + rewrite <- (firstn_map row_itemId). apply sublist_take.
  - intros r Hr. apply elem_of_groupStage. rewrite Hperm.
    eapply elem_of_sublist; [exact Hr|apply sublist_take].
  - intros item Hitem.
    assert (groupRow docs item ∈ sorted) as Hin.
    { rewrite <- Hperm. by apply elem_of_groupStage. }
    rewrite <- Hsplit in Hin. apply elem_of_app in Hin as [Hin|Hin]; [by left|].
    right. intros r Hr.
    rewrite <- Hsplit in Hsorted.
    apply (StronglySorted_app_1_elem_of _ _ _ _ _ Hsorted Hr Hin).
Qed.

(** ** User statistics *)

(** Whatever the stored clicks are, [clickedItems] repeats [viewedItems]. *)
Lemma getUserAnalytics_clicked_is_viewed userId startDate endDate st ua :
  getUserAnalytics userId startDate endDate st = Some ua ->
  ua_clickedItems ua = ua_viewedItems ua.
Proof.
  unfold getUserAnalytics, getUserAnalyticsReads.
  destruct (countByFilter _ _); [|done].
  destruct (countByFilter _ _); [|done].
  destruct (getDistinctItemsByFilter _ _); [|done].
  by intros [= <-].
Qed.

(** ** Cache keys *)

Lemma append_assoc_string (a b c : string) :
  (a +:+ b) +:+ c = a +:+ (b +:+ c).
Proof.
  induction a as [|x a IH]; [done|].
  change (String x ((a +:+ b) +:+ c) = String x (a +:+ (b +:+ c))).
  by rewrite IH.
Qed.

Lemma length_append_string (a b : string) :
  String.length (a +:+ b) = (String.length a + String.length b)%nat.
Proof.
  induction a as [|x a IH]; [done|].
  change (S (String.length (a +:+ b))
          = S (String.length a + String.length b)).
  by rewrite IH.
Qed.

(** A session id that ends where an item id begins: moving the part
    between two separators from one side to the other keeps the key. *)
Lemma cacheKey_shift s x y :
  cacheKey (s +:+ "_" +:+ x) y = cacheKey s (x +:+ "_" +:+ y).
Proof. unfold cacheKey. by rewrite !append_assoc_string. Qed.

(** Without an underscore in the session ids the key determines the
    pair. *)
Lemma cacheKey_inj s1 i1 s2 i2 :
  hasUnderscore s1 = false -> hasUnderscore s2 = false ->
  cacheKey s1 i1 = cacheKey s2 i2 ->
  s1 = s2 /\ i1 = i2.
Proof.
  unfold cacheKey. revert s2.
  induction s1 as [|c s1 IH]; intros [|d s2] H1 H2 Heq;
    cbv [String.append] in Heq; fold String.append in Heq; simpl in H1, H2.
  - by injection Heq as ->.
  - injection Heq as <- _. done.
  - injection Heq as -> _. done.
  - apply orb_false_iff in H1 as [_ H1]. apply orb_false_iff in H2 as [_ H2].
    injection Heq as -> Heq. destruct (IH s2 H1 H2 Heq) as [-> ->]. done.
Qed.

(** X2. Two (session, item) pairs whose session ids hold no underscore have
    the same cache key only when they are the same pair, whatever the item
    ids are; so among such sessions the cooldown of one pair never hits
    another pair. *)
Theorem cacheKey_injective_without_underscore s1 i1 s2 i2 :
  hasUnderscore s1 = false -> hasUnderscore s2 = false ->
  (cacheKey s1 i1 = cacheKey s2 i2 <-> s1 = s2 /\ i1 = i2).
Proof.
  intros H1 H2. split; [by apply cacheKey_inj|]. by intros [-> ->].
Qed.

Section IngestionFrame.

Variable newDate : string -> JsDate.
Variable cfg : AnalyticsConfig.

(** X1. The cache key joins session id and item id with an underscore, so
    the pairs (s_x, y) and (s, x_y) share one key: once a submission of the
    first pair has been accepted, a submission of the second pair inside the
    cooldown is answered [RateLimited] and changes nothing, although it is a
    submission of another session. *)
Theorem colliding_pair_is_rate_limited k now clock f dto st doc st1 s x y :
  session_id dto = s +:+ "_" +:+ x ->
  item_id dto = y ->
  trackEvent newDate cfg k now clock f dto st = (Accepted doc, st1) ->
  forall now' clock' f' dto',
    session_id dto' = s ->
    item_id dto' = x +:+ "_" +:+ y ->
    now' - now < cooldownOf k cfg ->
    session_id dto' <> session_id dto
    /\ trackEvent newDate cfg k now' clock' f' dto' st1 = (RateLimited, st1).
Proof.
  intros Hs Hi Hacc now' clock' f' dto' Hs' Hi' Hlt. split.
  - rewrite Hs, Hs'. intros Heq.
    apply (f_equal String.length) in Heq.
    rewrite !length_append_string in Heq. simpl in Heq. lia.
  - apply (trackEvent_too_recent newDate cfg k now' clock' f' dto' st1 now);
      [|done].
    unfold dtoKey. rewrite Hs', Hi', <- cacheKey_shift, <- Hs, <- Hi.
    by eapply trackEvent_accepted_cache.
Qed.

(** *** The two kinds *)

Lemma setCache_same k st : setCache k (cacheOf k st) st = st.
Proof. by destruct k, st. Qed.

Lemma State_ext (s t : State) :
  (forall k, cacheOf k s = cacheOf k t) ->
  (forall k, eventsOf k s = eventsOf k t) ->
  s = t.
Proof.
  intros Hc He. destruct s, t.
  pose proof (Hc Impression). pose proof (Hc Click).
  pose proof (He Impression). pose proof (He Click).
  simpl in *. by subst.
Qed.

Lemma cacheOf_setCache_other k k' c st :
  k <> k' -> cacheOf k' (setCache k c st) = cacheOf k' st.
Proof. by destruct k, k'. Qed.

Lemma eventsOf_setEvents_other k k' es st :
  k <> k' -> eventsOf k' (setEvents k es st) = eventsOf k' st.
Proof. by destruct k, k'. Qed.

(** A call of one kind leaves the cache and the collection of the other
    kind as they are. *)
Lemma trackEvent_other_kind k k' now clock f dto st :
  k <> k' ->
  cacheOf k' (trackEvent newDate cfg k now clock f dto st).2 = cacheOf k' st
  /\ eventsOf k' (trackEvent newDate cfg k now clock f dto st).2 = eventsOf k' st.
Proof.
  intros Hk.
  destruct (trackEvent_run newDate cfg k now clock f dto st); try done.
  - by rewrite cacheOf_setCache_other, eventsOf_setCache.
  - by rewrite cacheOf_setEvents, cacheOf_setCache_other,
      eventsOf_setEvents_other, eventsOf_setCache.
Qed.

(** A call reads only the cache and the collection of its kind. *)
Lemma trackEvent_local k now clock f dto st st' :
  cacheOf k st = cacheOf k st' ->
  eventsOf k st = eventsOf k st' ->
  (trackEvent newDate cfg k now clock f dto st).1
  = (trackEvent newDate cfg k now clock f dto st').1
  /\ cacheOf k (trackEvent newDate cfg k now clock f dto st).2
     = cacheOf k (trackEvent newDate cfg k now clock f dto st').2
  /\ eventsOf k (trackEvent newDate cfg k now clock f dto st).2
     = eventsOf k (trackEvent newDate cfg k now clock f dto st').2.
Proof.
  intros Hc He. unfold trackEvent. rewrite <- Hc, <- He.
  destruct (tooRecent _ _ _ _); [done|].
  destruct (findBySessionAndItem _ _ _ _ _) as [[e|]|]; [done| |done].
  rewrite !eventsOf_setCache, <- He.
  destruct (createEvent _ _ _ _) as [[doc coll]|]; simpl.
  - by rewrite !cacheOf_setEvents, !cacheOf_setCache, !eventsOf_setEvents.
  - by rewrite !cacheOf_setCache, !eventsOf_setCache.
Qed.

(** X3. Impressions and clicks are tracked apart: a [trackClick] call
    answers the same whether or not a [trackImpression] call ran before it,
    and the other way round, and the two calls leave the same state in
    either order. *)
Theorem impression_and_click_calls_commute
    now1 clock1 f1 dto1 now2 clock2 f2 dto2 st :
  let a := trackEvent newDate cfg Impression now1 clock1 f1 dto1 st in
  let b := trackEvent newDate cfg Click now2 clock2 f2 dto2 st in
  (trackEvent newDate cfg Click now2 clock2 f2 dto2 a.2).1 = b.1
  /\ (trackEvent newDate cfg Impression now1 clock1 f1 dto1 b.2).1 = a.1
  /\ (trackEvent newDate cfg Click now2 clock2 f2 dto2 a.2).2
     = (trackEvent newDate cfg Impression now1 clock1 f1 dto1 b.2).2.
Proof.
  intros a b.
  destruct (trackEvent_other_kind Impression Click now1 clock1 f1 dto1 st)
    as [Ha1 Ha2]; [done|].
  destruct (trackEvent_other_kind Click Impression now2 clock2 f2 dto2 st)
    as [Hb1 Hb2]; [done|].
  destruct (trackEvent_local Click now2 clock2 f2 dto2 a.2 st Ha1 Ha2)
    as (Hc1 & Hc2 & Hc3).
  destruct (trackEvent_local Impression now1 clock1 f1 dto1 b.2 st Hb1 Hb2)
    as (Hd1 & Hd2 & Hd3).
  split; [done|]. split; [done|].
  apply State_ext; intros [|].
  - rewrite Hd2.
    by destruct (trackEvent_other_kind Click Impression now2 clock2 f2 dto2 a.2).
  - rewrite Hc2.
    by destruct (trackEvent_other_kind Impression Click now1 clock1 f1 dto1 b.2)
      as [-> _].
  - rewrite Hd3.
    by destruct (trackEvent_other_kind Click Impression now2 clock2 f2 dto2 a.2)
      as [_ ->].
  - rewrite Hc3.
    by destruct (trackEvent_other_kind Impression Click now1 clock1 f1 dto1 b.2)
      as [_ ->].
Qed.

(** *** What one call does *)

Lemma find_app_last {A} (p : A -> bool) (l : list A) (x : A) :
  p x = true -> exists y, List.find p (l ++ [x]) = Some y.
Proof.
  intros Hp. destruct (List.find p (l ++ [x])) as [y|] eqn:E; [by exists y|].
  pose proof (List.find_none p _ E x) as Hn.
  rewrite Hn in Hp; [done|]. apply in_or_app. right. by left.
Qed.

(** What an accepted call appends, and from which event. *)
Lemma single_call_frame k now clock f dto st :
  let r := trackEvent newDate cfg k now clock f dto st in
  eventsOf k r.2
  = eventsOf k st ++ match r.1 with Accepted doc => [doc] | _ => [] end
  /\ (forall doc, r.1 = Accepted doc ->
        doc_session_id doc = session_id dto /\ doc_item_id doc = item_id dto).
Proof.
  intros r. subst r.
  destruct (trackEvent_run newDate cfg k now clock f dto st).
  1-3: by rewrite app_nil_r.
  - by rewrite eventsOf_setCache, app_nil_r.
  - rewrite eventsOf_setEvents. split; [done|].
    intros doc [= <-]. by destruct k.
Qed.

(** X4. The effect of one tracking call: the collection of its kind grows
    by exactly the returned document when the call is accepted and is
    unchanged otherwise; no cache entry other than the one of the call's key
    changes; and an accepted document is the submitted event with non-empty
    session and item ids and a valid timestamp, whose key is entered in the
    cache under the arrival time. *)
Theorem single_call_effects k now clock f dto st :
  let r := trackEvent newDate cfg k now clock f dto st in
  eventsOf k r.2
  = eventsOf k st ++ match r.1 with Accepted doc => [doc] | _ => [] end
  /\ (forall key, key <> dtoKey dto ->
        cacheOf k r.2 !! key = cacheOf k st !! key)
  /\ (forall doc, r.1 = Accepted doc ->
        doc = castDoc k (eventData newDate dto clock)
        /\ doc_session_id doc = session_id dto
        /\ doc_item_id doc = item_id dto
        /\ session_id dto <> EmptyString
        /\ item_id dto <> EmptyString
        /\ hasValidTimestamp doc
        /\ cacheOf k r.2 !! dtoKey dto = Some now).
Proof.
  intros r. subst r.
  destruct (trackEvent_run newDate cfg k now clock f dto st)
    as [H1|H1 H2|e H1 H2 H3|H1 H2 H3 H4|H1 H2 H3 H4].
  1-3: by rewrite app_nil_r.
  - rewrite eventsOf_setCache, cacheOf_setCache, app_nil_r.
    split; [done|]. split; [|done].
    intros key Hkey. by rewrite lookup_insert_ne.
  - rewrite eventsOf_setEvents, cacheOf_setEvents, cacheOf_setCache.
    split; [done|]. split.
    { intros key Hkey. by rewrite lookup_insert_ne. }
    intros doc [= <-].
    apply andb_prop in H4 as [_ Hv].
    pose proof (validateDoc_timestamp _ Hv) as Hts.
    unfold validateDoc in Hv.
    apply andb_prop in Hv as [Hv _]. apply andb_prop in Hv as [Hi Hs].
    apply negb_true_iff, bool_decide_eq_false in Hi, Hs.
    split; [done|].
    split; [by destruct k|]. split; [by destruct k|].
    split; [by destruct k|]. split; [by destruct k|].
    split; [done|]. by rewrite lookup_insert_eq.
Qed.

(** X5. The second line of defence.  After an accepted submission, a later
    submission of the same pair that has outlived the cooldown but arrives
    while the stored timestamp of the accepted event is still inside the
    rate-limit window is answered [Duplicate], and changes nothing. *)
Theorem retry_inside_window_is_duplicate k now clock f dto st doc st1 stamp :
  trackEvent newDate cfg k now clock f dto st = (Accepted doc, st1) ->
  doc_timestamp doc = ValidDate stamp ->
  forall now' clock' f' dto',
    session_id dto' = session_id dto ->
    item_id dto' = item_id dto ->
    readUp f' = true ->
    cooldownOf k cfg <= now' - now ->
    now' - RATE_LIMIT_WINDOW cfg <= stamp ->
    trackEvent newDate cfg k now' clock' f' dto' st1 = (Duplicate, st1).
Proof.
  intros Hacc Hstamp now' clock' f' dto' Hs Hi Hr Hcool Hwin.
  pose proof (trackEvent_accepted_cache _ _ _ _ _ _ _ _ _ _ Hacc) as Hcache.
  pose proof (single_call_frame k now clock f dto st) as Hfr.
  rewrite Hacc in Hfr. simpl in Hfr. destruct Hfr as (Hev & Hdoc).
  destruct (Hdoc doc eq_refl) as (Hds & Hdi).
  unfold trackEvent, findBySessionAndItem.
  assert (dtoKey dto' = dtoKey dto) as Hkey by (unfold dtoKey; by rewrite Hs, Hi).
  rewrite Hkey, (tooRecent_lookup _ _ _ _ _ Hcache).
  rewrite bool_decide_eq_false_2 by lia.
  rewrite Hr, Hev, Hs, Hi.
  destruct (find_app_last
              (matchesPair (session_id dto) (item_id dto)
                 (now' - RATE_LIMIT_WINDOW cfg)) (eventsOf k st) doc) as [y ->];
    [|done].
  unfold matchesPair. rewrite Hds, Hdi, Hstamp. simpl.
  rewrite !bool_decide_eq_true_2 by done. simpl. lia.
Qed.

(** *** Batches and single calls *)

Lemma find_filter_nil {A} (p : A -> bool) (l : list A) :
  List.find p l = None <-> List.filter p l = [].
Proof.
  induction l as [|x l IH]; simpl; [done|].
  destruct (p x); [done|exact IH].
Qed.

(** X6. A batch of one event is the single call: with the database
    answering reads, it accepts, skips or fails exactly where the single
    call accepts, rejects or fails, returns the same document and leaves the
    same state. *)
Theorem batch_of_one_is_the_single_call k now clock f dto st :
  readUp f = true ->
  trackEventsBatch newDate cfg k now clock f [dto] st
  = (batchOutcomeOf (trackEvent newDate cfg k now clock f dto st).1,
     (trackEvent newDate cfg k now clock f dto st).2).
Proof.
  intros Hr.
  unfold trackEventsBatch, trackEvent, findExisting, findBySessionAndItem.
  rewrite Hr. simpl.
  destruct (tooRecent _ _ _ _) eqn:Htoo; simpl.
  { by rewrite setCache_same. }
  set (p := matchesPair (session_id dto) (item_id dto)
              (now - RATE_LIMIT_WINDOW cfg)).
  assert (List.filter (fun e => p e || false) (eventsOf k st)
          = List.filter p (eventsOf k st)) as ->.
  { apply List.filter_ext. intros e. by rewrite orb_false_r. }
  destruct (List.find p (eventsOf k st)) as [e|] eqn:Hfind.
  - apply List.find_some in Hfind as [Hin Hp].
    assert (In e (List.filter p (eventsOf k st))) as Hin'
      by (apply List.filter_In; done).
    rewrite bool_decide_eq_true_2.
    + simpl. by rewrite setCache_same.
    + apply elem_of_list_to_set, list_elem_of_fmap.
      exists e. split; [|by apply list_elem_of_In].
      unfold p, matchesPair in Hp.
      apply andb_prop in Hp as [Hp _]. apply andb_prop in Hp as [Hs Hi].
      apply bool_decide_eq_true in Hs, Hi. unfold dtoKey. by rewrite Hs, Hi.
  - apply find_filter_nil in Hfind. rewrite Hfind. simpl.
    rewrite bool_decide_eq_false_2 by set_solver. simpl.
    unfold createEventsBatch, createEvent. simpl.
    rewrite andb_true_r.
    by destruct (writeUp f && validateDoc _).
Qed.

(** The loop only ever enters [now]: an entry at [now] stays. *)
Lemma batchLoop_cache_stays k now clock es dtos : forall cache key,
  cache !! key = Some now ->
  (batchLoop newDate cfg k now clock es dtos cache).2 !! key = Some now.
Proof.
  induction dtos as [|d rest IH]; intros cache key Hkey; simpl; [done|].
  destruct (tooRecent _ _ _ _); [by apply IH|].
  destruct (bool_decide _); [by apply IH|].
  destruct (batchLoop _ _ _ _ _ _ _ _) as [valid cache'] eqn:E. simpl.
  change cache' with (valid, cache').2. rewrite <- E. apply IH.
  destruct (decide (dtoKey d = key)) as [->|Hne].
  - by rewrite lookup_insert_eq.
  - by rewrite lookup_insert_ne.
Qed.

(** The key of every event the loop keeps is in the cache at [now] when the
    loop ends. *)
Lemma batchLoop_cache_kept k now clock es dtos : forall cache (i : nat) d,
  dtos !! i = Some d ->
  batchDecisions cfg k now es dtos cache !! i = Some true ->
  (batchLoop newDate cfg k now clock es dtos cache).2 !! dtoKey d = Some now.
Proof.
  induction dtos as [|d0 rest IH]; intros cache i d Hd Hdec; [done|].
  simpl in Hdec |- *.
  destruct (tooRecent _ _ _ _).
  { destruct i; [done|]. by apply (IH _ i). }
  destruct (bool_decide _).
  { destruct i; [done|]. by apply (IH _ i). }
  destruct (batchLoop _ _ _ _ _ _ _ _) as [valid cache'] eqn:E. simpl.
  change cache' with (valid, cache').2. rewrite <- E.
  destruct i as [|i]; simpl in Hd, Hdec.
  - injection Hd as <-. apply batchLoop_cache_stays. by rewrite lookup_insert_eq.
  - by apply (IH _ i).
Qed.

(** The cache a batch call leaves is the one its loop ends with, whether or
    not the insert goes through. *)
Lemma trackEventsBatch_cache k now clock f dtos st existing :
  findExisting f (eventsOf k st)
    (map (fun d => (session_id d, item_id d)) dtos)
    (now - RATE_LIMIT_WINDOW cfg) = Some existing ->
  cacheOf k (trackEventsBatch newDate cfg k now clock f dtos st).2
  = (batchLoop newDate cfg k now clock
       (list_to_set
          (map (fun e => cacheKey (doc_session_id e) (doc_item_id e)) existing))
       dtos (cacheOf k st)).2.
Proof.
  intros Hex. unfold trackEventsBatch.
  destruct dtos as [|d rest]; [done|].
  rewrite Hex.
  destruct (batchLoop _ _ _ _ _ _ _ _) as [valid cache'] eqn:E. simpl.
  destruct valid as [|v valid]; simpl; [by rewrite cacheOf_setCache|].
  destruct (createEventsBatch _ _ _ _) as [[docs coll]|]; simpl.
  - by rewrite cacheOf_setEvents, cacheOf_setCache.
  - by rewrite cacheOf_setCache.
Qed.

(** The key of every event a batch call keeps is in the cache at [now]
    when the call ends. *)
Lemma trackEventsBatch_kept_cache k now clock f dtos st (i : nat) d :
  dtos !! i = Some d ->
  batchAccepted cfg k now f dtos st !! i = Some true ->
  cacheOf k (trackEventsBatch newDate cfg k now clock f dtos st).2 !! dtoKey d
  = Some now.
Proof.
  intros Hd Hacc. unfold batchAccepted in Hacc.
  destruct (findExisting _ _ _ _) as [existing|] eqn:Hex.
  - rewrite (trackEventsBatch_cache _ _ _ _ _ _ _ Hex).
    by apply (batchLoop_cache_kept _ _ _ _ _ _ i).
  - apply lookup_replicate in Hacc as [? _]. done.
Qed.

(** X7. Every event a batch call keeps has its key entered in the cache
    under the arrival time of the batch, also when the insert of the batch
    then fails; a single submission of the same pair that arrives inside the
    cooldown after the batch is answered [RateLimited]. *)
Theorem batch_kept_keys_are_rate_limited k now clock f dtos st (i : nat) d :
  dtos !! i = Some d ->
  batchAccepted cfg k now f dtos st !! i = Some true ->
  let st1 := (trackEventsBatch newDate cfg k now clock f dtos st).2 in
  cacheOf k st1 !! dtoKey d = Some now
  /\ forall now' clock' f' dto',
       session_id dto' = session_id d ->
       item_id dto' = item_id d ->
       now' - now < cooldownOf k cfg ->
       trackEvent newDate cfg k now' clock' f' dto' st1 = (RateLimited, st1).
Proof.
  intros Hd Hacc st1.
  pose proof (trackEventsBatch_kept_cache k now clock f dtos st i d Hd Hacc)
    as Hcache.
  split; [done|].
  intros now' clock' f' dto' Hs Hi Hlt.
  apply (trackEvent_too_recent newDate cfg k now' clock' f' dto' st1 now);
    [|done].
  unfold dtoKey. rewrite Hs, Hi. exact Hcache.
Qed.

Lemma batchLoop_cache_lookup k now clock es dtos : forall cache key,
  (batchLoop newDate cfg k now clock es dtos cache).2 !! key = Some now
  \/ (batchLoop newDate cfg k now clock es dtos cache).2 !! key = cache !! key.
Proof.
  induction dtos as [|d rest IH]; intros cache key; simpl; [by right|].
  destruct (tooRecent _ _ _ _); [by apply IH|].
  destruct (bool_decide _); [by apply IH|].
  destruct (batchLoop _ _ _ _ _ _ _ _) as [valid cache'] eqn:E. simpl.
  change cache' with (valid, cache').2. rewrite <- E.
  destruct (IH (<[dtoKey d := now]> cache) key) as [H|H]; [by left|].
  rewrite H. destruct (decide (dtoKey d = key)) as [->|Hne].
  - left. by rewrite lookup_insert_eq.
  - right. by rewrite lookup_insert_ne.
Qed.

(** An event the loop keeps was not too recent in the cache the loop
    started with, and its key is not in the existing set. *)
Lemma batchDecisions_kept k now es dtos : forall cache (i : nat) d,
  dtos !! i = Some d ->
  batchDecisions cfg k now es dtos cache !! i = Some true ->
  tooRecent (cooldownOf k cfg) now (dtoKey d) cache = false
  /\ dtoKey d ∉ es.
Proof.
  induction dtos as [|d0 rest IH]; intros cache i d Hd Hdec; [done|].
  simpl in Hdec.
  destruct (tooRecent _ _ _ cache) eqn:Htoo.
  { destruct i; [done|]. by apply (IH _ i). }
  destruct (bool_decide _) eqn:Hes.
  { destruct i; [done|]. by apply (IH _ i). }
  destruct i as [|i]; simpl in Hd, Hdec.
  - injection Hd as <-. split; [done|]. by apply bool_decide_eq_false in Hes.
  - destruct (IH _ i d Hd Hdec) as [Hrec Hnot]. split; [|done].
    destruct (decide (dtoKey d0 = dtoKey d)) as [Heq|Hne].
    + by rewrite <- Heq.
    + unfold tooRecent in *. by rewrite lookup_insert_ne in Hrec.
Qed.

(** What held for an event a batch keeps, in the state the call found. *)
Lemma batchAccepted_kept k now f dtos st (i : nat) d :
  dtos !! i = Some d ->
  batchAccepted cfg k now f dtos st !! i = Some true ->
  readUp f = true
  /\ tooRecent (cooldownOf k cfg) now (dtoKey d) (cacheOf k st) = false
  /\ List.find (matchesPair (session_id d) (item_id d)
                  (now - RATE_LIMIT_WINDOW cfg)) (eventsOf k st) = None.
Proof.
  intros Hd Hacc. unfold batchAccepted, findExisting in Hacc.
  destruct (readUp f) eqn:Hr;
    [|by apply lookup_replicate in Hacc as [? _]].
  destruct (batchDecisions_kept _ _ _ _ _ _ _ Hd Hacc) as [Htoo Hnot].
  split; [done|]. split; [done|].
  destruct (List.find _ _) as [e|] eqn:Hfind; [|done].
  apply List.find_some in Hfind as [Hin Hp]. exfalso. apply Hnot.
  apply elem_of_list_to_set, list_elem_of_fmap. exists e. split.
  - unfold matchesPair in Hp.
    apply andb_prop in Hp as [Hp _]. apply andb_prop in Hp as [Hs Hi].
    apply bool_decide_eq_true in Hs, Hi. unfold dtoKey. by rewrite Hs, Hi.
  - apply list_elem_of_In, List.filter_In. split; [done|].
    apply existsb_exists. exists (session_id d, item_id d). split; [|done].
    apply in_map_iff. exists d. split; [done|].
    apply list_elem_of_In. by eapply list_elem_of_lookup_2.
Qed.

(** A call that is not rejected by the service passed both checks. *)
Lemma trackEvent_not_rejected k now clock f dto st :
  readUp f = true ->
  ~ isRejection (trackEvent newDate cfg k now clock f dto st).1 <->
  tooRecent (cooldownOf k cfg) now (dtoKey dto) (cacheOf k st) = false
  /\ List.find (matchesPair (session_id dto) (item_id dto)
                  (now - RATE_LIMIT_WINDOW cfg)) (eventsOf k st) = None.
Proof.
  intros Hr. unfold trackEvent, findBySessionAndItem. rewrite Hr.
  destruct (tooRecent _ _ _ _); simpl.
  { split; [intros H; exfalso; apply H; by left|by intros [? _]]. }
  destruct (List.find _ _) as [e|]; simpl.
  { split; [intros H; exfalso; apply H; by right|by intros [_ ?]]. }
  split; [done|]. intros _.
  destruct (createEvent _ _ _ _) as [[doc coll]|]; simpl;
    intros [Hrej|Hrej]; discriminate.
Qed.

(** X8. A batch keeps no event that the single call would reject: for every
    kept event the reads were answered, its key was not inside the cooldown
    in the cache the call found, and the collection the call found holds no
    event of its pair inside the rate-limit window; so the same event
    submitted alone, at the same instant to the same state, is neither
    [RateLimited] nor [Duplicate]. *)
Theorem batch_keeps_no_event_a_single_call_rejects
    k now f dtos st (i : nat) d :
  dtos !! i = Some d ->
  batchAccepted cfg k now f dtos st !! i = Some true ->
  readUp f = true
  /\ tooRecent (cooldownOf k cfg) now (dtoKey d) (cacheOf k st) = false
  /\ List.find (matchesPair (session_id d) (item_id d)
                  (now - RATE_LIMIT_WINDOW cfg)) (eventsOf k st) = None
  /\ forall clock,
       ~ isRejection (trackEvent newDate cfg k now clock f d st).1.
Proof.
  intros Hd Hacc.
  destruct (batchAccepted_kept _ _ _ _ _ _ _ Hd Hacc) as (Hr & Htoo & Hfind).
  split; [done|]. split; [done|]. split; [done|].
  intros clock. by apply trackEvent_not_rejected.
Qed.

(** The first event of its key in a batch is kept when its key is neither
    too recent in the cache nor in the existing set. *)
Lemma batchDecisions_first k now es dtos : forall cache (i : nat) d,
  dtos !! i = Some d ->
  (forall (j : nat) dj, (j < i)%nat -> dtos !! j = Some dj ->
                        dtoKey dj <> dtoKey d) ->
  tooRecent (cooldownOf k cfg) now (dtoKey d) cache = false ->
  dtoKey d ∉ es ->
  batchDecisions cfg k now es dtos cache !! i = Some true.
Proof.
  induction dtos as [|d0 rest IH]; intros cache i d Hd Hfirst Htoo Hes; [done|].
  destruct i as [|i]; simpl in Hd.
  - injection Hd as ->. simpl. rewrite Htoo.
    by rewrite bool_decide_eq_false_2.
  - assert (dtoKey d0 <> dtoKey d) as Hne
      by (apply (Hfirst 0%nat); [lia|done]).
    assert (forall (j : nat) dj, (j < i)%nat -> rest !! j = Some dj ->
                                 dtoKey dj <> dtoKey d) as Hfirst'
      by (intros j dj Hj Hdj; apply (Hfirst (S j)); [lia|done]).
    simpl. destruct (tooRecent _ _ (dtoKey d0) cache); [by apply (IH _ i d)|].
    destruct (bool_decide _); [by apply (IH _ i d)|].
    apply (IH _ i d); try done.
    unfold tooRecent in *. by rewrite lookup_insert_ne.
Qed.

(** X20. Which events a batch keeps.  With a positive cooldown, reads that
    are answered and session ids without underscore, the event at a position
    of the batch is kept exactly when no earlier event of the batch has the
    same session and item, and the single call would not reject it in the
    state the batch found. *)
Theorem batch_keeps_the_first_acceptable_of_each_pair
    k now clock f dtos st (i : nat) d :
  0 < cooldownOf k cfg ->
  readUp f = true ->
  Forall (fun x => hasUnderscore (session_id x) = false) dtos ->
  dtos !! i = Some d ->
  batchAccepted cfg k now f dtos st !! i = Some true
  <-> (forall (j : nat) dj, (j < i)%nat -> dtos !! j = Some dj ->
         ~ (session_id dj = session_id d /\ item_id dj = item_id d))
      /\ ~ isRejection (trackEvent newDate cfg k now clock f d st).1.
Proof.
  intros Hpos Hr Hus Hd. rewrite Forall_forall in Hus.
  assert (hasUnderscore (session_id d) = false) as Hud
    by (apply Hus; by eapply list_elem_of_lookup_2).
  rewrite (trackEvent_not_rejected _ _ _ _ _ _ Hr). split.
  - intros Hacc.
    destruct (batchAccepted_kept _ _ _ _ _ _ _ Hd Hacc) as (_ & Htoo & Hfind).
    split; [|done].
    intros j dj Hj Hdj [Hs Hi].
    assert (batchAccepted cfg k now f dtos st !! i = Some false) as Hno.
    { unfold batchAccepted. destruct (findExisting _ _ _ _).
      - eapply batchDecisions_later_same_key; eauto.
        unfold dtoKey. by rewrite Hs, Hi.
      - apply lookup_replicate_2. by eapply lookup_lt_Some. }
    by rewrite Hacc in Hno.
  - intros (Hfirst & Htoo & Hfind).
    unfold batchAccepted, findExisting. rewrite Hr.
    apply (batchDecisions_first _ _ _ _ _ i d); try done.
    + intros j dj Hj Hdj Hkey.
      apply (Hfirst j dj Hj Hdj). apply cacheKey_inj; [|done|done].
      apply Hus. by eapply list_elem_of_lookup_2.
    + intros Hin.
      apply elem_of_list_to_set, list_elem_of_fmap in Hin as (e & Hkey & He).
      apply list_elem_of_In, List.filter_In in He as [He Hex].
      apply existsb_exists in Hex as ([ps pi] & Hp & Hm).
      apply in_map_iff in Hp as (dj & [= <- <-] & Hdj).
      simpl in Hm. unfold matchesPair in Hm.
      apply andb_prop in Hm as [Hm Hdate]. apply andb_prop in Hm as [Hs Hi].
      apply bool_decide_eq_true in Hs, Hi.
      assert (hasUnderscore (doc_session_id e) = false) as Hue
        by (rewrite Hs; apply Hus; by apply list_elem_of_In).
      symmetry in Hkey.
      apply cacheKey_inj in Hkey as [Hse Hie]; [|done|done].
      pose proof (List.find_none _ _ Hfind e He) as Hnone.
      unfold matchesPair in Hnone.
      rewrite Hdate, !bool_decide_eq_true_2 in Hnone by done. done.
Qed.

(** X21. In a batch, colliding keys count as the same pair: of two events
    whose pairs are (s_x, y) and (s, x_y), in either order, the later one is
    never kept, although the two belong to different sessions. *)
Theorem batch_skips_a_colliding_pair
    k now f dtos st (i j : nat) di dj s x y :
  0 < cooldownOf k cfg ->
  (i < j)%nat ->
  dtos !! i = Some di -> dtos !! j = Some dj ->
  (session_id di = s +:+ "_" +:+ x /\ item_id di = y
   /\ session_id dj = s /\ item_id dj = x +:+ "_" +:+ y)
  \/ (session_id di = s /\ item_id di = x +:+ "_" +:+ y
      /\ session_id dj = s +:+ "_" +:+ x /\ item_id dj = y) ->
  session_id di <> session_id dj
  /\ batchAccepted cfg k now f dtos st !! j = Some false.
Proof.
  intros Hpos Hlt Hi Hj Hpairs.
  assert (s +:+ "_" +:+ x <> s) as Hne.
  { intros Heq. apply (f_equal String.length) in Heq.
    rewrite !length_append_string in Heq. simpl in Heq. lia. }
  assert (dtoKey di = dtoKey dj) as Hkey.
  { unfold dtoKey.
    destruct Hpairs as [(-> & -> & -> & ->)|(-> & -> & -> & ->)];
      by rewrite cacheKey_shift. }
  split.
  - destruct Hpairs as [(-> & _ & -> & _)|(-> & _ & -> & _)]; congruence.
  - unfold batchAccepted. destruct (findExisting _ _ _ _).
    + by eapply batchDecisions_later_same_key.
    + apply lookup_replicate_2. by eapply lookup_lt_Some.
Qed.

Lemma select_lookup_true {A} (marks : list bool) : forall (l : list A) (i : nat) x,
  marks !! i = Some true -> l !! i = Some x -> x ∈ select marks l.
Proof.
  induction marks as [|b marks IH]; intros l i x Hm Hl; [done|].
  destruct l as [|y l]; [done|].
  destruct i as [|i]; simpl in Hm, Hl.
  - injection Hm as ->. injection Hl as ->. simpl. by left.
  - destruct b; simpl; [right|]; by apply (IH l i).
Qed.

(** X23. One bad timestamp loses the whole batch.  When an event a batch
    keeps carries a non-empty timestamp that does not parse, the insert of
    the batch is refused as a whole: the call ends in the store's error and
    no event of the batch is written; the loop has by then entered the keys
    of all kept events in the cache, so each of them, also those with a good
    timestamp, is rate limited when it is submitted again inside the
    cooldown. *)
Theorem one_bad_timestamp_loses_the_batch
    k now clock f dtos st (i : nat) d s :
  dtos !! i = Some d ->
  batchAccepted cfg k now f dtos st !! i = Some true ->
  timestamp d = Some s -> s <> EmptyString -> newDate s = InvalidDate ->
  let r := trackEventsBatch newDate cfg k now clock f dtos st in
  r.1 = BatchStoreError
  /\ (forall k', eventsOf k' r.2 = eventsOf k' st)
  /\ forall (j : nat) dj,
       dtos !! j = Some dj ->
       batchAccepted cfg k now f dtos st !! j = Some true ->
       forall now' clock' f',
         now' - now < cooldownOf k cfg ->
         trackEvent newDate cfg k now' clock' f' dj r.2 = (RateLimited, r.2).
Proof.
  intros Hd Hacc Hts Hs Hbad r.
  assert (r.1 = BatchStoreError
          /\ forall k', eventsOf k' r.2 = eventsOf k' st) as [Hout Hev].
  { unfold r, trackEventsBatch. unfold batchAccepted in Hacc.
    destruct dtos as [|d0 rest]; [done|].
    destruct (findExisting _ _ _ _) as [existing|];
      [|by apply lookup_replicate in Hacc as [? _]].
    set (es := list_to_set _) in *.
    pose proof (batchLoop_decisions newDate cfg k now clock es (d0 :: rest)
                  (cacheOf k st)) as Hvalid.
    destruct (batchLoop _ _ _ _ _ _ _ _) as [valid cache'].
    simpl in Hvalid.
    assert (eventData newDate d clock ∈ valid) as Hin.
    { rewrite Hvalid. apply list_elem_of_fmap. exists d. split; [done|].
      by apply (select_lookup_true _ _ i). }
    destruct valid as [|v valid]; [by apply elem_of_nil in Hin|].
    unfold createEventsBatch.
    assert (forallb validateDoc (map (castDoc k) (v :: valid)) = false) as ->.
    { apply not_true_is_false. intros Hall.
      apply forallb_validateDoc in Hall. rewrite Forall_forall in Hall.
      specialize (Hall (castDoc k (eventData newDate d clock))
                    ltac:(by apply list_elem_of_fmap_2)).
      unfold hasValidTimestamp in Hall.
      rewrite castDoc_timestamp in Hall. simpl in Hall.
      by rewrite Hts, (eventTimestamp_unparsable newDate s clock Hs Hbad)
        in Hall. }
    rewrite andb_false_r. simpl. split; [done|].
    intros k'. by rewrite eventsOf_setCache. }
  split; [done|]. split; [done|].
  intros j dj Hdj Haccj now' clock' f' Hlt.
  apply (trackEvent_too_recent newDate cfg k now' clock' f' dj r.2 now);
    [|done].
  by apply (trackEventsBatch_kept_cache k now clock f dtos st j dj).
Qed.

(** *** The cleanup timer *)

(** An entry the cleanup removes is older than the window, so with a
    cooldown inside the window it no longer counts as too recent. *)
Lemma tooRecent_cleanCache cooldown tick now key cache :
  cooldown <= RATE_LIMIT_WINDOW cfg -> tick <= now ->
  tooRecent cooldown now key (cleanCache cfg tick cache)
  = tooRecent cooldown now key cache.
Proof.
  intros Hcw Hle. unfold tooRecent.
  destruct (cleanCache cfg tick cache !! key) as [last|] eqn:E.
  - apply cleanCache_lookup_Some in E as [-> _]. done.
  - destruct (cache !! key) as [last|] eqn:E'; [|done].
    destruct (decide (last < tick - RATE_LIMIT_WINDOW cfg)) as [Hold|Hnew].
    + rewrite bool_decide_eq_false_2; [done|lia].
    + assert (cleanCache cfg tick cache !! key = Some last) as E''
        by (by apply cleanCache_lookup_Some).
      by rewrite E in E''.
Qed.

(** The loop keeps the same events from two caches that answer the cooldown
    test alike. *)
Lemma batchLoop_valid_ext k now clock es dtos : forall cache cache',
  (forall key, tooRecent (cooldownOf k cfg) now key cache
               = tooRecent (cooldownOf k cfg) now key cache') ->
  (batchLoop newDate cfg k now clock es dtos cache).1
  = (batchLoop newDate cfg k now clock es dtos cache').1.
Proof.
  induction dtos as [|d rest IH]; intros cache cache' Hsame; simpl; [done|].
  rewrite <- Hsame.
  destruct (tooRecent _ _ _ cache); [by apply IH|].
  destruct (bool_decide _); [by apply IH|].
  specialize (IH (<[dtoKey d := now]> cache) (<[dtoKey d := now]> cache')).
  destruct (batchLoop _ _ _ _ _ _ _ (<[dtoKey d := now]> cache)) as [v1 c1].
  destruct (batchLoop _ _ _ _ _ _ _ (<[dtoKey d := now]> cache')) as [v2 c2].
  simpl in *. f_equal. apply IH. intros key. unfold tooRecent.
  destruct (decide (dtoKey d = key)) as [->|Hne].
  - by rewrite !lookup_insert_eq.
  - rewrite !lookup_insert_ne by done. apply Hsame.
Qed.

(** X9. With a cooldown that does not exceed the rate-limit window (as with
    the defaults), a firing of the cache cleanup is invisible to every later
    call: a single call and a batch call that arrive at or after the firing
    answer the same as they would have without it. *)
Theorem cleanup_is_invisible_to_later_calls k tick now clock f st :
  cooldownOf k cfg <= RATE_LIMIT_WINDOW cfg ->
  tick <= now ->
  (forall dto,
      (trackEvent newDate cfg k now clock f dto (cleanupTick cfg tick st)).1
      = (trackEvent newDate cfg k now clock f dto st).1)
  /\ (forall dtos,
        (trackEventsBatch newDate cfg k now clock f dtos
           (cleanupTick cfg tick st)).1
        = (trackEventsBatch newDate cfg k now clock f dtos st).1).
Proof.
  intros Hcw Hle. split.
  - intros dto. unfold trackEvent.
    rewrite cacheOf_cleanupTick, eventsOf_cleanupTick,
      (tooRecent_cleanCache _ _ _ _ _ Hcw Hle).
    destruct (tooRecent _ _ _ _); [done|].
    destruct (findBySessionAndItem _ _ _ _ _) as [[e|]|]; [done| |done].
    rewrite !eventsOf_setCache, eventsOf_cleanupTick.
    unfold createEvent. by destruct (writeUp f && validateDoc _).
  - intros dtos. unfold trackEventsBatch.
    destruct dtos as [|d rest]; [done|].
    rewrite cacheOf_cleanupTick, eventsOf_cleanupTick.
    destruct (findExisting _ _ _ _) as [existing|]; [|done].
    pose proof (batchLoop_valid_ext k now clock
                  (list_to_set
                     (map (fun e => cacheKey (doc_session_id e) (doc_item_id e))
                        existing))
                  (d :: rest)
                  (cleanCache cfg tick (cacheOf k st)) (cacheOf k st)
                  (fun key => tooRecent_cleanCache _ _ _ key _ Hcw Hle)) as Hv.
    destruct (batchLoop _ _ _ _ _ _ _ (cleanCache _ _ _)) as [v1 c1].
    destruct (batchLoop _ _ _ _ _ _ _ (cacheOf k st)) as [v2 c2].
    simpl in Hv. subst v2.
    destruct v1 as [|v valid]; [done|].
    rewrite !eventsOf_setCache, eventsOf_cleanupTick.
    unfold createEventsBatch. by destruct (writeUp f && forallb _ _).
Qed.

End IngestionFrame.

(** ** Retention and ingestion together *)


Lemma filter_filter_implied {A} (p q : A -> bool) (l : list A) :
  (forall x, p x = true -> q x = true) ->
  List.filter q (List.filter p l) = List.filter p l.
Proof.
  intros Himp. induction l as [|x l IH]; simpl; [done|].
  destruct (p x) eqn:Hp; [|done]. simpl. rewrite (Himp x Hp). by f_equal.
Qed.

Lemma filter_none {A} (p q : A -> bool) (l : list A) :
  (forall x, p x = true -> q x = false) ->
  List.filter q (List.filter p l) = [].
Proof.
  intros Himp. induction l as [|x l IH]; simpl; [done|].
  destruct (p x) eqn:Hp; [|done]. simpl. by rewrite (Himp x Hp).
Qed.

Lemma find_filter_implied {A} (p q : A -> bool) (l : list A) :
  (forall x, p x = true -> q x = true) ->
  List.find p (List.filter q l) = List.find p l.
Proof.
  intros Himp. induction l as [|x l IH]; simpl; [done|].
  destruct (q x) eqn:Hq; simpl.
  - by destruct (p x).
  - destruct (p x) eqn:Hp; [|done]. rewrite (Himp x Hp) in Hq. done.
Qed.

(** A purge that completes leaves, of each kind, the events at or after the
    cutoff, and the caches as they were. *)
Lemma cleanOldEvents_inv setDateBack cfg f daysToKeep now st res st' c :
  cleanOldEvents setDateBack cfg f daysToKeep now st = Some (res, st') ->
  setDateBack now (retentionDays cfg daysToKeep) = ValidDate c ->
  forall k,
    eventsOf k st'
    = List.filter (fun e => negb (date_lt (doc_timestamp e) c)) (eventsOf k st)
    /\ cacheOf k st' = cacheOf k st.
Proof.
  unfold cleanOldEvents, deleteOldWith. intros Hrun Hc. rewrite Hc in Hrun.
  destruct (writeUp f); [|done]. simpl in Hrun.
  injection Hrun as <- <-. by intros [|].
Qed.

Section RetentionAndIngestion.

Variable newDate : string -> JsDate.
Variable setDateBack : Z -> Z -> JsDate.
Variable cfg : AnalyticsConfig.

(** X10. Purging twice: after a purge with cutoff [c] has completed, a
    further purge whose cutoff is not later than [c] finds nothing to
    delete; it reports 0 for both kinds and leaves the state as it is. *)
Theorem second_purge_deletes_nothing
    f daysToKeep now st res st' c f' daysToKeep' now' c' :
  cleanOldEvents setDateBack cfg f daysToKeep now st = Some (res, st') ->
  setDateBack now (retentionDays cfg daysToKeep) = ValidDate c ->
  writeUp f' = true ->
  setDateBack now' (retentionDays cfg daysToKeep') = ValidDate c' ->
  c' <= c ->
  cleanOldEvents setDateBack cfg f' daysToKeep' now' st'
  = Some ({| cleaned_impressions := 0; cleaned_clicks := 0 |}, st').
Proof.
  intros Hrun Hc Hw Hc' Hle.
  pose proof (cleanOldEvents_inv _ _ _ _ _ _ _ _ _ Hrun Hc) as Hinv.
  destruct (Hinv Impression) as [Hi _]. destruct (Hinv Click) as [Hk _].
  simpl in Hi, Hk.
  assert (forall e, negb (date_lt (doc_timestamp e) c) = true ->
                    negb (date_lt (doc_timestamp e) c') = true) as Hkeep.
  { intros e. destruct (doc_timestamp e) as [ms|]; simpl; [|done].
    rewrite !negb_true_iff, !Z.ltb_ge. lia. }
  assert (forall e, negb (date_lt (doc_timestamp e) c) = true ->
                    date_lt (doc_timestamp e) c' = false) as Hgone.
  { intros e He. apply negb_true_iff. by apply Hkeep. }
  unfold cleanOldEvents, deleteOldWith. rewrite Hc', Hw. simpl.
  rewrite Hi, Hk.
  rewrite !(filter_filter_implied _ _ _ Hkeep), !(filter_none _ _ _ Hgone).
  simpl. rewrite <- Hi, <- Hk. by destruct st'.
Qed.

(** X11. The purge does not disturb deduplication: when its cutoff is not
    later than the start of the rate-limit window of a tracking call (as it
    is with a retention of days against a window of a minute), the call
    answers on the purged state what it answers on the state before the
    purge. *)
Theorem purge_keeps_the_decisions
    f0 daysToKeep tick st res st' c k now clock f dto :
  cleanOldEvents setDateBack cfg f0 daysToKeep tick st = Some (res, st') ->
  setDateBack tick (retentionDays cfg daysToKeep) = ValidDate c ->
  c <= now - RATE_LIMIT_WINDOW cfg ->
  (trackEvent newDate cfg k now clock f dto st').1
  = (trackEvent newDate cfg k now clock f dto st).1.
Proof.
  intros Hrun Hc Hle.
  destruct (cleanOldEvents_inv _ _ _ _ _ _ _ _ _ Hrun Hc k) as [Hev Hcache].
  unfold trackEvent, findBySessionAndItem. rewrite Hcache, Hev.
  destruct (tooRecent _ _ _ _); [done|].
  destruct (readUp f); [|done].
  rewrite find_filter_implied.
  - destruct (List.find _ _); [done|].
    unfold createEvent. by destruct (writeUp f && validateDoc _).
  - intros e. unfold matchesPair.
    destruct (doc_timestamp e) as [ms|]; simpl.
    + intros Hm. apply andb_prop in Hm as [_ Hm].
      apply negb_true_iff, Z.ltb_ge. apply Z.leb_le in Hm. lia.
    + done.
Qed.

End RetentionAndIngestion.

(** ** Item statistics and the trending rows *)

Lemma length_remove_dups_le {A} `{EqDecision A} (l : list A) :
  (length (remove_dups l) <= length l)%nat.
Proof.
  apply submseteq_length, NoDup_submseteq; [apply NoDup_remove_dups|].
  intros x. by rewrite elem_of_remove_dups.
Qed.

Lemma length_omap_le {A B} (f : A -> option B) (l : list A) :
  (length (omap f l) <= length l)%nat.
Proof.
  induction l as [|x l IH]; csimpl; [done|].
  destruct (f x); simpl; lia.
Qed.

Lemma remove_dups_nonempty {A} `{EqDecision A} (l : list A) :
  l <> [] -> (1 <= length (remove_dups l))%nat.
Proof.
  destruct l as [|x l]; [done|]. intros _.
  assert (x ∈ remove_dups (x :: l)) as Hin
    by (apply elem_of_remove_dups; left).
  destruct (remove_dups (x :: l)); [by apply elem_of_nil in Hin|simpl; lia].
Qed.

(** X12. The numbers of [getItemAnalytics].  Whatever happens to the store
    between the reads of the call, no number is negative and without
    impressions the click-through rate is 0 whatever the number of clicks.
    When the read of the distinct users finds the impression collection as
    the count did, the unique users are not more than the impressions; when
    the read of the distinct sessions does, the unique sessions are not more
    than the impressions, and an item with an impression has at least one
    session. *)
Theorem item_analytics_bounds itemId startDate endDate st1 st2 st3 ia :
  getItemAnalyticsReads itemId startDate endDate st1 st2 st3 = Some ia ->
  (0 <= ia_impressions ia /\ 0 <= ia_clicks ia
   /\ 0 <= ia_uniqueUsers ia /\ 0 <= ia_uniqueSessions ia
   /\ (ia_impressions ia = 0 -> ia_clickThroughRate ia = (0, 1)))
  /\ (impression_events st2 = impression_events st1 ->
      ia_uniqueUsers ia <= ia_impressions ia)
  /\ (impression_events st3 = impression_events st1 ->
      ia_uniqueSessions ia <= ia_impressions ia
      /\ (0 < ia_impressions ia -> 1 <= ia_uniqueSessions ia)).
Proof.
  unfold getItemAnalyticsReads, countByFilter, getDistinctUsersByFilter,
    getDistinctSessionsByFilter, distinctStrings.
  destruct (findByFilter (impression_events st1) _) as [imps|] eqn:E1; [|done].
  destruct (findByFilter (click_events st1) _) as [clks|]; [|done].
  destruct (findByFilter (impression_events st2) _) as [imps2|] eqn:E2;
    [|done].
  destruct (findByFilter (impression_events st3) _) as [imps3|] eqn:E3;
    [|done].
  simpl. intros [= <-]. simpl.
  split; [|split].
  - repeat split; try lia.
    intros ->. unfold clickThroughRate. by rewrite bool_decide_eq_false_2.
  - intros Heq. rewrite Heq, E1 in E2. injection E2 as <-.
    pose proof (length_remove_dups_le (omap doc_user_id imps)).
    pose proof (length_omap_le doc_user_id imps). lia.
  - intros Heq. rewrite Heq, E1 in E3. injection E3 as <-.
    pose proof (length_remove_dups_le (map doc_session_id imps)) as Hle.
    rewrite length_map in Hle. split; [lia|].
    intros Hpos.
    pose proof (remove_dups_nonempty (map doc_session_id imps)) as Hne.
    destruct imps; [simpl in Hpos; lia|]. specialize (Hne ltac:(done)). lia.
Qed.

Lemma filter_all {A} (p : A -> bool) (l : list A) :
  (forall x, p x = true) -> List.filter p l = l.
Proof.
  intros Hp. induction l as [|x l IH]; simpl; [done|].
  rewrite Hp. by f_equal.
Qed.

(** X13. An empty item id is no filter: [getItemAnalytics] called with the
    empty string and no dates counts the events of all items, because
    [buildAnalyticsFilter] leaves a falsy [item_id] out of the query. *)
Theorem empty_item_id_counts_every_item st :
  exists ia,
    getItemAnalytics EmptyString None None st = Some ia
    /\ ia_impressions ia = Z.of_nat (length (impression_events st))
    /\ ia_clicks ia = Z.of_nat (length (click_events st))
    /\ ia_uniqueSessions ia
       = Z.of_nat (length (remove_dups (map doc_session_id
                                          (impression_events st)))).
Proof.
  unfold getItemAnalytics, getItemAnalyticsReads, countByFilter,
    getDistinctUsersByFilter, getDistinctSessionsByFilter, distinctStrings,
    findByFilter.
  simpl. rewrite !filter_all by done.
  eexists. split; [done|]. done.
Qed.

(** X24. The numbers of [getUserAnalytics].  Whatever happens to the store
    between the reads of the call, no number is negative, the user id is the
    one asked for, and without impressions the click-through rate is 0
    whatever the number of clicks.  When the read of the viewed items finds
    the impression collection as the count did, the viewed items are not
    more than the impressions and a user with an impression has viewed at
    least one item. *)
Theorem user_analytics_bounds userId startDate endDate st1 st2 st3 ua :
  getUserAnalyticsReads userId startDate endDate st1 st2 st3 = Some ua ->
  (0 <= ua_impressions ua /\ 0 <= ua_clicks ua
   /\ 0 <= ua_viewedItems ua /\ 0 <= ua_clickedItems ua
   /\ ua_userId ua = userId
   /\ (ua_impressions ua = 0 -> ua_clickThroughRate ua = (0, 1)))
  /\ (impression_events st2 = impression_events st1 ->
      ua_viewedItems ua <= ua_impressions ua
      /\ (0 < ua_impressions ua -> 1 <= ua_viewedItems ua)).
Proof.
  unfold getUserAnalyticsReads, countByFilter, getDistinctItemsByFilter,
    distinctStrings.
  destruct (findByFilter (impression_events st1) _) as [imps|] eqn:E1; [|done].
  destruct (findByFilter (click_events st1) _) as [clks|]; [|done].
  destruct (findByFilter (impression_events st2) _) as [imps2|] eqn:E2;
    [|done].
  destruct (findByFilter (impression_events st3) _) as [imps3|] eqn:E3;
    [|done].
  simpl. intros [= <-]. simpl.
  split.
  - repeat split; try lia.
    intros ->. unfold clickThroughRate. by rewrite bool_decide_eq_false_2.
  - intros Heq. rewrite Heq, E1 in E2. injection E2 as <-.
    pose proof (length_remove_dups_le (map doc_item_id imps)) as Hle.
    rewrite length_map in Hle. split; [lia|].
    intros Hpos.
    pose proof (remove_dups_nonempty (map doc_item_id imps)) as Hne.
    destruct imps; [simpl in Hpos; lia|]. specialize (Hne ltac:(done)). lia.
Qed.

Lemma totalImpressions_Permutation (a b : list TrendingRow) :
  Permutation a b -> totalImpressions a = totalImpressions b.
Proof.
  unfold totalImpressions.
  induction 1 as [|x a b _ IH|x y a|a b c _ IH1 _ IH2]; simpl; lia.
Qed.

Lemma sum_hits_none (x : string) (ks : list string) :
  x ∉ ks ->
  foldr Z.add 0 (map (fun k => if bool_decide (x = k) then 1 else 0) ks) = 0.
Proof.
  induction ks as [|k ks IH]; simpl; [done|].
  intros Hnot. apply not_elem_of_cons in Hnot as [Hne Hnot].
  rewrite bool_decide_eq_false_2 by done. rewrite IH by done. done.
Qed.

Lemma sum_hits_one (x : string) (ks : list string) :
  NoDup ks -> x ∈ ks ->
  foldr Z.add 0 (map (fun k => if bool_decide (x = k) then 1 else 0) ks) = 1.
Proof.
  induction ks as [|k ks IH]; simpl; intros Hnd Hin.
  { by apply elem_of_nil in Hin. }
  apply NoDup_cons in Hnd as [Hk Hnd].
  destruct (decide (x = k)) as [->|Hne].
  - rewrite bool_decide_eq_true_2 by done. by rewrite sum_hits_none.
  - rewrite bool_decide_eq_false_2 by done.
    apply elem_of_cons in Hin as [Hin|Hin]; [done|]. by rewrite IH.
Qed.

Lemma sum_map_plus {A} (f g h : A -> Z) (ks : list A) :
  (forall k, f k = g k + h k) ->
  foldr Z.add 0 (map f ks)
  = foldr Z.add 0 (map g ks) + foldr Z.add 0 (map h ks).
Proof.
  intros Hsum. induction ks as [|k ks IH]; simpl; [done|].
  rewrite IH, Hsum. lia.
Qed.

Lemma eventsOfItem_cons_length k e docs :
  Z.of_nat (length (eventsOfItem k (e :: docs)))
  = (if bool_decide (doc_item_id e = k) then 1 else 0)
    + Z.of_nat (length (eventsOfItem k docs)).
Proof.
  unfold eventsOfItem. simpl.
  destruct (bool_decide (doc_item_id e = k)); simpl length; lia.
Qed.

(** The groups split the documents: over any list of distinct item ids that
    covers the documents, the group sizes add up to their number. *)
Lemma eventsOfItem_total (docs : list Event) (ks : list string) :
  NoDup ks ->
  (forall e, e ∈ docs -> doc_item_id e ∈ ks) ->
  foldr Z.add 0 (map (fun k => Z.of_nat (length (eventsOfItem k docs))) ks)
  = Z.of_nat (length docs).
Proof.
  intros Hnd. induction docs as [|e docs IH]; intros Hcov.
  - simpl. clear. induction ks as [|k ks IHk]; simpl; [done|].
    by rewrite IHk.
  - assert (foldr Z.add 0
              (map (fun k => Z.of_nat (length (eventsOfItem k (e :: docs)))) ks)
            = foldr Z.add 0
                (map (fun k => if bool_decide (doc_item_id e = k) then 1 else 0)
                   ks)
              + foldr Z.add 0
                  (map (fun k => Z.of_nat (length (eventsOfItem k docs))) ks))
      as ->.
    { apply sum_map_plus. intros k. apply eventsOfItem_cons_length. }
    rewrite IH by (intros e' He'; apply Hcov; by right).
    rewrite sum_hits_one; [simpl length; lia|done|apply Hcov; by left].
Qed.

Lemma totalImpressions_groupStage docs :
  totalImpressions (groupStage docs) = Z.of_nat (length docs).
Proof.
  unfold totalImpressions, groupStage. rewrite map_map. simpl.
  apply eventsOfItem_total; [apply NoDup_remove_dups|].
  intros e He. apply elem_of_remove_dups, list_elem_of_fmap. by exists e.
Qed.

(** X14. Every row of a trending answer, whatever the limit and the range,
    stands for an item with at least one impression, counts at least one
    session, and counts neither more users nor more sessions than
    impressions. *)
Theorem trending_row_bounds limit filters st out r :
  popularItemsAnswer limit filters st out ->
  r ∈ out ->
  1 <= row_impressions r
  /\ 1 <= row_uniqueSessions r <= row_impressions r
  /\ 0 <= row_uniqueUsers r <= row_impressions r
  /\ row_id r = row_itemId r.
Proof.
  intros (Hpos & sorted & Hperm & Hsorted & ->) Hr.
  set (docs := matchStage filters (impression_events st)) in *.
  assert (r ∈ groupStage docs) as Hin.
  { rewrite Hperm. eapply elem_of_sublist; [exact Hr|apply sublist_take]. }
  apply elem_of_groupStage in Hin as [-> Hitem].
  set (item := row_itemId r) in *. unfold groupRow. simpl.
  set (mine := eventsOfItem item docs).
  assert (mine <> []) as Hne.
  { apply list_elem_of_fmap in Hitem as (e & He & Hin).
    assert (e ∈ mine) as Hmine.
    { apply list_elem_of_In, List.filter_In. split; [by apply list_elem_of_In|].
      by apply bool_decide_eq_true. }
    intros Hnil. rewrite Hnil in Hmine. by apply elem_of_nil in Hmine. }
  pose proof (length_remove_dups_le (omap doc_user_id mine)).
  pose proof (length_omap_le doc_user_id mine).
  pose proof (length_remove_dups_le (map doc_session_id mine)).
  pose proof (remove_dups_nonempty (map doc_session_id mine)) as Hs.
  rewrite length_map in *.
  specialize (Hs ltac:(by destruct mine)).
  assert (1 <= length mine)%nat as Hlen by (destruct mine; [done|simpl; lia]).
  repeat split; lia.
Qed.

(** X15. Trending over a date range counts the impression events whose
    timestamp lies between the two bounds, both included: each row holds the
    number of those events for its item, and when the limit covers all items
    the rows add up to the number of events in the range. *)
Theorem trending_counts_the_events_in_range limit s e st out :
  trendingAnswer limit (Some (ValidDate s)) (Some (ValidDate e)) st out ->
  let docs :=
    List.filter (fun ev => date_gte (doc_timestamp ev) s
                           && date_lte (doc_timestamp ev) e)
      (impression_events st) in
  (forall r, r ∈ out ->
     row_impressions r = Z.of_nat (length (eventsOfItem (row_itemId r) docs)))
  /\ ((length (remove_dups (map doc_item_id docs))
       <= Z.to_nat (default 10%Z limit))%nat ->
      totalImpressions out = Z.of_nat (length docs)).
Proof.
  intros (Hpos & sorted & Hperm & Hsorted & ->) docs.
  change (matchStage _ _) with docs in Hperm.
  split.
  - intros r Hr.
    assert (r ∈ groupStage docs) as Hin.
    { rewrite Hperm. eapply elem_of_sublist; [exact Hr|apply sublist_take]. }
    apply elem_of_groupStage in Hin as [Heq _]. by rewrite Heq at 1.
  - intros Hcover. rewrite take_ge.
    + by rewrite <- (totalImpressions_Permutation _ _ Hperm),
        totalImpressions_groupStage.
    + rewrite <- (Permutation_length Hperm). unfold groupStage.
      by rewrite length_map.
Qed.

(** ** Time series *)

#[global] Instance byDay_trans : Transitive byDay.
Proof. intros a b c. unfold byDay. apply transitivity. Qed.

#[global] Instance byDay_total : Total byDay.
Proof. intros a b. unfold byDay. apply total, _. Qed.

Section TimeSeriesFacts.

Variable setDateBack : Z -> Z -> JsDate.
Variable dateToString : Z -> string.

Lemma eventsOfDay_cons_length day e docs :
  Z.of_nat (length (eventsOfDay dateToString day (e :: docs)))
  = (if bool_decide (dayOf dateToString e = Some day) then 1 else 0)
    + Z.of_nat (length (eventsOfDay dateToString day docs)).
Proof.
  unfold eventsOfDay. simpl.
  destruct (bool_decide (dayOf dateToString e = Some day)); simpl length; lia.
Qed.

(** The days split the documents that have a day. *)
Lemma eventsOfDay_total (docs : list Event) (ks : list string) :
  NoDup ks ->
  (forall e, e ∈ docs -> exists day, dayOf dateToString e = Some day /\ day ∈ ks) ->
  foldr Z.add 0
    (map (fun k => Z.of_nat (length (eventsOfDay dateToString k docs))) ks)
  = Z.of_nat (length docs).
Proof.
  intros Hnd. induction docs as [|e docs IH]; intros Hcov.
  - simpl. clear. induction ks as [|k ks IHk]; simpl; [done|]. by rewrite IHk.
  - rewrite (sum_map_plus _
               (fun k => if bool_decide (dayOf dateToString e = Some k)
                         then 1 else 0)
               (fun k => Z.of_nat (length (eventsOfDay dateToString k docs))))
      by (intros k; apply eventsOfDay_cons_length).
    rewrite IH by (intros e' He'; apply Hcov; by right).
    destruct (Hcov e ltac:(by left)) as (day & Hday & Hin). rewrite Hday.
    assert (map (fun k => if bool_decide (Some day = Some k) then 1 else 0) ks
            = map (fun k => if bool_decide (day = k) then 1 else 0) ks) as ->.
    { apply map_ext. intros k.
      destruct (decide (day = k)) as [->|Hne].
      - by rewrite !bool_decide_eq_true_2.
      - rewrite !bool_decide_eq_false_2; [done|done|congruence]. }
    rewrite sum_hits_one by done. simpl length. lia.
Qed.

Lemma seriesMatch_dayOf itemId c coll e :
  e ∈ seriesMatch itemId c coll -> exists ms, doc_timestamp e = ValidDate ms.
Proof.
  intros He. apply list_elem_of_In, List.filter_In in He as [_ He].
  apply andb_prop in He as [_ He].
  destruct (doc_timestamp e) as [ms|]; [by exists ms|done].
Qed.

Lemma elem_of_seriesGroup docs r :
  r ∈ seriesGroup dateToString docs <->
  ts_count r = Z.of_nat (length (eventsOfDay dateToString (ts_id r) docs))
  /\ exists e, e ∈ docs /\ dayOf dateToString e = Some (ts_id r).
Proof.
  unfold seriesGroup. rewrite list_elem_of_fmap. split.
  - intros (day & -> & Hin). simpl. split; [done|].
    by apply elem_of_remove_dups, list_elem_of_omap in Hin.
  - intros (Hcount & Hex). exists (ts_id r). split.
    + destruct r as [i c]. simpl in *. by rewrite Hcount.
    + by apply elem_of_remove_dups, list_elem_of_omap.
Qed.

Lemma totalCount_Permutation (a b : list TimeSeriesRow) :
  Permutation a b -> totalCount a = totalCount b.
Proof.
  unfold totalCount.
  induction 1 as [|x a b _ IH|x y a|a b c _ IH1 _ IH2]; simpl; lia.
Qed.

(** X16. The time series of an item.  With a valid start date the call
    returns one row per day on which the item has an event of the kind at or
    after the start date: the rows are in ascending order of the day strings
    with no day twice, every row counts at least one event and exactly the
    events of its day, the counts add up to the number of matched events,
    and the answer is the only one the pipeline allows (no two rows compare
    equal, so the sort leaves nothing open). *)
Theorem time_series_rows k itemId days now st c :
  setDateBack now days = ValidDate c ->
  let docs := seriesMatch itemId c (eventsOf k st) in
  exists rows,
    getKindTimeSeriesData setDateBack dateToString k itemId days now st
    = Some rows
    /\ StronglySorted byDay rows
    /\ NoDup (map ts_id rows)
    /\ (forall r, r ∈ rows ->
          1 <= ts_count r
          /\ ts_count r
             = Z.of_nat (length (eventsOfDay dateToString (ts_id r) docs)))
    /\ totalCount rows = Z.of_nat (length docs)
    /\ (forall rows',
          Permutation (seriesGroup dateToString docs) rows' ->
          StronglySorted byDay rows' ->
          rows' = rows).
Proof.
  intros Hc docs. unfold getKindTimeSeriesData. rewrite Hc.
  eexists. split; [done|]. unfold timeSeriesPipeline. fold docs.
  set (groups := seriesGroup dateToString docs).
  pose proof (merge_sort_Permutation byDay groups) as Hperm.
  assert (NoDup (map ts_id groups)) as Hnd.
  { unfold groups, seriesGroup. rewrite map_map. simpl. rewrite map_id.
    apply NoDup_remove_dups. }
  split; [apply (StronglySorted_merge_sort byDay)|].
  split; [by rewrite Hperm|].
  split; [|split].
  - intros r Hr. rewrite Hperm in Hr.
    apply elem_of_seriesGroup in Hr as (Hcount & e & He & Hday).
    split; [|done]. rewrite Hcount.
    assert (e ∈ eventsOfDay dateToString (ts_id r) docs) as Hin.
    { apply list_elem_of_In, List.filter_In.
      split; [by apply list_elem_of_In|by apply bool_decide_eq_true]. }
    destruct (eventsOfDay _ _ _); [by apply elem_of_nil in Hin|simpl; lia].
  - rewrite (totalCount_Permutation _ _ Hperm).
    unfold totalCount, groups, seriesGroup. rewrite map_map. simpl.
    apply eventsOfDay_total; [apply NoDup_remove_dups|].
    intros e He. destruct (seriesMatch_dayOf _ _ _ _ He) as [ms Hms].
    exists (dateToString ms).
    assert (dayOf dateToString e = Some (dateToString ms)) as Hday
      by (unfold dayOf; by rewrite Hms).
    split; [done|]. apply elem_of_remove_dups, list_elem_of_omap. by exists e.
  - intros rows' Hperm' Hsorted'.
    apply (StronglySorted_unique_strong byDay); [|done| |].
    + intros x1 x2 Hx1 Hx2 H12 H21.
      rewrite <- Hperm' in Hx1. rewrite Hperm in Hx2.
      assert (ts_id x1 = ts_id x2) as Hid
        by (apply (anti_symm String.le); done).
      apply elem_of_seriesGroup in Hx1 as [Hc1 _].
      apply elem_of_seriesGroup in Hx2 as [Hc2 _].
      destruct x1, x2. simpl in *. by subst.
    + apply (StronglySorted_merge_sort byDay).
    + by rewrite Hperm.
Qed.

End TimeSeriesFacts.

(** ** The tracking service of the auction module *)

Lemma select_all_false {A} (l : list A) :
  select (replicate (length l) false) l = [].
Proof. induction l; done. Qed.

(** Of every (session, item) pair a batch keeps at most one event. *)
Lemma batchAccepted_at_most_one cfg k now f dtos st sid iid :
  0 < cooldownOf k cfg ->
  (length (dtosOfPair sid iid
             (select (batchAccepted cfg k now f dtos st) dtos)) <= 1)%nat.
Proof.
  intros Hpos. unfold batchAccepted.
  destruct (findExisting _ _ _ _).
  - by apply batchDecisions_at_most_one.
  - rewrite select_all_false. simpl. lia.
Qed.

(** Events of one session, at most one per pair: no item id twice. *)
Lemma NoDup_item_ids sid (l : list TrackDto) :
  Forall (fun d => session_id d = sid) l ->
  (forall iid, (length (dtosOfPair sid iid l) <= 1)%nat) ->
  NoDup (map item_id l).
Proof.
  induction l as [|d l IH]; intros Hs Hone; [constructor|].
  apply Forall_cons in Hs as [Hd Hs]. simpl. apply NoDup_cons. split.
  - intros Hin. apply list_elem_of_fmap in Hin as (d' & Heq & Hin).
    specialize (Hone (item_id d)). unfold dtosOfPair in Hone. simpl in Hone.
    rewrite !bool_decide_eq_true_2 in Hone by done. simpl in Hone.
    assert (d' ∈ List.filter
                    (fun x => bool_decide (session_id x = sid)
                              && bool_decide (item_id x = item_id d)) l)
      as Hin'.
    { apply list_elem_of_In, List.filter_In. split; [by apply list_elem_of_In|].
      rewrite Forall_forall in Hs.
      rewrite !bool_decide_eq_true_2; [done|done|by apply Hs]. }
    destruct (List.filter _ l); [by apply elem_of_nil in Hin'|simpl in Hone; lia].
  - apply IH; [done|]. intros iid. specialize (Hone iid).
    unfold dtosOfPair in *. simpl in Hone.
    destruct (bool_decide (session_id d = sid) && bool_decide (item_id d = iid));
      simpl in Hone; lia.
Qed.

Section TrackingFacts.

Variable newDate : string -> JsDate.
Variable toISOString : Z -> string.
Variable cfg : AnalyticsConfig.

Lemma listedDtos_lookup itemIds context timestamp built (i : nat) itemId :
  itemIds !! i = Some itemId ->
  listedDtos toISOString itemIds context timestamp built !! i
  = Some (listedDto toISOString context timestamp built i itemId).
Proof. intros Hi. unfold listedDtos. by rewrite list_lookup_imap, Hi. Qed.

Lemma listedDtos_Forall itemIds context timestamp built :
  Forall (fun d => session_id d = ctx_session_id context
                   /\ item_id d ∈ itemIds)
    (listedDtos toISOString itemIds context timestamp built).
Proof.
  apply Forall_forall. intros d Hd.
  apply list_elem_of_lookup in Hd as [i Hd]. unfold listedDtos in Hd.
  rewrite list_lookup_imap in Hd.
  destruct (itemIds !! i) as [itemId|] eqn:Hi; [|done].
  injection Hd as <-. simpl. split; [done|].
  by eapply list_elem_of_lookup_2.
Qed.

(** X17. A view right after a listing is not counted.  When
    [trackItemsImpressions] has kept the impression of a listed item, a
    [trackItemImpression] for that item in the same session that arrives
    inside the impression cooldown leaves the state as it is: the rejection
    is swallowed and no impression of the view is stored. *)
Theorem view_after_listing_is_not_counted
    itemIds context timestamp built now clock f st (i : nat) itemId :
  timestamp <> Some InvalidDate ->
  itemIds !! i = Some itemId ->
  batchAccepted cfg Impression now f
    (listedDtos toISOString itemIds context timestamp built) st !! i
  = Some true ->
  let st1 := trackItemsImpressions newDate toISOString cfg itemIds context
               timestamp built now clock f st in
  forall context' timestamp' built' now' clock' f',
    ctx_session_id context' = ctx_session_id context ->
    now' - now < IMPRESSION_COOLDOWN cfg ->
    trackItemImpression newDate toISOString cfg itemId context' timestamp'
      built' now' clock' f' st1
    = st1.
Proof.
  intros Hts Hi Hacc st1 context' timestamp' built' now' clock' f' Hs Hlt.
  pose proof (listedDtos_lookup itemIds context timestamp built i itemId Hi)
    as Hd.
  pose proof (trackEventsBatch_kept_cache newDate cfg Impression now clock f
                _ st i _ Hd Hacc) as Hcache.
  assert (st1 = (trackEventsBatch newDate cfg Impression now clock f
                   (listedDtos toISOString itemIds context timestamp built)
                   st).2) as Hst1.
  { unfold st1, trackItemsImpressions.
    destruct itemIds; [done|]. by rewrite bool_decide_eq_false_2. }
  rewrite <- Hst1 in Hcache.
  unfold trackItemImpression.
  destruct (isoStamp toISOString timestamp' built') as [stamp|]; [|done].
  rewrite (trackEvent_too_recent newDate cfg Impression now' clock' f' _ st1 now);
    [done| |done].
  unfold dtoKey. simpl. rewrite Hs. exact Hcache.
Qed.

(** X18. The impression schema declares no [position_in_results], so no
    impression document ever holds one: single calls, batch calls and the
    listing of the tracking service (which computes [offset + index] for
    every listed item) all keep the impression collection free of positions.
    An accepted click of the tracking service does store the position of
    its context. *)
Theorem impressions_never_store_a_position st :
  Forall hasNoPosition (impression_events st) ->
  (forall now clock f dto,
      Forall hasNoPosition
        (impression_events
           (trackEvent newDate cfg Impression now clock f dto st).2))
  /\ (forall now clock f dtos,
        Forall hasNoPosition
          (impression_events
             (trackEventsBatch newDate cfg Impression now clock f dtos st).2))
  /\ (forall itemIds context timestamp built now clock f,
        Forall hasNoPosition
          (impression_events
             (trackItemsImpressions newDate toISOString cfg itemIds context
                timestamp built now clock f st)))
  /\ (forall itemId context stamp now clock f st0 doc st',
        trackEvent newDate cfg Click now clock f
          (clickDto itemId context stamp) st0 = (Accepted doc, st') ->
        doc_position_in_results doc = ctx_position_in_results context).
Proof.
  intros Hst.
  assert (forall now clock f dtos,
             Forall hasNoPosition
               (impression_events
                  (trackEventsBatch newDate cfg Impression now clock f dtos
                     st).2)) as Hbatch.
  { intros now clock f dtos.
    destruct (trackEventsBatch newDate cfg Impression now clock f dtos st)
      as [o st'] eqn:E.
    apply trackEventsBatch_inv in E as [[_ Hev]|[_ Hev]]; simpl in Hev |- *;
      rewrite Hev; [|done].
    apply Forall_app. split; [done|].
    apply Forall_forall. intros e He.
    by apply list_elem_of_fmap in He as (d & -> & _). }
  split; [|split; [done|split]].
  - intros now clock f dto.
    pose proof (single_call_frame newDate cfg Impression now clock f dto st)
      as [Hev _].
    simpl in Hev. rewrite Hev. apply Forall_app. split; [done|].
    destruct (trackEvent_run newDate cfg Impression now clock f dto st);
      simpl; try constructor; [done|constructor].
  - intros itemIds context timestamp built now clock f.
    unfold trackItemsImpressions. destruct itemIds; [done|].
    destruct (bool_decide _); [done|apply Hbatch].
  - intros itemId context stamp now clock f st0 doc st' Hacc.
    apply trackEvent_inv in Hacc. by inversion Hacc.
Qed.

(** X19. A listing stores at most one impression per listed item: with a
    positive impression cooldown, what [trackItemsImpressions] appends to
    the impression collection are documents of the listing's session for
    listed items, no two for the same item, so never more than there are
    different item ids in the list; nothing else in the collection
    changes. *)
Theorem listing_stores_one_impression_per_item
    itemIds context timestamp built now clock f st :
  0 < IMPRESSION_COOLDOWN cfg ->
  exists docs,
    impression_events
      (trackItemsImpressions newDate toISOString cfg itemIds context timestamp
         built now clock f st)
    = impression_events st ++ docs
    /\ NoDup (map doc_item_id docs)
    /\ Forall (fun e => doc_session_id e = ctx_session_id context
                        /\ doc_item_id e ∈ itemIds) docs
    /\ (length docs <= length (remove_dups itemIds))%nat.
Proof.
  intros Hpos.
  assert (exists docs : list Event,
             impression_events
               (trackItemsImpressions newDate toISOString cfg itemIds context
                  timestamp built now clock f st)
             = impression_events st ++ docs
             /\ NoDup (map doc_item_id docs)
             /\ Forall (fun e => doc_session_id e = ctx_session_id context
                                 /\ doc_item_id e ∈ itemIds) docs)
    as (docs & Hev & Hnd & Hall).
  { assert (impression_events st = impression_events st ++ []
            /\ NoDup (map doc_item_id [])
            /\ Forall (fun e => doc_session_id e = ctx_session_id context
                                /\ doc_item_id e ∈ itemIds) []) as Hnone
      by (rewrite app_nil_r; split; [done|split; constructor]).
    unfold trackItemsImpressions.
    destruct itemIds as [|i0 ids]; [by exists []|].
    destruct (bool_decide _); [by exists []|].
    set (dtos := listedDtos toISOString (i0 :: ids) context timestamp built).
    destruct (trackEventsBatch newDate cfg Impression now clock f dtos st)
      as [o st'] eqn:E.
    apply trackEventsBatch_inv in E as [[_ Hev]|[_ Hev]]; simpl in Hev |- *;
      [|exists []; by rewrite Hev].
    set (kept := select (batchAccepted cfg Impression now f dtos st) dtos)
      in Hev.
    assert (Forall (fun d => session_id d = ctx_session_id context
                             /\ item_id d ∈ i0 :: ids) kept) as Hkept.
    { rewrite Forall_forall. intros d Hd.
      pose proof (listedDtos_Forall (i0 :: ids) context timestamp built)
        as Hall.
      rewrite Forall_forall in Hall. apply Hall.
      eapply elem_of_sublist; [exact Hd|apply select_sublist]. }
    eexists. split; [exact Hev|]. split.
    - rewrite map_map. simpl.
      apply (NoDup_item_ids (ctx_session_id context)).
      + eapply Forall_impl; [exact Hkept|]. by intros d [? _].
      + intros iid. by apply batchAccepted_at_most_one.
    - rewrite Forall_forall. intros e He.
      apply list_elem_of_fmap in He as (d & -> & Hd).
      rewrite Forall_forall in Hkept. by apply Hkept. }
  exists docs. split; [done|]. split; [done|]. split; [done|].
  rewrite <- (length_map doc_item_id docs).
  apply submseteq_length, NoDup_submseteq; [done|].
  intros x Hx. apply elem_of_remove_dups.
  apply list_elem_of_fmap in Hx as (e & -> & He).
  rewrite Forall_forall in Hall. by apply Hall.
Qed.

End TrackingFacts.

(** ** The dashboard *)

Lemma totalImpressions_sortStage rows :
  totalImpressions (sortStage rows) = totalImpressions rows.
Proof. symmetry. apply totalImpressions_Permutation, sortStage_Permutation. Qed.

(** X22. The dashboard called without dates reports the last seven days as
    its period, but its trending rows are computed without any date bound:
    they count the impression events of all time.  With at most five items
    in the store the rows add up to the number of all stored impression
    events, whatever their age. *)
Theorem dashboard_without_dates_counts_all_time newDate toISOString now1 now2 st :
  exists d,
    getDashboardData newDate toISOString None None now1 now2 st = Some d
    /\ dash_period_startDate d = toISOString (now1 - 604800000)
    /\ dash_period_endDate d = toISOString now2
    /\ (forall r, r ∈ dash_trendingItems d ->
          row_impressions r
          = Z.of_nat (length (eventsOfItem (row_itemId r)
                                (impression_events st))))
    /\ ((length (remove_dups (map doc_item_id (impression_events st))) <= 5)%nat ->
        totalImpressions (dash_trendingItems d)
        = Z.of_nat (length (impression_events st))).
Proof.
  unfold getDashboardData, getTrendingItems, getPopularItemsAggregation.
  simpl. eexists. split; [done|]. simpl.
  split; [done|]. split; [done|].
  change (matchStage _ _) with (impression_events st).
  set (docs := impression_events st). split.
  - intros r Hr.
    assert (r ∈ groupStage docs) as Hin.
    { rewrite (sortStage_Permutation (groupStage docs)).
      eapply elem_of_sublist; [exact Hr|apply sublist_take]. }
    apply elem_of_groupStage in Hin as [Heq _]. by rewrite Heq at 1.
  - intros Hcover. rewrite take_ge.
    + by rewrite totalImpressions_sortStage, totalImpressions_groupStage.
    + rewrite <- (Permutation_length (sortStage_Permutation _)).
      unfold groupStage. rewrite length_map.
      change (Z.to_nat DEFAULT_TRENDING_ITEMS_LIMIT) with 5%nat. done.
Qed.

(** ** Concrete runs *)

Lemma rejection_is_pure_and_repeats_witness :
  (runSteps isoDateParse defaultConfig Impression twoRetries
     (trackEvent isoDateParse defaultConfig Impression 1000 1001 Healthy
        (sampleDto "s1" "i1" None) emptyState).2).1
  = [RateLimited; RateLimited].
Proof.
  refine (proj1 (proj2 (proj2
                   (rejection_is_pure_and_repeats isoDateParse defaultConfig))
                   Impression 1000 1001 Healthy (sampleDto "s1" "i1" None)
                   emptyState _ _ twoRetries _ _ _ _)).
  - reflexivity.
  - left. simpl. lia.
  - simpl. lia.
  - repeat constructor; simpl; lia.
Defined.

(** C6 as stated fails, in two ways.  A submission that is refused at the
    save is not accepted, yet it has written the cache entry of its key.  And
    with a cooldown of 120 s against a window of 60 s the cleanup timer
    removes the entry of an accepted key once it is 60 s old: of two retries
    inside the cooldown the one before the firing is rate limited and the one
    after it is accepted. *)
Lemma refused_save_writes_cache_and_retry_is_accepted :
  (trackEvent isoDateParse defaultConfig Impression 1000 1001 WriteFails
     (sampleDto "s1" "i1" None) emptyState).1 = StoreError
  /\ impressionCache emptyState !! dtoKey (sampleDto "s1" "i1" None) = None
  /\ impressionCache
       (trackEvent isoDateParse defaultConfig Impression 1000 1001 WriteFails
          (sampleDto "s1" "i1" None) emptyState).2
     !! dtoKey (sampleDto "s1" "i1" None) = Some 1000
  /\ map isAccepted
       (runSteps isoDateParse longImpressionCooldown Impression
          retriesAcrossCleanup emptyState).1
     = [true; false; true]
  /\ 100000 - 0 < IMPRESSION_COOLDOWN longImpressionCooldown.
Proof. by vm_compute. Qed.

Lemma cache_kept_when_save_fails_witness :
  trackEvent isoDateParse defaultConfig Impression 1000 1001 WriteFails
    (sampleDto "s1" "i1" None) emptyState
  = (StoreError,
     setCache Impression (<[dtoKey (sampleDto "s1" "i1" None) := 1000]> ∅)
       emptyState)
  /\ trackEvent isoDateParse defaultConfig Impression 11000 11001 Healthy
       (sampleDto "s1" "i1" None)
       (setCache Impression (<[dtoKey (sampleDto "s1" "i1" None) := 1000]> ∅)
          emptyState)
     = (RateLimited,
        setCache Impression (<[dtoKey (sampleDto "s1" "i1" None) := 1000]> ∅)
          emptyState).
Proof.
  split; [reflexivity|].
  refine (proj2 (proj2 (proj2
            (cache_kept_when_save_fails isoDateParse defaultConfig Impression
               1000 1001 WriteFails (sampleDto "s1" "i1" None) emptyState _
               eq_refl eq_refl))) 11000 11001 Healthy _ eq_refl eq_refl _).
  simpl. lia.
Defined.

(** C2. The decision is a read ([findOne]) followed, after an [await], by
    the cache update and the insert.  Two calls for one key that both start
    before either has got its answer from the store are both accepted, and
    two events for the key are stored 1 ms apart; run one after the other,
    the second is rejected. *)
Theorem overlapping_calls_both_accepted :
  (let (reqs, st) :=
     runSchedule isoDateParse defaultConfig [0; 1; 0; 1; 0; 1]%nat
       overlappingCalls emptyState in
   map outcomeOf reqs
   = [ Some (Accepted (sampleDoc "u1" "s1" "i1" 1002));
       Some (Accepted (sampleDoc "u1" "s1" "i1" 1003)) ]
   /\ impression_events st
      = [ sampleDoc "u1" "s1" "i1" 1002; sampleDoc "u1" "s1" "i1" 1003 ])
  /\
  (let (reqs, st) :=
     runSchedule isoDateParse defaultConfig [0; 0; 0; 1; 1; 1]%nat
       overlappingCalls emptyState in
   map outcomeOf reqs
   = [ Some (Accepted (sampleDoc "u1" "s1" "i1" 1002)); Some RateLimited ]
   /\ impression_events st = [ sampleDoc "u1" "s1" "i1" 1002 ]).
Proof. split; vm_compute; done. Qed.

(** C8. [getUserAnalytics] fills [clickedItems] from the same query on the
    impression collection as [viewedItems]: for a user who saw two items and
    clicked one it reports 2 clicked items where the click events hold 1. *)
Theorem clickedItems_counts_impressions :
  ua_clickedItems <$> getUserAnalytics "u1" None None sawTwoClickedOne = Some 2
  /\ ua_viewedItems <$> getUserAnalytics "u1" None None sawTwoClickedOne = Some 2
  /\ distinctClickedItems "u1" None None sawTwoClickedOne = Some ["A"%string].
Proof. by vm_compute. Qed.

Lemma purge_removes_exactly_the_old_witness :
  exists res st',
    cleanOldEvents (fun now days => ValidDate (now - days * 86400000))
      defaultConfig Healthy (Some 0) 7776002000 sawTwoClickedOne
    = Some (res, st')
    /\ forall k,
        (forall e ms, In e (eventsOf k st') ->
                      doc_timestamp e = ValidDate ms -> 2000 <= ms)
        /\ eventsOf k st'
           = List.filter (fun e => negb (date_lt (doc_timestamp e) 2000))
               (eventsOf k sawTwoClickedOne)
        /\ (forall e ms, In e (eventsOf k sawTwoClickedOne) ->
                         doc_timestamp e = ValidDate ms -> 2000 <= ms ->
                         In e (eventsOf k st'))
        /\ cleanedOf k res
           = Z.of_nat (length (eventsOf k sawTwoClickedOne))
             - Z.of_nat (length (eventsOf k st'))
        /\ cacheOf k st' = cacheOf k sawTwoClickedOne.
Proof.
  exact (purge_removes_exactly_the_old
           (fun now days => ValidDate (now - days * 86400000))
           defaultConfig Healthy (Some 0) 7776002000 sawTwoClickedOne 2000
           eq_refl eq_refl).
Defined.

(** C3 as stated fails: a batch of two events returns one element. *)
Lemma batch_result_shorter_than_input :
  (trackEventsBatch isoDateParse defaultConfig Impression 1000 1001 Healthy
     twiceTheSame emptyState).1
  = BatchTracked [sampleDoc "u1" "s1" "i1" 1001]
  /\ length [sampleDoc "u1" "s1" "i1" 1001] <> length twiceTheSame.
Proof. split; [by vm_compute|simpl; lia]. Qed.

Lemma batch_returns_the_kept_events_witness :
  [sampleDoc "u1" "s1" "i1" 1001]
  = map (fun d => castDoc Impression (eventData isoDateParse d 1001))
      (select (batchAccepted defaultConfig Impression 1000 Healthy
                 twiceTheSame emptyState) twiceTheSame)
  /\ (length [sampleDoc "u1" "s1" "i1" 1001] <= length twiceTheSame)%nat.
Proof.
  pose proof (batch_returns_the_kept_events isoDateParse defaultConfig
                Impression 1000 1001 Healthy twiceTheSame emptyState
                [sampleDoc "u1" "s1" "i1" 1001] _ eq_refl)
    as (H1 & _ & _ & H2 & _).
  exact (conj H1 H2).
Defined.

(** C4 as stated fails: with the impression cooldown configured as 0 the
    cooldown test never skips an event, and a batch that holds the same event
    twice keeps both and stores two events of one key. *)
Lemma zero_cooldown_batch_keeps_both :
  batchAccepted noImpressionCooldown Impression 1000 Healthy twiceTheSame
    emptyState = [true; true]
  /\ trackEventsBatch isoDateParse noImpressionCooldown Impression 1000 1001
       Healthy twiceTheSame emptyState
     = (BatchTracked [sampleDoc "u1" "s1" "i1" 1001;
                      sampleDoc "u1" "s1" "i1" 1001],
        {| impressionCache := {[ "s1_i1"%string := 1000 ]};
           clickCache := ∅;
           impression_events := [sampleDoc "u1" "s1" "i1" 1001;
                                 sampleDoc "u1" "s1" "i1" 1001];
           click_events := [] |}).
Proof. by vm_compute. Qed.

Lemma batch_keeps_only_the_first_of_a_key_witness :
  batchAccepted defaultConfig Impression 1000 Healthy twiceTheSame emptyState
  !! 1%nat = Some false.
Proof.
  refine (proj1 (batch_keeps_only_the_first_of_a_key isoDateParse defaultConfig
                   Impression 1000 1001 Healthy twiceTheSame emptyState _)
            0%nat 1%nat _ _ _ eq_refl eq_refl eq_refl eq_refl).
  - simpl. lia.
  - lia.
Defined.

(** C5 as stated fails: the empty string does not parse to an instant, yet
    the submission is accepted and stored under the current time. *)
Lemma empty_timestamp_stamped_with_now :
  isoDateParse EmptyString = InvalidDate
  /\ (trackEvent isoDateParse defaultConfig Impression 1000 1001 Healthy
        (sampleDto "s1" "i1" (Some EmptyString)) emptyState).1
     = Accepted (sampleDoc "u1" "s1" "i1" 1001)
  /\ impression_events
       (trackEvent isoDateParse defaultConfig Impression 1000 1001 Healthy
          (sampleDto "s1" "i1" (Some EmptyString)) emptyState).2
     = [sampleDoc "u1" "s1" "i1" 1001].
Proof. by vm_compute. Qed.

Lemma unparsable_timestamp_never_stored_witness :
  doc_timestamp
    (eventData isoDateParse (sampleDto "s1" "i1" (Some "yesterday"%string)) 1001)
  = InvalidDate
  /\ isAccepted
       (trackEvent isoDateParse defaultConfig Impression 1000 1001 Healthy
          (sampleDto "s1" "i1" (Some "yesterday"%string)) emptyState).1
     = false
  /\ (forall k',
        eventsOf k'
          (trackEvent isoDateParse defaultConfig Impression 1000 1001 Healthy
             (sampleDto "s1" "i1" (Some "yesterday"%string)) emptyState).2
        = eventsOf k' emptyState).
Proof.
  refine (proj1 (proj2
            (unparsable_timestamp_never_stored isoDateParse defaultConfig
               Impression 1000 1001 Healthy
               (sampleDto "s1" "i1" (Some "yesterday"%string)) emptyState))
            "yesterday"%string eq_refl _ eq_refl).
  discriminate.
Defined.

(** C7 as stated fails: over impressions {A: 5, B: 5, C: 3} the pipeline
    allows the answer [B, A] as well as [A, B], and [B, A] is not in item_id
    order; it is also what the modelled run returns when B was stored
    first. *)
Lemma trending_tie_order_is_open :
  trendingAnswer (Some 2) None None fiveFiveThree [rowOf "B" 5; rowOf "A" 5]
  /\ trendingAnswer (Some 2) None None fiveFiveThree [rowOf "A" 5; rowOf "B" 5]
  /\ ~ StronglySorted byImpressionsThenId [rowOf "B" 5; rowOf "A" 5]
  /\ getTrendingItems (Some 2) None None fiveFiveThree_B_first
     = Some [rowOf "B" 5; rowOf "A" 5].
Proof.
  assert (StronglySorted byImpressionsDesc
            [rowOf "A" 5; rowOf "B" 5; rowOf "C" 3]) as HsA.
  { repeat constructor; unfold byImpressionsDesc; simpl; lia. }
  assert (StronglySorted byImpressionsDesc
            [rowOf "B" 5; rowOf "A" 5; rowOf "C" 3]) as HsB.
  { repeat constructor; unfold byImpressionsDesc; simpl; lia. }
  split; [|split; [|split]].
  - split; [done|]. exists [rowOf "B" 5; rowOf "A" 5; rowOf "C" 3].
    split; [|by split].
    change (Permutation [rowOf "A" 5; rowOf "B" 5; rowOf "C" 3]
              [rowOf "B" 5; rowOf "A" 5; rowOf "C" 3]).
    apply perm_swap.
  - split; [done|]. exists [rowOf "A" 5; rowOf "B" 5; rowOf "C" 3].
    split; [|by split].
    change (Permutation [rowOf "A" 5; rowOf "B" 5; rowOf "C" 3]
              [rowOf "A" 5; rowOf "B" 5; rowOf "C" 3]).
    reflexivity.
  - intros Hs. apply StronglySorted_cons in Hs as [Hfirst _].
    apply Forall_cons in Hfirst as [[Hlt|[_ Hle]] _].
    + simpl in Hlt. lia.
    + vm_compute in Hle. discriminate.
  - by vm_compute.
Qed.

Lemma trending_sorted_by_count_and_cut_witness :
  StronglySorted byImpressionsDesc [rowOf "B" 5; rowOf "A" 5]
  /\ length [rowOf "B" 5; rowOf "A" 5] = 2%nat.
Proof.
  assert (trendingAnswer (Some 2) None None fiveFiveThree_B_first
            [rowOf "B" 5; rowOf "A" 5]) as Hans.
  { destruct (getPopularItemsAggregation_answer 2 (rangeFilters None None)
                fiveFiveThree_B_first) as (out & Hout & Hans); [lia|].
    vm_compute in Hout. injection Hout as <-. exact Hans. }
  pose proof (trending_sorted_by_count_and_cut (Some 2) None None
                fiveFiveThree_B_first _ Hans) as (H1 & H2 & _).
  exact (conj H1 H2).
Defined.

(** C1 as stated fails: two submissions of one key that arrive 31 s apart
    with client timestamps 1 s apart are both accepted, although the second
    comes 1 s after the first by timestamp, and 31 s after it by arrival,
    which is inside the 60 s window. *)
Lemma backdated_resubmission_accepted :
  map isAccepted
    (runSteps isoDateParse defaultConfig Impression backdatedSubmissions
       emptyState).1
  = [true; true]
  /\ map doc_timestamp
       (impression_events
          (runSteps isoDateParse defaultConfig Impression backdatedSubmissions
             emptyState).2)
     = [ValidDate 1709296215250; ValidDate 1709296216250]
  /\ ruleDecisions (IMPRESSION_COOLDOWN defaultConfig)
       (RATE_LIMIT_WINDOW defaultConfig) []
       [(1709296215250, 1709296215250); (1709296216250, 1709296216250)]
     = [true; false]
  /\ ruleDecisions (IMPRESSION_COOLDOWN defaultConfig)
       (RATE_LIMIT_WINDOW defaultConfig) []
       [(1709296315250, 1709296315250); (1709296346250, 1709296346250)]
     = [true; false].
Proof. by vm_compute. Qed.

Lemma single_submissions_follow_the_rule_witness :
  map isAccepted
    (runSteps isoDateParse defaultConfig Impression mixedSubmissions
       emptyState).1
  = ruleDecisions (IMPRESSION_COOLDOWN defaultConfig)
      (RATE_LIMIT_WINDOW defaultConfig) []
      [(1709296315250, 1709296215250); (1709296346250, 1709296216250);
       (1709296350000, 1709296350001); (1709296377250, 1709296377251);
       (1709296408250, 1709296408251)].
Proof.
  refine (single_submissions_follow_the_rule isoDateParse defaultConfig
            Impression "s1" "i1" 0 mixedSubmissions emptyState _ _ _
            eq_refl eq_refl _ _).
  - discriminate.
  - discriminate.
  - left. simpl. lia.
  - apply Forall_cons; split.
    { repeat (split; [reflexivity|]).
      exists 1709296215250. split; [by vm_compute|simpl; lia]. }
    apply Forall_cons; split; [exact I|].
    apply Forall_cons; split.
    { repeat (split; [reflexivity|]).
      exists 1709296216250. split; [by vm_compute|simpl; lia]. }
    apply Forall_cons; split.
    { repeat (split; [reflexivity|]).
      exists 1709296350001. split; [reflexivity|simpl; lia]. }
    apply Forall_cons; split.
    { repeat (split; [reflexivity|]).
      exists 1709296377251. split; [reflexivity|simpl; lia]. }
    apply Forall_cons; split.
    { repeat (split; [reflexivity|]).
      exists 1709296408251. split; [reflexivity|simpl; lia]. }
    by apply Forall_nil.
  - simpl. lia.
Defined.

(** The run of [mixedSubmissions]: the two client-stamped submissions are
    accepted although they arrive 31 s apart, the next is rate limited, the
    fourth is accepted and the fifth is a duplicate. *)
Example mixedSubmissions_outcomes :
  map isAccepted
    (runSteps isoDateParse defaultConfig Impression mixedSubmissions
       emptyState).1
  = [true; true; false; true; false].
Proof. by vm_compute. Qed.

Example plainSubmissions_outcomes :
  map isAccepted
    (runSteps isoDateParse defaultConfig Impression plainSubmissions
       emptyState).1
  = [true; false; true].
Proof. by vm_compute. Qed.

(** ** Concrete runs of the further properties *)

Lemma colliding_pair_is_rate_limited_witness :
  session_id (sampleDto "s" "a_b" None) <> session_id (sampleDto "s_a" "b" None)
  /\ trackEvent isoDateParse defaultConfig Impression 2000 2001 Healthy
       (sampleDto "s" "a_b" None)
       (trackEvent isoDateParse defaultConfig Impression 1000 1001 Healthy
          (sampleDto "s_a" "b" None) emptyState).2
     = (RateLimited,
        (trackEvent isoDateParse defaultConfig Impression 1000 1001 Healthy
           (sampleDto "s_a" "b" None) emptyState).2).
Proof.
  refine (colliding_pair_is_rate_limited isoDateParse defaultConfig Impression
            1000 1001 Healthy (sampleDto "s_a" "b" None) emptyState _ _
            "s" "a" "b" eq_refl eq_refl eq_refl
            2000 2001 Healthy (sampleDto "s" "a_b" None) eq_refl eq_refl _).
  simpl. lia.
Defined.

Lemma cacheKey_injective_without_underscore_witness :
  cacheKey "s1" "i_1" = cacheKey "s2" "i_2"
  <-> "s1"%string = "s2"%string /\ "i_1"%string = "i_2"%string.
Proof.
  exact (cacheKey_injective_without_underscore "s1" "i_1" "s2" "i_2"
           eq_refl eq_refl).
Defined.

Lemma retry_inside_window_is_duplicate_witness :
  trackEvent isoDateParse defaultConfig Impression 40000 40001 Healthy
    (sampleDto "s1" "i1" None)
    (trackEvent isoDateParse defaultConfig Impression 1000 1001 Healthy
       (sampleDto "s1" "i1" None) emptyState).2
  = (Duplicate,
     (trackEvent isoDateParse defaultConfig Impression 1000 1001 Healthy
        (sampleDto "s1" "i1" None) emptyState).2).
Proof.
  refine (retry_inside_window_is_duplicate isoDateParse defaultConfig Impression
            1000 1001 Healthy (sampleDto "s1" "i1" None) emptyState _ _ 1001
            eq_refl eq_refl
            40000 40001 Healthy (sampleDto "s1" "i1" None)
            eq_refl eq_refl eq_refl _ _); simpl; lia.
Defined.

Lemma batch_of_one_is_the_single_call_witness :
  trackEventsBatch isoDateParse defaultConfig Click 1000 1001 Healthy
    [sampleDto "s1" "i1" None] emptyState
  = (batchOutcomeOf
       (trackEvent isoDateParse defaultConfig Click 1000 1001 Healthy
          (sampleDto "s1" "i1" None) emptyState).1,
     (trackEvent isoDateParse defaultConfig Click 1000 1001 Healthy
        (sampleDto "s1" "i1" None) emptyState).2).
Proof.
  exact (batch_of_one_is_the_single_call isoDateParse defaultConfig Click
           1000 1001 Healthy (sampleDto "s1" "i1" None) emptyState eq_refl).
Defined.

Lemma batch_kept_keys_are_rate_limited_witness :
  trackEvent isoDateParse defaultConfig Impression 20000 20001 Healthy
    (sampleDto "s1" "i1" None)
    (trackEventsBatch isoDateParse defaultConfig Impression 1000 1001
       WriteFails twiceTheSame emptyState).2
  = (RateLimited,
     (trackEventsBatch isoDateParse defaultConfig Impression 1000 1001
        WriteFails twiceTheSame emptyState).2).
Proof.
  refine (proj2 (batch_kept_keys_are_rate_limited isoDateParse defaultConfig
                   Impression 1000 1001 WriteFails twiceTheSame emptyState
                   0%nat (sampleDto "s1" "i1" None) eq_refl eq_refl)
            20000 20001 Healthy (sampleDto "s1" "i1" None) eq_refl eq_refl _).
  simpl. lia.
Defined.

Lemma batch_keeps_no_event_a_single_call_rejects_witness :
  ~ isRejection
      (trackEvent isoDateParse defaultConfig Impression 1000 1001 Healthy
         (sampleDto "s1" "i1" None) emptyState).1.
Proof.
  exact (proj2 (proj2 (proj2
           (batch_keeps_no_event_a_single_call_rejects isoDateParse
              defaultConfig Impression 1000 Healthy twiceTheSame emptyState
              0%nat (sampleDto "s1" "i1" None) eq_refl eq_refl))) 1001).
Defined.

Lemma batch_keeps_the_first_acceptable_of_each_pair_witness :
  batchAccepted defaultConfig Impression 1000 Healthy twiceTheSame emptyState
    !! 1%nat = Some true
  <-> (forall (j : nat) dj, (j < 1)%nat -> twiceTheSame !! j = Some dj ->
         ~ (session_id dj = session_id (sampleDto "s1" "i1" None)
            /\ item_id dj = item_id (sampleDto "s1" "i1" None)))
      /\ ~ isRejection
             (trackEvent isoDateParse defaultConfig Impression 1000 1001
                Healthy (sampleDto "s1" "i1" None) emptyState).1.
Proof.
  refine (batch_keeps_the_first_acceptable_of_each_pair isoDateParse
            defaultConfig Impression 1000 1001 Healthy twiceTheSame emptyState
            1%nat (sampleDto "s1" "i1" None) _ eq_refl _ eq_refl).
  - simpl. lia.
  - repeat constructor.
Defined.

Lemma batch_skips_a_colliding_pair_witness :
  session_id (sampleDto "s_a" "b" None) <> session_id (sampleDto "s" "a_b" None)
  /\ batchAccepted defaultConfig Impression 1000 Healthy collidingBatch
       emptyState !! 1%nat = Some false.
Proof.
  refine (batch_skips_a_colliding_pair defaultConfig Impression
            1000 Healthy collidingBatch emptyState 0%nat 1%nat
            (sampleDto "s_a" "b" None) (sampleDto "s" "a_b" None)
            "s" "a" "b" _ _ eq_refl eq_refl _).
  - simpl. lia.
  - lia.
  - left. repeat split.
Defined.

Lemma cleanup_is_invisible_to_later_calls_witness :
  (forall dto,
      (trackEvent isoDateParse defaultConfig Impression 70000 70001 Healthy dto
         (cleanupTick defaultConfig 65000
            (trackEvent isoDateParse defaultConfig Impression 1000 1001
               Healthy (sampleDto "s1" "i1" None) emptyState).2)).1
      = (trackEvent isoDateParse defaultConfig Impression 70000 70001 Healthy
           dto
           (trackEvent isoDateParse defaultConfig Impression 1000 1001 Healthy
              (sampleDto "s1" "i1" None) emptyState).2).1)
  /\ (forall dtos,
        (trackEventsBatch isoDateParse defaultConfig Impression 70000 70001
           Healthy dtos
           (cleanupTick defaultConfig 65000
              (trackEvent isoDateParse defaultConfig Impression 1000 1001
                 Healthy (sampleDto "s1" "i1" None) emptyState).2)).1
        = (trackEventsBatch isoDateParse defaultConfig Impression 70000 70001
             Healthy dtos
             (trackEvent isoDateParse defaultConfig Impression 1000 1001
                Healthy (sampleDto "s1" "i1" None) emptyState).2).1).
Proof.
  refine (cleanup_is_invisible_to_later_calls isoDateParse defaultConfig
            Impression 65000 70000 70001 Healthy
            (trackEvent isoDateParse defaultConfig Impression 1000 1001 Healthy
               (sampleDto "s1" "i1" None) emptyState).2 _ _); simpl; lia.
Defined.

Lemma second_purge_deletes_nothing_witness :
  cleanOldEvents daysBackUTC defaultConfig Healthy (Some 91) 7776002000
    {| impressionCache := ∅; clickCache := ∅;
       impression_events := [ sampleDoc "u1" "s1" "B" 2000 ];
       click_events := [] |}
  = Some ({| cleaned_impressions := 0; cleaned_clicks := 0 |},
          {| impressionCache := ∅; clickCache := ∅;
             impression_events := [ sampleDoc "u1" "s1" "B" 2000 ];
             click_events := [] |}).
Proof.
  refine (second_purge_deletes_nothing daysBackUTC defaultConfig
            Healthy None 7776002000 sawTwoClickedOne
            {| cleaned_impressions := 1; cleaned_clicks := 1 |} _ 2000
            Healthy (Some 91) 7776002000 (2000 - 86400000)
            eq_refl eq_refl eq_refl eq_refl _).
  lia.
Defined.

Lemma purge_keeps_the_decisions_witness :
  (trackEvent isoDateParse defaultConfig Impression 7776003000 7776003001
     Healthy (sampleDto "s1" "B" None)
     {| impressionCache := ∅; clickCache := ∅;
        impression_events := [ sampleDoc "u1" "s1" "B" 2000 ];
        click_events := [] |}).1
  = (trackEvent isoDateParse defaultConfig Impression 7776003000 7776003001
       Healthy (sampleDto "s1" "B" None) sawTwoClickedOne).1.
Proof.
  refine (purge_keeps_the_decisions isoDateParse daysBackUTC defaultConfig
            Healthy None 7776002000 sawTwoClickedOne
            {| cleaned_impressions := 1; cleaned_clicks := 1 |} _ 2000
            Impression 7776003000 7776003001 Healthy (sampleDto "s1" "B" None)
            eq_refl eq_refl _).
  simpl. lia.
Defined.

Lemma item_analytics_bounds_witness :
  exists ia,
    getItemAnalyticsReads "A" None None threeViews threeViews threeViews
    = Some ia
    /\ ia_uniqueUsers ia <= ia_impressions ia
    /\ ia_uniqueSessions ia <= ia_impressions ia.
Proof.
  eexists. split; [reflexivity|].
  pose proof (item_analytics_bounds "A" None None threeViews threeViews
                threeViews _ eq_refl) as (_ & H1 & H2).
  exact (conj (H1 eq_refl) (proj1 (H2 eq_refl))).
Defined.

(** An impression stored between the count and the read of the sessions:
    the call reports a session and no impression. *)
Example item_analytics_across_a_write :
  getItemAnalyticsReads "A" None None emptyState emptyState threeViews
  = Some {| ia_itemId := "A"; ia_impressions := 0; ia_clicks := 0;
            ia_uniqueUsers := 0; ia_uniqueSessions := 3;
            ia_clickThroughRate := (0, 1) |}.
Proof. by vm_compute. Qed.

Lemma trending_row_bounds_witness :
  1 <= row_impressions (rowOf "B" 5)
  /\ 1 <= row_uniqueSessions (rowOf "B" 5) <= row_impressions (rowOf "B" 5).
Proof.
  assert (popularItemsAnswer 2 (rangeFilters None None) fiveFiveThree_B_first
            [rowOf "B" 5; rowOf "A" 5]) as Hans.
  { destruct (getPopularItemsAggregation_answer 2 (rangeFilters None None)
                fiveFiveThree_B_first) as (out & Hout & Hans); [lia|].
    vm_compute in Hout. injection Hout as <-. exact Hans. }
  pose proof (trending_row_bounds 2 (rangeFilters None None)
                fiveFiveThree_B_first _ (rowOf "B" 5) Hans
                (list_elem_of_here _ _)) as (H1 & H2 & _).
  exact (conj H1 H2).
Defined.

Lemma trending_counts_the_events_in_range_witness :
  totalImpressions [rowOf "B" 5; rowOf "A" 5; rowOf "C" 3]
  = Z.of_nat
      (length
         (List.filter (fun ev => date_gte (doc_timestamp ev) 0
                                 && date_lte (doc_timestamp ev) 5000)
            (impression_events fiveFiveThree_B_first))).
Proof.
  assert (trendingAnswer (Some 3) (Some (ValidDate 0)) (Some (ValidDate 5000))
            fiveFiveThree_B_first
            [rowOf "B" 5; rowOf "A" 5; rowOf "C" 3]) as Hans.
  { destruct (getPopularItemsAggregation_answer 3
                (rangeFilters (Some (ValidDate 0)) (Some (ValidDate 5000)))
                fiveFiveThree_B_first) as (out & Hout & Hans); [lia|].
    vm_compute in Hout. injection Hout as <-. exact Hans. }
  refine (proj2 (trending_counts_the_events_in_range (Some 3) 0 5000
                   fiveFiveThree_B_first _ Hans) _).
  vm_compute. lia.
Defined.

Lemma time_series_rows_witness :
  exists rows,
    getKindTimeSeriesData daysBackUTC isoDayString Impression "A" 7
      1709400000000 threeViews = Some rows
    /\ StronglySorted byDay rows
    /\ NoDup (map ts_id rows)
    /\ totalCount rows
       = Z.of_nat (length (seriesMatch "A" (1709400000000 - 7 * 86400000)
                             (impression_events threeViews))).
Proof.
  destruct (time_series_rows daysBackUTC isoDayString Impression "A" 7
              1709400000000 threeViews (1709400000000 - 7 * 86400000) eq_refl)
    as (rows & H1 & H2 & H3 & _ & H5 & _).
  exists rows. exact (conj H1 (conj H2 (conj H3 H5))).
Defined.

Lemma view_after_listing_is_not_counted_witness :
  trackItemImpression isoDateParse isoDateString defaultConfig "A"
    (createDirectContext "s1" (Some "u1"%string)) None 5000 5000 5001 Healthy
    (trackItemsImpressions isoDateParse isoDateString defaultConfig listedTwice
       (createSearchContext "s1" (Some "u1"%string) None) None
       (fun i => 1000 + Z.of_nat i) 1000 1001 Healthy emptyState)
  = trackItemsImpressions isoDateParse isoDateString defaultConfig listedTwice
      (createSearchContext "s1" (Some "u1"%string) None) None
      (fun i => 1000 + Z.of_nat i) 1000 1001 Healthy emptyState.
Proof.
  refine (view_after_listing_is_not_counted isoDateParse isoDateString
            defaultConfig listedTwice
            (createSearchContext "s1" (Some "u1"%string) None) None
            (fun i => 1000 + Z.of_nat i) 1000 1001 Healthy emptyState
            0%nat "A" _ eq_refl _
            (createDirectContext "s1" (Some "u1"%string)) None 5000 5000 5001
            Healthy eq_refl _).
  - done.
  - by vm_compute.
  - simpl. lia.
Defined.

Lemma impressions_never_store_a_position_witness :
  Forall hasNoPosition
    (impression_events
       (trackItemsImpressions isoDateParse isoDateString defaultConfig
          listedTwice (createSearchContext "s9" None (Some 20)) None
          (fun i => 5000 + Z.of_nat i) 5000 5001 Healthy sawTwoClickedOne)).
Proof.
  refine (proj1 (proj2 (proj2
            (impressions_never_store_a_position isoDateParse isoDateString
               defaultConfig sawTwoClickedOne _)))
            listedTwice (createSearchContext "s9" None (Some 20)) None
            (fun i => 5000 + Z.of_nat i) 5000 5001 Healthy).
  repeat constructor.
Defined.

Lemma listing_stores_one_impression_per_item_witness :
  exists docs,
    impression_events
      (trackItemsImpressions isoDateParse isoDateString defaultConfig
         listedTwice (createSearchContext "s1" None None) None
         (fun i => 1000 + Z.of_nat i) 1000 1001 Healthy emptyState)
    = impression_events emptyState ++ docs
    /\ NoDup (map doc_item_id docs)
    /\ Forall (fun e => doc_session_id e
                        = ctx_session_id (createSearchContext "s1" None None)
                        /\ doc_item_id e ∈ listedTwice) docs
    /\ (length docs <= length (remove_dups listedTwice))%nat.
Proof.
  refine (listing_stores_one_impression_per_item isoDateParse isoDateString
            defaultConfig listedTwice (createSearchContext "s1" None None) None
            (fun i => 1000 + Z.of_nat i) 1000 1001 Healthy emptyState _).
  simpl. lia.
Defined.

(** The listing of [A; B; A] at 1 s stores one impression for A and one for
    B, each under the timestamp its own callback read and without the
    position that was computed for it. *)
Example listing_run :
  impression_events
    (trackItemsImpressions isoDateParse isoDateString defaultConfig listedTwice
       (createSearchContext "s1" None (Some 20)) None
       (fun i => 1000 + Z.of_nat i) 1000 1001 Healthy emptyState)
  = [ {| doc_item_id := "A"; doc_session_id := "s1"; doc_user_id := None;
         doc_source := SEARCH; doc_search_query := None;
         doc_position_in_results := None; doc_timestamp := ValidDate 1000 |};
      {| doc_item_id := "B"; doc_session_id := "s1"; doc_user_id := None;
         doc_source := SEARCH; doc_search_query := None;
         doc_position_in_results := None; doc_timestamp := ValidDate 1001 |} ].
Proof. by vm_compute. Qed.

(** The series of item A over the seven days before 2024-03-02 17:20 UTC. *)
Example time_series_run :
  getTimeSeriesData daysBackUTC isoDayString "A" None
    1709400000000 1709400000001 threeViews
  = Some ([ {| ts_id := "2024-03-01"; ts_count := 2 |};
            {| ts_id := "2024-03-02"; ts_count := 1 |} ],
          [ {| ts_id := "2024-03-02"; ts_count := 1 |} ]).
Proof. by vm_compute. Qed.

Example isoDateString_round_trip :
  isoDateString 1709296215250 = "2024-03-01T12:30:15.250Z"%string
  /\ isoDateParse (isoDateString 1709296215250) = ValidDate 1709296215250
  /\ isoDayString 951782400000 = "2000-02-29"%string.
Proof. by vm_compute. Qed.

Lemma one_bad_timestamp_loses_the_batch_witness :
  (trackEventsBatch isoDateParse defaultConfig Impression 1000 1001 Healthy
     oneBadStamp emptyState).1 = BatchStoreError
  /\ trackEvent isoDateParse defaultConfig Impression 2000 2001 Healthy
       (sampleDto "s1" "i1" None)
       (trackEventsBatch isoDateParse defaultConfig Impression 1000 1001
          Healthy oneBadStamp emptyState).2
     = (RateLimited,
        (trackEventsBatch isoDateParse defaultConfig Impression 1000 1001
           Healthy oneBadStamp emptyState).2).
Proof.
  pose proof (one_bad_timestamp_loses_the_batch isoDateParse defaultConfig
                Impression 1000 1001 Healthy oneBadStamp emptyState 1%nat
                (sampleDto "s1" "i2" (Some "yesterday"%string)) "yesterday"
                eq_refl eq_refl eq_refl ltac:(done) eq_refl)
    as (H1 & _ & H3).
  split; [exact H1|].
  refine (H3 0%nat (sampleDto "s1" "i1" None) eq_refl eq_refl 2000 2001
            Healthy _).
  simpl. lia.
Defined.

Lemma user_analytics_bounds_witness :
  exists ua,
    getUserAnalyticsReads "u1" None None sawTwoClickedOne sawTwoClickedOne
      sawTwoClickedOne = Some ua
    /\ ua_viewedItems ua <= ua_impressions ua
    /\ (0 < ua_impressions ua -> 1 <= ua_viewedItems ua).
Proof.
  eexists. split; [reflexivity|].
  pose proof (user_analytics_bounds "u1" None None sawTwoClickedOne
                sawTwoClickedOne sawTwoClickedOne _ eq_refl) as (_ & H).
  exact (H eq_refl).
Defined.
